(** * VergeOS MCP server: backend client, power-state controller and
      reconfiguration workflow

    A shallow embedding of the [VergeOSAPI] classes of [src/index.js]
    (the stdio server and the HTTP+SSE server) and of the direct-connection
    proxy [local-proxy/index-direct.js].

    Conventions of the embedding.
    - JavaScript values are the inductive [JsVal]; numbers are integers
      (the tool schemas declare [id], [wait_timeout], [cpu_cores] and
      [ram_mb] as numbers; NaN and fractions are outside the model).
    - Every [async] method is a function in the monad [M]: it threads the
      [World] (clock, the client's [this.token], the chronological trace of
      requests and timers) and either returns a value or throws.
    - [Date.now()] reads the clock of the world, in milliseconds.  The clock
      is a simulated one: a [setTimeout] of [ms] advances it by exactly
      [ms].  In the main development a backend round trip takes no time;
      the module [Timed] is the client of [powerOffVM] over round trips
      that take time, and what the code does at a timeout is settled
      there.
    - The body of a request is kept as the value handed to
      [JSON.stringify], so that its fields can be inspected; the code
      stringifies object literals of numbers and strings only.
    - The two requests of a [Promise.all] are run one after the other, in
      the order of the array. *)

From Stdlib Require Import ZArith List String Ascii Bool Lia DecimalString.
Import ListNotations.

Set Warnings "-register-all,-notation-for-abbreviation".
Local Open Scope string_scope.
Local Open Scope Z_scope.

(* ===================================================================== *)
(** ** JavaScript values *)
(* ===================================================================== *)

Inductive JsVal : Type :=
| JUndefined
| JNull
| JBool (b : bool)
| JNum (n : Z)
| JStr (s : string)
| JArr (items : list JsVal)
| JObj (fields : list (string * JsVal)).

(** An object literal: its properties in insertion order. *)
Definition JsObj := list (string * JsVal).

(** What the code can throw. [OutOfFuel] is not a JavaScript exception: it
    is the answer of the polling loop of the model when its recursion bound
    is exhausted, and [powerOffVM_never_out_of_fuel] shows it never is. *)
Inductive Exn : Type :=
| Error (msg : string)
| TypeError
| SyntaxError
| OutOfFuel.

Module Js.

(** ToBoolean. *)
Definition truthy (v : JsVal) : bool :=
  match v with
  | JUndefined | JNull => false
  | JBool b => b
  | JNum n => negb (n =? 0)
  | JStr s => negb (String.eqb s "")
  | JArr _ | JObj _ => true
  end.

(** [a || b] *)
Definition or (a b : JsVal) : JsVal := if truthy a then a else b.

(** Decimal rendering of an integer, as a template literal does. *)
Definition num_to_string (n : Z) : string :=
  NilZero.string_of_int (Z.to_int n).

Definition join (sep : string) (l : list string) : string :=
  match l with
  | [] => ""
  | x :: tl => fold_left (fun acc y => acc ++ sep ++ y) tl x
  end.

(** ToString, as used by [`${v}`]. *)
Fixpoint to_string (v : JsVal) : string :=
  match v with
  | JUndefined => "undefined"
  | JNull => "null"
  | JBool true => "true"
  | JBool false => "false"
  | JNum n => num_to_string n
  | JStr s => s
  | JArr items =>
      join ","
        (map (fun x => match x with
                       | JUndefined | JNull => ""
                       | _ => to_string x
                       end) items)
  | JObj _ => "[object Object]"
  end.

(** Own-property lookup in an object literal. *)
Fixpoint lookup (k : string) (o : JsObj) : option JsVal :=
  match o with
  | [] => None
  | (k', v) :: tl => if String.eqb k k' then Some v else lookup k tl
  end.

(** [o[k] = v]: replaces the property in place or appends it. *)
Fixpoint set_prop (k : string) (v : JsVal) (o : JsObj) : JsObj :=
  match o with
  | [] => [(k, v)]
  | (k', v') :: tl =>
      if String.eqb k k' then (k', v) :: tl else (k', v') :: set_prop k v tl
  end.

(** [v.k]: a TypeError on [undefined] and [null], [undefined] for a missing
    property (the built-in properties of primitives and arrays are not
    used by the code). *)
Definition get (v : JsVal) (k : string) : Exn + JsVal :=
  match v with
  | JUndefined | JNull => inl TypeError
  | JObj o => inr (match lookup k o with Some x => x | None => JUndefined end)
  | _ => inr JUndefined
  end.

(** [o.k] on an object built by the code itself. *)
Definition field (o : JsObj) (k : string) : JsVal :=
  match lookup k o with Some x => x | None => JUndefined end.

Definition has_field (o : JsObj) (k : string) : bool :=
  match lookup k o with Some _ => true | None => false end.

(** [a === b]; two parsed arrays or objects are never the same reference. *)
Definition strict_eq (a b : JsVal) : bool :=
  match a, b with
  | JUndefined, JUndefined => true
  | JNull, JNull => true
  | JBool x, JBool y => Bool.eqb x y
  | JNum x, JNum y => x =? y
  | JStr x, JStr y => String.eqb x y
  | _, _ => false
  end.

Fixpoint index_fields (i : nat) (l : list JsVal) : JsObj :=
  match l with
  | [] => []
  | x :: tl => (num_to_string (Z.of_nat i), x) :: index_fields (S i) tl
  end.

Fixpoint chars (s : string) : list JsVal :=
  match s with
  | EmptyString => []
  | String c tl => JStr (String c EmptyString) :: chars tl
  end.

(** The own enumerable properties copied by [{...v}]. *)
Definition spread (v : JsVal) : JsObj :=
  match v with
  | JObj o => o
  | JArr l => index_fields 0 l
  | JStr s => index_fields 0 (chars s)
  | _ => []
  end.

(** [Math.round(ms / 1000)] on an integer number of milliseconds: halves
    round towards plus infinity. *)
Definition round_div_1000 (ms : Z) : Z := (ms + 500) / 1000.

(** [s.includes(sub)] *)
Fixpoint includes (s sub : string) : bool :=
  if String.prefix sub s then true
  else match s with
       | EmptyString => false
       | String _ tl => includes tl sub
       end.

Definition b64_alphabet : string :=
  "ABCDEFGHIJKLMNOPQRSTUVWXYZabcdefghijklmnopqrstuvwxyz0123456789+/".

Definition b64_digit (n : N) : string :=
  match String.get (N.to_nat (n mod 64)) b64_alphabet with
  | Some c => String c EmptyString
  | None => ""
  end.

Fixpoint b64_groups (bytes : list N) : string :=
  match bytes with
  | [] => ""
  | [a] =>
      let n := (a * 65536)%N in
      b64_digit (n / 262144) ++ b64_digit (n / 4096) ++ "=="
  | [a; b] =>
      let n := (a * 65536 + b * 256)%N in
      b64_digit (n / 262144) ++ b64_digit (n / 4096) ++ b64_digit (n / 64) ++ "="
  | a :: b :: c :: tl =>
      let n := (a * 65536 + b * 256 + c)%N in
      b64_digit (n / 262144) ++ b64_digit (n / 4096) ++ b64_digit (n / 64)
      ++ b64_digit n ++ b64_groups tl
  end.

(** [Buffer.from(s).toString("base64")] on a string of bytes. *)
Definition base64 (s : string) : string :=
  b64_groups (map N_of_ascii (list_ascii_of_string s)).

End Js.

(* ===================================================================== *)
(** ** The world: clock, credential, trace; the backend *)
(* ===================================================================== *)

(** The environment variables read at start-up, each already defaulted to
    the empty string by [process.env.X || ""]. *)
Record Env : Type := mkEnv {
  VERGEOS_HOST : string;
  VERGEOS_USER : string;
  VERGEOS_PASS : string;
  VERGEOS_TOKEN : string
}.

(** The [options] argument of [fetch] and [request]. *)
Record Options : Type := mkOptions {
  opt_method : option string;
  opt_headers : list (string * string);
  opt_body : option JsVal
}.

Definition no_options : Options := mkOptions None [] None.

(** What reaches node-fetch. *)
Record Request : Type := mkRequest {
  req_url : string;
  req_method : option string;
  req_headers : list (string * string);
  req_body : option JsVal
}.

(** A response: [status], [statusText], the raw body read by [text()], and the value
    [json()] resolves to ([None] when the body is not JSON). *)
Record Response : Type := mkResponse {
  resp_status : Z;
  resp_statusText : string;
  resp_text : string;
  resp_json : option JsVal
}.

Definition resp_ok (r : Response) : bool :=
  (200 <=? resp_status r) && (resp_status r <=? 299).

Inductive Event : Type :=
| EvRequest (r : Request)
| EvSleep (ms : Z).

Record World : Type := mkWorld {
  now : Z;
  token : JsVal;
  trace : list Event
}.

(** The backend answers a request from the time it arrives and from
    everything that happened before. *)
Definition Backend : Type := Z -> list Event -> Request -> Response.

(** State and exception monad of the async methods. *)
Definition M (A : Type) : Type := World -> (Exn + A) * World.

Definition ret {A} (a : A) : M A := fun w => (inr a, w).
Definition throw {A} (e : Exn) : M A := fun w => (inl e, w).
Definition bind {A B} (m : M A) (k : A -> M B) : M B :=
  fun w => match m w with
           | (inl e, w') => (inl e, w')
           | (inr a, w') => k a w'
           end.
Definition lift {A} (r : Exn + A) : M A :=
  match r with inl e => throw e | inr a => ret a end.

Declare Scope js_scope.
Delimit Scope js_scope with js.
Notation "x <- m ;; k" := (bind m (fun x => k))
  (at level 61, m at next level, right associativity) : js_scope.
Notation "m ;; k" := (bind m (fun _ => k))
  (at level 61, right associativity) : js_scope.
Local Open Scope js_scope.

(** [Date.now()] *)
Definition date_now : M Z := fun w => (inr (now w), w).

(** [await new Promise(resolve => setTimeout(resolve, ms))] *)
Definition sleep (ms : Z) : M unit :=
  fun w => (inr tt, mkWorld (now w + ms) (token w) (trace w ++ [EvSleep ms])).

Definition get_this_token : M JsVal := fun w => (inr (token w), w).
Definition set_this_token (t : JsVal) : M unit :=
  fun w => (inr tt, mkWorld (now w) t (trace w)).

(** node-fetch: the request is recorded and the backend answers.  Here a
    round trip takes no time: [now] counts the timers only.
    [Timed.node_fetch] below is the same with round trips that take
    time. *)
Definition node_fetch (backend : Backend) (r : Request) : M Response :=
  fun w => (inr (backend (now w) (trace w) r),
            mkWorld (now w) (token w) (trace w ++ [EvRequest r])).

(** [await response.json()] *)
Definition response_json (r : Response) : M JsVal :=
  match resp_json r with
  | Some v => ret v
  | None => throw SyntaxError
  end.

(* ===================================================================== *)
(** ** class VergeOSAPI: the backend client *)
(* ===================================================================== *)

Section VergeOSAPI.

Variable env : Env.
Variable backend : Backend.
(** The text of the error thrown by [getToken] without credentials: the
    only difference between the two copies of [getToken]. *)
Variable not_configured : string.

Definition baseUrl : string := "https://" ++ VERGEOS_HOST env.

Definition header (k : string) (hs : list (string * string)) : option string :=
  match find (fun kv => String.eqb k (fst kv)) hs with
  | Some kv => Some (snd kv)
  | None => None
  end.

Fixpoint set_header (k v : string) (hs : list (string * string))
  : list (string * string) :=
  match hs with
  | [] => [(k, v)]
  | (k', v') :: tl =>
      if String.eqb k k' then (k', v) :: tl else (k', v') :: set_header k v tl
  end.

(** [!options.headers?.Authorization] *)
Definition no_authorization (options : Options) : bool :=
  match header "Authorization" (opt_headers options) with
  | Some v => String.eqb v ""
  | None => true
  end.

(** The [url] and [fetchOptions] that [fetch] hands to node-fetch. *)
Definition fetchOptions (path : string) (options : Options) (this_token : JsVal)
  : Request :=
  let url := baseUrl ++ path in
  let headers :=
    if Js.truthy this_token && no_authorization options
    then set_header "Cookie" ("token=" ++ Js.to_string this_token)
                    (opt_headers options)
    else opt_headers options in
  mkRequest url (opt_method options) headers (opt_body options).

(** [async fetch(path, options = {})] *)
Definition fetch (path : string) (options : Options) : M Response :=
  this_token <- get_this_token ;;
  node_fetch backend (fetchOptions path options this_token).

Definition login_options : Options :=
  mkOptions (Some "POST")
    [("Content-Type", "application/json");
     ("Authorization",
      "Basic " ++ Js.base64 (VERGEOS_USER env ++ ":" ++ VERGEOS_PASS env))]
    (Some (JObj [("login", JStr (VERGEOS_USER env));
                 ("password", JStr (VERGEOS_PASS env))])).

(** [async getToken()] *)
Definition getToken : M JsVal :=
  this_token <- get_this_token ;;
  if Js.truthy this_token then ret this_token
  else if String.eqb (VERGEOS_USER env) "" || String.eqb (VERGEOS_PASS env) ""
  then throw (Error not_configured)
  else
    response <- fetch "/api/sys/tokens" login_options ;;
    data <- response_json response ;;
    key <- lift (Js.get data "$key") ;;
    set_this_token key ;;
    get_this_token.

Definition api_error (response : Response) : Exn :=
  Error ("API Error " ++ Js.num_to_string (resp_status response) ++ ": "
         ++ resp_text response).

(** [async request(path, options = {})] *)
Definition request (path : string) (options : Options) : M JsVal :=
  getToken ;;
  response <- fetch path options ;;
  if negb (resp_ok response) then throw (api_error response)
  else response_json response.

End VergeOSAPI.

(** The two constructors: the stdio server seeds [this.token] with the
    static token of the environment, the HTTP server starts with [null]. *)
Module Stdio.
Definition not_configured : string :=
  "VergeOS credentials not configured. Set VERGEOS_USER and VERGEOS_PASS or VERGEOS_TOKEN".
Definition constructor (env : Env) : JsVal := JStr (VERGEOS_TOKEN env).
Definition getToken env backend : M JsVal :=
  getToken env backend not_configured.
Definition request env backend path options : M JsVal :=
  request env backend not_configured path options.
End Stdio.

Module Http.
Definition not_configured : string := "VergeOS credentials not configured".
Definition constructor (env : Env) : JsVal := JNull.
Definition getToken env backend : M JsVal :=
  getToken env backend not_configured.
Definition request env backend path options : M JsVal :=
  request env backend not_configured path options.
End Http.

(* ===================================================================== *)
(** ** The HTTP server's VM operations *)
(* ===================================================================== *)

(** [await Promise.all([p, q])] for two requests: both are issued, in the
    order of the array, also when the first fails; the first failure is the
    one thrown.  The model runs the second request when the first has been
    answered.  It agrees with the code for a client that holds a token and
    a backend that answers in the order of the requests; without a cached
    token the two requests of the code each log in, and of two failures
    the code throws the earlier one. *)
Definition promise_all2 {A B} (p : M A) (q : M B) : M (A * B) :=
  fun w =>
    let (ra, w1) := p w in
    let (rb, w2) := q w1 in
    match ra, rb with
    | inl e, _ => (inl e, w2)
    | inr _, inl e => (inl e, w2)
    | inr a, inr b => (inr (a, b), w2)
    end.

(** [statuses.find(s => s.machine === vm.machine)] on the elements. *)
Fixpoint find_machine (items : list JsVal) (vm : JsVal) : Exn + JsVal :=
  match items with
  | [] => inr JUndefined
  | s :: tl =>
      match Js.get s "machine", Js.get vm "machine" with
      | inl e, _ => inl e
      | inr _, inl e => inl e
      | inr sm, inr vmm => if Js.strict_eq sm vmm then inr s else find_machine tl vm
      end
  end.

(** [statuses.find(...)]: a TypeError when [statuses] is not an array. *)
Definition statuses_find (statuses vm : JsVal) : Exn + JsVal :=
  match statuses with
  | JArr items => find_machine items vm
  | _ => inl TypeError
  end.

(** The destructured [options] of [powerOffVM]; [None] is [undefined]. *)
Record PowerOffOptions : Type := mkPowerOffOptions {
  po_wait_timeout : option Z;
  po_force_after_timeout : option bool
}.

(** The destructured [options] of [modifyVM]. *)
Record ModifyOptions : Type := mkModifyOptions {
  mo_cpu_cores : option Z;
  mo_ram_mb : option Z;
  mo_shutdown_if_running : option bool;
  mo_wait_timeout : option Z;
  mo_force_after_timeout : option bool
}.

(** A destructured binding with a default: the default replaces [undefined]. *)
Definition default {A} (d : A) (o : option A) : A :=
  match o with Some a => a | None => d end.

(** An optional number as the JavaScript value it is. *)
Definition opt_num (o : option Z) : JsVal :=
  match o with Some n => JNum n | None => JUndefined end.

Definition pollInterval : Z := 3000.

(** [Math.min(wait_timeout, 300) * 1000] *)
Definition maxWait_of (wait_timeout : Z) : Z := Z.min wait_timeout 300 * 1000.

(** Enough iterations for any [maxWait]: the clock advances by
    [pollInterval] in each. *)
Definition poll_fuel (maxWait : Z) : nat := S (Z.to_nat (maxWait / pollInterval)).

Definition json_headers : list (string * string) :=
  [("Content-Type", "application/json")].

(** *** The object literals returned by [powerOffVM] *)

(** [`VM '${status.name}' ...`] *)
Definition quoted_name (o : JsObj) : string :=
  "VM '" ++ Js.to_string (Js.field o "name") ++ "'".

(** The VM was not running (index.js line 903). *)
Definition already_stopped_result (status : JsObj) : JsObj :=
  [("success", JBool true);
   ("message", JStr (quoted_name status ++ " is already stopped"));
   ("current_state", Js.field status "power_state");
   ("was_running", JBool false)].

(** No wait was requested (lines 911-916). *)
Definition no_wait_result (status : JsObj) : JsObj :=
  [("success", JBool true);
   ("message", JStr ("Graceful shutdown command sent to " ++ quoted_name status));
   ("previous_state", Js.field status "power_state");
   ("note", JStr "Use wait_timeout parameter to wait for shutdown completion")].

(** A poll saw the VM stopped (lines 929-934); [elapsed_ms] is
    [Date.now() - startTime]. *)
Definition graceful_result (status currentStatus : JsObj) (elapsed_ms : Z) : JsObj :=
  [("success", JBool true);
   ("message", JStr (quoted_name status ++ " shut down gracefully"));
   ("final_state", Js.field currentStatus "power_state");
   ("elapsed_seconds", JNum (Js.round_div_1000 elapsed_ms))].

(** The timeout was reached and the VM was killed (lines 944-950). *)
Definition forced_result (status : JsObj) (wait_timeout : Z) (finalStatus : JsObj)
    (elapsed_ms : Z) : JsObj :=
  [("success", JBool true);
   ("message", JStr (quoted_name status ++ " did not shut down within "
                     ++ Js.num_to_string wait_timeout ++ "s - forced power off"));
   ("final_state", Js.field finalStatus "power_state");
   ("forced", JBool true);
   ("elapsed_seconds", JNum (Js.round_div_1000 elapsed_ms))].

(** The timeout was reached without the force option (lines 955-961). *)
Definition timeout_result (status : JsObj) (wait_timeout : Z) (currentStatus : JsObj)
    (elapsed_ms : Z) : JsObj :=
  [("success", JBool false);
   ("error", JStr (quoted_name status ++ " did not shut down within "
                   ++ Js.num_to_string wait_timeout ++ "s"));
   ("current_state", Js.field currentStatus "power_state");
   ("elapsed_seconds", JNum (Js.round_div_1000 elapsed_ms));
   ("hint", JStr "Use force_after_timeout=true to automatically force shutdown after timeout")].

(** *** The object literals returned by [modifyVM] *)

(** Neither field was given (line 1090). *)
Definition nothing_to_modify_result : JsObj :=
  [("success", JBool false);
   ("error", JStr "Must specify cpu_cores and/or ram_mb to modify")].

(** The VM runs and may not be shut down (lines 1104-1113). *)
Definition running_result (vm status : JsObj) (cpu_cores ram_mb : JsVal) : JsObj :=
  [("success", JBool false);
   ("error", JStr (quoted_name vm ++ " is currently running. CPU/RAM changes require the VM to be powered off."));
   ("current_state", Js.field status "power_state");
   ("current_cpu", Js.field vm "cpu_cores");
   ("current_ram_mb", Js.field vm "ram");
   ("requested_cpu", Js.or cpu_cores (Js.field vm "cpu_cores"));
   ("requested_ram_mb", Js.or ram_mb (Js.field vm "ram"));
   ("hint", JStr "Set shutdown_if_running=true to automatically shut down the VM, apply changes, and optionally restart it")].

(** The shutdown failed (lines 1119-1123). *)
Definition shutdown_failed_result (vm shutdownResult : JsObj) : JsObj :=
  [("success", JBool false);
   ("error", JStr ("Failed to shut down " ++ quoted_name vm ++ ": "
                   ++ Js.to_string (Js.field shutdownResult "error")));
   ("shutdown_result", JObj shutdownResult)].

(** The change was applied (lines 1134-1144). *)
Definition modified_result (vmId : Z) (vm status : JsObj) (cpu_cores ram_mb : JsVal)
    : JsObj :=
  [("success", JBool true);
   ("message", JStr (quoted_name vm ++ " modified successfully"));
   ("vm_id", JNum vmId);
   ("previous_cpu", Js.field vm "cpu_cores");
   ("previous_ram_mb", Js.field vm "ram");
   ("new_cpu", Js.or cpu_cores (Js.field vm "cpu_cores"));
   ("new_ram_mb", Js.or ram_mb (Js.field vm "ram"));
   ("was_running", Js.field status "running");
   ("note", JStr (if Js.truthy (Js.field status "running")
                  then "VM was shut down to apply changes. Use power_on_vm to restart it."
                  else "VM is stopped. Use power_on_vm to start it with new settings."))].

(** [changes = {}; if (cpu_cores) changes.cpu_cores = cpu_cores;
    if (ram_mb) changes.ram = ram_mb;] *)
Definition build_changes (cpu_cores ram_mb : JsVal) : JsObj :=
  let changes := [] in
  let changes := if Js.truthy cpu_cores
                 then Js.set_prop "cpu_cores" cpu_cores changes else changes in
  let changes := if Js.truthy ram_mb
                 then Js.set_prop "ram" ram_mb changes else changes in
  changes.

(** [shutdownResult.message?.includes("already stopped")]; the message of a
    result is a string or missing. *)
Definition message_includes (r : JsObj) (sub : string) : bool :=
  match Js.field r "message" with
  | JStr s => Js.includes s sub
  | _ => false
  end.

Section HttpServer.

Variable env : Env.
Variable backend : Backend.

Let request := Http.request env backend.

(** [async getVM(id)] *)
Definition getVM (id : Z) : M JsObj :=
  p <- promise_all2
         (request ("/api/v4/vms/" ++ Js.num_to_string id ++ "?fields=most") no_options)
         (request "/api/v4/machine_status" no_options) ;;
  let (vm, statuses) := (p : JsVal * JsVal) in
  found <- lift (statuses_find statuses vm) ;;
  let status := Js.or found (JObj []) in
  st_status <- lift (Js.get status "status") ;;
  st_running <- lift (Js.get status "running") ;;
  st_info <- lift (Js.get status "status_info") ;;
  st_migratable <- lift (Js.get status "migratable") ;;
  ret (Js.set_prop "migratable" (Js.or st_migratable (JBool false))
      (Js.set_prop "status_info" (Js.or st_info (JStr ""))
      (Js.set_prop "running" (Js.or st_running (JBool false))
      (Js.set_prop "power_state" (Js.or st_status (JStr "unknown"))
      (Js.spread vm))))).

(** [async getVMStatus(id)] *)
Definition getVMStatus (id : Z) : M JsObj :=
  vm <- request ("/api/v4/vms/" ++ Js.num_to_string id ++ "?fields=most") no_options ;;
  statuses <- request "/api/v4/machine_status" no_options ;;
  status <- lift (statuses_find statuses vm) ;;
  if negb (Js.truthy status) then
    vm_name <- lift (Js.get vm "name") ;;
    ret [("vm_id", JNum id); ("name", vm_name);
         ("power_state", JStr "unknown"); ("running", JBool false)]
  else
    vm_name <- lift (Js.get vm "name") ;;
    vm_machine <- lift (Js.get vm "machine") ;;
    st_running <- lift (Js.get status "running") ;;
    st_status <- lift (Js.get status "status") ;;
    st_info <- lift (Js.get status "status_info") ;;
    st_migratable <- lift (Js.get status "migratable") ;;
    ret [("vm_id", JNum id); ("name", vm_name); ("machine", vm_machine);
         ("running", st_running); ("power_state", st_status);
         ("status_info", Js.or st_info (JStr ""));
         ("migratable", st_migratable)].

(** [async vmAction(id, action)] *)
Definition vmAction (id : Z) (action : string) : M JsVal :=
  request "/api/v4/vm_actions"
    (mkOptions (Some "POST") json_headers
       (Some (JObj [("vm", JNum id); ("action", JStr action)]))).

(** The [while] loop of [powerOffVM]: [Some r] when the loop returns [r],
    [None] when its condition fails. *)
Fixpoint poll_loop (fuel : nat) (id : Z) (status : JsObj)
    (startTime maxWait : Z) : M (option JsObj) :=
  t <- date_now ;;
  if t - startTime <? maxWait then
    match fuel with
    | O => throw OutOfFuel
    | S fuel' =>
        sleep pollInterval ;;
        currentStatus <- getVMStatus id ;;
        if negb (Js.truthy (Js.field currentStatus "running")) then
          t' <- date_now ;;
          ret (Some (graceful_result status currentStatus (t' - startTime)))
        else poll_loop fuel' id status startTime maxWait
    end
  else ret None.

(** [async powerOffVM(id, options = {})] *)
Definition powerOffVM (id : Z) (options : PowerOffOptions) : M JsObj :=
  let wait_timeout := default 0 (po_wait_timeout options) in
  let force_after_timeout := default false (po_force_after_timeout options) in
  status <- getVMStatus id ;;
  if negb (Js.truthy (Js.field status "running")) then
    ret (already_stopped_result status)
  else
    vmAction id "poweroff" ;;
    if wait_timeout <=? 0 then
      ret (no_wait_result status)
    else
      startTime <- date_now ;;
      let maxWait := maxWait_of wait_timeout in
      polled <- poll_loop (poll_fuel maxWait) id status startTime maxWait ;;
      match polled with
      | Some result => ret result
      | None =>
          if force_after_timeout then
            vmAction id "kill" ;;
            sleep 2000 ;;
            finalStatus <- getVMStatus id ;;
            t <- date_now ;;
            ret (forced_result status wait_timeout finalStatus (t - startTime))
          else
            currentStatus <- getVMStatus id ;;
            t <- date_now ;;
            ret (timeout_result status wait_timeout currentStatus (t - startTime))
      end.

(** The tail of [modifyVM], reached when the VM is stopped or has been
    shut down (lines 1127-1144): the update request and the result. *)
Definition apply_changes (vmId : Z) (vm status : JsObj) (cpu_cores ram_mb : JsVal)
    (changes : JsObj) : M JsObj :=
  request ("/api/v4/vms/" ++ Js.num_to_string vmId)
    (mkOptions (Some "PUT") json_headers (Some (JObj changes))) ;;
  ret (modified_result vmId vm status cpu_cores ram_mb).

(** [async modifyVM(vmId, options = {})] *)
Definition modifyVM (vmId : Z) (options : ModifyOptions) : M JsObj :=
  let cpu_cores := opt_num (mo_cpu_cores options) in
  let ram_mb := opt_num (mo_ram_mb options) in
  let shutdown_if_running := default false (mo_shutdown_if_running options) in
  let wait_timeout := default 60 (mo_wait_timeout options) in
  let force_after_timeout := default true (mo_force_after_timeout options) in
  if negb (Js.truthy cpu_cores) && negb (Js.truthy ram_mb) then
    ret nothing_to_modify_result
  else
    vm <- getVM vmId ;;
    status <- getVMStatus vmId ;;
    let changes := build_changes cpu_cores ram_mb in
    if Js.truthy (Js.field status "running") then
      if negb shutdown_if_running then
        ret (running_result vm status cpu_cores ram_mb)
      else
        shutdownResult <- powerOffVM vmId
          (mkPowerOffOptions (Some wait_timeout) (Some force_after_timeout)) ;;
        if negb (Js.truthy (Js.field shutdownResult "success"))
           && negb (message_includes shutdownResult "already stopped") then
          ret (shutdown_failed_result vm shutdownResult)
        else apply_changes vmId vm status cpu_cores ram_mb changes
    else apply_changes vmId vm status cpu_cores ram_mb changes.

End HttpServer.

(* ===================================================================== *)
(** ** The direct-connection proxy (local-proxy/index-direct.js) *)
(* ===================================================================== *)

Module Direct.
Section Direct.

Variable env : Env.
Variable backend : Backend.

Definition BASE_URL : string := "https://" ++ VERGEOS_HOST env.

(** [async function getToken()]; the module variable [authToken] is the
    [token] of the world. *)
Definition getToken : M JsVal :=
  authToken <- get_this_token ;;
  if Js.truthy authToken then ret authToken
  else
    response <- node_fetch backend
      (mkRequest (BASE_URL ++ "/api/sys/tokens") (Some "POST")
         [("Content-Type", "application/json");
          ("Authorization",
           "Basic " ++ Js.base64 (VERGEOS_USER env ++ ":" ++ VERGEOS_PASS env))]
         (Some (JObj [("login", JStr (VERGEOS_USER env));
                      ("password", JStr (VERGEOS_PASS env))]))) ;;
    if negb (resp_ok response)
    then throw (Error ("Auth failed: " ++ Js.num_to_string (resp_status response)))
    else
      data <- response_json response ;;
      key <- lift (Js.get data "$key") ;;
      set_this_token key ;;
      get_this_token.

(** [async function apiRequest(path, options = {})].  The function calls
    itself after a 401 without any bound; [fuel] bounds the number of
    attempts of the model. *)
Fixpoint apiRequest (fuel : nat) (path : string) (options : Options) : M JsVal :=
  match fuel with
  | O => throw OutOfFuel
  | S fuel' =>
      tok <- getToken ;;
      response <- node_fetch backend
        (mkRequest (BASE_URL ++ path) (opt_method options)
           (fold_left (fun hs kv => set_header (fst kv) (snd kv) hs)
              (opt_headers options)
              [("Content-Type", "application/json");
               ("Cookie", "token=" ++ Js.to_string tok)])
           (opt_body options)) ;;
      if resp_status response =? 401 then
        set_this_token JNull ;;
        apiRequest fuel' path options
      else if negb (resp_ok response) then
        throw (Error ("API Error: " ++ Js.num_to_string (resp_status response)
                      ++ " " ++ resp_statusText response))
      else response_json response
  end.

End Direct.
End Direct.

(* ===================================================================== *)
(** ** Fake backends and environments for the scenarios *)
(* ===================================================================== *)

Module Fake.

Definition env : Env := mkEnv "verge.test" "admin" "secret" "".

(** Both a credential pair and a static token are configured. *)
Definition env_both : Env := mkEnv "verge.test" "admin" "secret" "static-token".

Definition base : string := "https://verge.test".

Definition ok_json (v : JsVal) : Response := mkResponse 200 "OK" "" (Some v).

Definition status_label (running : bool) : string :=
  if running then "running" else "stopped".

(** A backend with one VM [id] (machine [id * 10], 2 cores, 4096 MB)
    next to another machine; [running] tells from the time and the
    history whether the VM runs.  Every login yields the token "tok". *)
Definition vm_backend (id : Z) (running : Z -> list Event -> bool) : Backend :=
  fun t history r =>
    let url := req_url r in
    if String.eqb url (base ++ "/api/sys/tokens") then
      ok_json (JObj [("$key", JStr "tok")])
    else if String.eqb url (base ++ "/api/v4/vms/" ++ Js.num_to_string id ++ "?fields=most") then
      ok_json (JObj [("$key", JNum id); ("name", JStr "web"); ("machine", JNum (id * 10));
                     ("cpu_cores", JNum 2); ("ram", JNum 4096)])
    else if String.eqb url (base ++ "/api/v4/machine_status") then
      ok_json (JArr [JObj [("machine", JNum 1); ("running", JBool true);
                           ("status", JStr "running")];
                     JObj [("machine", JNum (id * 10));
                           ("running", JBool (running t history));
                           ("status", JStr (status_label (running t history)));
                           ("status_info", JStr "");
                           ("migratable", JBool true)]])
    else if String.eqb url (base ++ "/api/v4/vm_actions") then
      ok_json (JObj [])
    else if String.eqb url (base ++ "/api/v4/vms/" ++ Js.num_to_string id) then
      ok_json (JObj [])
    else mkResponse 404 "Not Found" "not found" None.

(** What [getVMStatus] makes of the answers of [vm_backend]. *)
Definition status_of (id : Z) (running : bool) : JsObj :=
  [("vm_id", JNum id); ("name", JStr "web"); ("machine", JNum (id * 10));
   ("running", JBool running); ("power_state", JStr (status_label running));
   ("status_info", JStr ""); ("migratable", JBool true)].


Definition is_status_read (e : Event) : bool :=
  match e with
  | EvRequest r => String.eqb (req_url r) (base ++ "/api/v4/machine_status")
  | EvSleep _ => false
  end.

(** The VM is reported running by the first [n] reads of the status list
    and stopped by the later ones. *)
Definition running_for_reads (n : nat) : Z -> list Event -> bool :=
  fun _ history => Nat.ltb (List.length (filter is_status_read history)) n.

Definition never_stops : Z -> list Event -> bool := fun _ _ => true.
Definition stopped : Z -> list Event -> bool := fun _ _ => false.

(** The backend accepts the token "fresh" only: a login hands it out,
    any other cookie is answered with 401. *)
Definition expiring_backend : Backend :=
  fun t history r =>
    if String.eqb (req_url r) (base ++ "/api/sys/tokens") then
      ok_json (JObj [("$key", JStr "fresh")])
    else match header "Cookie" (req_headers r) with
         | Some c =>
             if String.eqb c "token=fresh" then ok_json (JArr [])
             else mkResponse 401 "Unauthorized" "token expired" None
         | None => mkResponse 401 "Unauthorized" "token expired" None
         end.

(** A backend that answers every request with the same error. *)
Definition failing_backend (status : Z) (body : string) : Backend :=
  fun _ _ _ => mkResponse status "Error" body None.

(** A client that has just been constructed, at time 0. *)
Definition fresh_http : World := mkWorld 0 (Http.constructor env) [].
Definition fresh_stdio (e : Env) : World := mkWorld 0 (Stdio.constructor e) [].
(** A client holding a token, at time 0. *)
Definition holding (tok : string) : World := mkWorld 0 (JStr tok) [].

End Fake.

(* ===================================================================== *)
(** ** The HTTP server's other VM, drive, snapshot and log operations *)
(* ===================================================================== *)

Module JsArray.

(** [items.filter(x => x[key] === v)]: the callback runs on the elements in
    order and throws on an element that is [null] or [undefined]. *)
Fixpoint filter_eq (key : string) (v : JsVal) (items : list JsVal)
  : Exn + list JsVal :=
  match items with
  | [] => inr []
  | x :: tl =>
      match Js.get x key with
      | inl e => inl e
      | inr xv =>
          match filter_eq key v tl with
          | inl e => inl e
          | inr kept => inr (if Js.strict_eq xv v then x :: kept else kept)
          end
      end
  end.

(** [items.slice(0, stop)]: a negative [stop] counts from the end. *)
Definition slice_to {A} (stop : Z) (items : list A) : list A :=
  let len := Z.of_nat (List.length items) in
  let final := if stop <? 0 then Z.max (len + stop) 0 else Z.min stop len in
  firstn (Z.to_nat final) items.

(** [items.map(f)] for a callback that can throw. *)
Fixpoint map_exn {A B} (f : A -> Exn + B) (items : list A) : Exn + list B :=
  match items with
  | [] => inr []
  | x :: tl =>
      match f x with
      | inl e => inl e
      | inr y =>
          match map_exn f tl with
          | inl e => inl e
          | inr ys => inr (y :: ys)
          end
      end
  end.

End JsArray.

(** An optional string argument as the JavaScript value it is. *)
Definition opt_str (o : option string) : JsVal :=
  match o with Some s => JStr s | None => JUndefined end.

(** The destructured [options] of [addDrive]. *)
Record AddDriveOptions : Type := mkAddDriveOptions {
  ad_name : option string;
  ad_size_gb : option Z;
  ad_interface_type : option string;
  ad_description : option string
}.

(** The destructured [options] of [createVMSnapshot]. *)
Record SnapshotOptions : Type := mkSnapshotOptions {
  so_name : option string;
  so_description : option string;
  so_expires_days : option Z;
  so_quiesce : option bool
}.

(** The destructured [options] of [getLogs]. *)
Record LogOptions : Type := mkLogOptions {
  lo_limit : option Z;
  lo_level : option string;
  lo_object_type : option string
}.

(** [1024 * 1024 * 1024] *)
Definition GiB : Z := 1024 * 1024 * 1024.

(** The summary [getLogs] makes of one log entry (lines 1207-1215). *)
Definition log_summary (log : JsVal) : Exn + JsObj :=
  match Js.get log "$key", Js.get log "dbtime", Js.get log "level",
        Js.get log "text", Js.get log "user", Js.get log "object_type",
        Js.get log "object_name" with
  | inr k, inr t, inr lv, inr tx, inr u, inr ot, inr on =>
      inr [("id", k); ("timestamp", t); ("level", lv); ("text", tx);
           ("user", u); ("object_type", ot); ("object_name", on)]
  | _, _, _, _, _, _, _ => inl TypeError
  end.

(** [(level || object_type) ? Math.min(limit * 5, 500) : limit] *)
Definition fetchLimit_of (limit : Z) (level object_type : JsVal) : Z :=
  if Js.truthy (Js.or level object_type) then Z.min (limit * 5) 500 else limit.

Section HttpServerMore.

Variable env : Env.
Variable backend : Backend.

Let request := Http.request env backend.
Let getVM := getVM env backend.
Let getVMStatus := getVMStatus env backend.
Let vmAction := vmAction env backend.

(** [async powerOnVM(id)] (lines 889-896) *)
Definition powerOnVM (id : Z) : M JsObj :=
  status <- getVMStatus id ;;
  if Js.truthy (Js.field status "running") then
    ret [("success", JBool false);
         ("error", JStr (quoted_name status ++ " is already running"));
         ("current_state", Js.field status "power_state")]
  else
    vmAction id "poweron" ;;
    ret [("success", JBool true);
         ("message", JStr ("Power on command sent to " ++ quoted_name status));
         ("previous_state", Js.field status "power_state")].

(** [async forceOffVM(id)] (lines 964-971) *)
Definition forceOffVM (id : Z) : M JsObj :=
  status <- getVMStatus id ;;
  if negb (Js.truthy (Js.field status "running")) then
    ret [("success", JBool true);
         ("message", JStr (quoted_name status ++ " is already stopped"));
         ("current_state", Js.field status "power_state")]
  else
    vmAction id "kill" ;;
    ret [("success", JBool true);
         ("message", JStr ("Force power off (kill) command sent to " ++ quoted_name status));
         ("previous_state", Js.field status "power_state")].

(** [async resetVM(id)] (lines 973-980) *)
Definition resetVM (id : Z) : M JsObj :=
  status <- getVMStatus id ;;
  if negb (Js.truthy (Js.field status "running")) then
    ret [("success", JBool false);
         ("error", JStr (quoted_name status ++ " is not running - cannot reset"));
         ("current_state", Js.field status "power_state")]
  else
    vmAction id "reset" ;;
    ret [("success", JBool true);
         ("message", JStr ("Reset command sent to " ++ quoted_name status));
         ("previous_state", Js.field status "power_state")].

(** The body of the request of [addDrive] (lines 1064-1072). *)
Definition drive_body (machineId : Z) (name : string) (sizeBytes : Z)
    (interface_type description : string) : JsObj :=
  [("machine", JNum machineId); ("name", JStr name); ("disksize", JNum sizeBytes);
   ("interface", JStr interface_type); ("media", JStr "disk");
   ("description", JStr description); ("enabled", JBool true)].

(** [async addDrive(machineId, options = {})] (lines 1048-1084) *)
Definition addDrive (machineId : Z) (options : AddDriveOptions) : M JsObj :=
  let name := opt_str (ad_name options) in
  let size_gb := opt_num (ad_size_gb options) in
  let interface_type := default "virtio-scsi" (ad_interface_type options) in
  let description := default "" (ad_description options) in
  if negb (Js.truthy name) then
    ret [("success", JBool false); ("error", JStr "Drive name is required")]
  else if negb (Js.truthy size_gb) || (default 0 (ad_size_gb options) <? 1) then
    ret [("success", JBool false);
         ("error", JStr "Size in GB is required and must be at least 1 GB")]
  else
    let sizeBytes := default 0 (ad_size_gb options) * 1024 * 1024 * 1024 in
    result <- request "/api/v4/machine_drives"
      (mkOptions (Some "POST") json_headers
         (Some (JObj (drive_body machineId (Js.to_string name) sizeBytes
                        interface_type description)))) ;;
    drive_id <- lift (Js.get result "$key") ;;
    ret [("success", JBool true);
         ("message", JStr ("Drive '" ++ Js.to_string name ++ "' ("
                           ++ Js.to_string size_gb ++ " GB) added to machine "
                           ++ Js.num_to_string machineId));
         ("drive_id", drive_id);
         ("name", name);
         ("size_gb", size_gb);
         ("interface", JStr interface_type);
         ("note", JStr "The VM may need to be restarted to detect the new drive")].

(** The body of the request of [createVMSnapshot] (lines 1246-1255):
    [expires] is set only for a truthy timestamp. *)
Definition snapshot_body (machineId : JsVal) (name description : string)
    (expires_days : Z) (quiesce : bool) (expiresTimestamp : JsVal) : JsObj :=
  let body := [("machine", machineId); ("name", JStr name);
               ("description", JStr description);
               ("expires_type", JStr (if 0 <? expires_days then "date" else "never"));
               ("quiesce", JBool quiesce);
               ("created_manually", JBool true)] in
  if Js.truthy expiresTimestamp then Js.set_prop "expires" expiresTimestamp body
  else body.

(** [async createVMSnapshot(vmId, options = {})] (lines 1235-1271) *)
Definition createVMSnapshot (vmId : Z) (options : SnapshotOptions) : M JsObj :=
  let name := opt_str (so_name options) in
  let description := default "" (so_description options) in
  let expires_days := default 7 (so_expires_days options) in
  let quiesce := default false (so_quiesce options) in
  vm <- getVM vmId ;;
  let machineId := Js.field vm "machine" in
  if negb (Js.truthy name) then throw (Error "Snapshot name is required")
  else
    t <- date_now ;;
    let expiresTimestamp :=
      if 0 <? expires_days then JNum (t / 1000 + expires_days * 86400) else JNull in
    let body := snapshot_body machineId (Js.to_string name) description
                              expires_days quiesce expiresTimestamp in
    result <- request "/api/v4/machine_snapshots"
      (mkOptions (Some "POST") [] (Some (JObj body))) ;;
    snapshot_id <- lift (Js.get result "$key") ;;
    ret [("success", JBool true);
         ("snapshot_id", snapshot_id);
         ("message", JStr ("Snapshot '" ++ Js.to_string name ++ "' created for "
                           ++ quoted_name vm));
         ("vm_id", JNum vmId);
         ("vm_name", Js.field vm "name");
         ("quiesce", JBool quiesce);
         ("expires", JStr (if 0 <? expires_days
                           then Js.num_to_string expires_days ++ " days"
                           else "never"))].

(** [logs.filter(...)]: a TypeError when [logs] is not an array. *)
Definition as_array (v : JsVal) : Exn + list JsVal :=
  match v with
  | JArr items => inr items
  | _ => inl TypeError
  end.

(** [if (v) filtered = filtered.filter(log => log[key] === v)] *)
Definition filter_if (key : string) (v : JsVal) (items : list JsVal)
  : Exn + list JsVal :=
  if Js.truthy v then JsArray.filter_eq key v items else inr items.

(** [async getLogs(options = {})] (lines 1197-1216) *)
Definition getLogs (options : LogOptions) : M (list JsObj) :=
  let limit := default 50 (lo_limit options) in
  let level := opt_str (lo_level options) in
  let object_type := opt_str (lo_object_type options) in
  let fetchLimit := fetchLimit_of limit level object_type in
  logs <- request ("/api/v4/logs?fields=all&limit=" ++ Js.num_to_string fetchLimit
                   ++ "&sort=-$key") no_options ;;
  items <- lift (as_array logs) ;;
  by_level <- lift (filter_if "level" level items) ;;
  by_type <- lift (filter_if "object_type" object_type by_level) ;;
  lift (JsArray.map_exn log_summary (JsArray.slice_to limit by_type)).

End HttpServerMore.

(* ===================================================================== *)
(** ** The same client on a clock where round trips take time *)
(* ===================================================================== *)

(** How long a round trip takes, in milliseconds, from the time the request
    leaves, what happened before, and the request. *)
Definition Delay : Type := Z -> list Event -> Request -> Z.

(** The definitions above run on the clock of the timers alone: their
    [node_fetch] leaves [now] as it is.  [powerOffVM] reads [Date.now()]
    after awaited requests (index.js 924-933), so what it does at a
    timeout depends on how long the requests take.  This module is the
    same code, from [fetch] to [powerOffVM], over a [node_fetch] that
    advances the clock by the duration of the round trip.  The backend
    answers from the time the request leaves; a backend whose answer
    reflects a later instant of the round trip looks at a later time. *)
Module Timed.
Section Timed.

Variable delay : Delay.
Variable env : Env.
Variable backend : Backend.

(** node-fetch: the request is recorded, the backend answers, and the
    clock has moved on by the time the answer is there. *)
Definition node_fetch (r : Request) : M Response :=
  fun w => (inr (backend (now w) (trace w) r),
            mkWorld (now w + delay (now w) (trace w) r) (token w)
                    (trace w ++ [EvRequest r])).

(** [async fetch(path, options = {})] (index.js 771-786) *)
Definition fetch (path : string) (options : Options) : M Response :=
  this_token <- get_this_token ;;
  node_fetch (fetchOptions env path options this_token).

(** [async getToken()] (index.js 747-769) *)
Definition getToken : M JsVal :=
  this_token <- get_this_token ;;
  if Js.truthy this_token then ret this_token
  else if String.eqb (VERGEOS_USER env) "" || String.eqb (VERGEOS_PASS env) ""
  then throw (Error Http.not_configured)
  else
    response <- fetch "/api/sys/tokens" (login_options env) ;;
    data <- response_json response ;;
    key <- lift (Js.get data "$key") ;;
    set_this_token key ;;
    get_this_token.

(** [async request(path, options = {})] (index.js 788-798) *)
Definition request (path : string) (options : Options) : M JsVal :=
  getToken ;;
  response <- fetch path options ;;
  if negb (resp_ok response) then throw (api_error response)
  else response_json response.

(** [async getVMStatus(id)] (index.js 862-881) *)
Definition getVMStatus (id : Z) : M JsObj :=
  vm <- request ("/api/v4/vms/" ++ Js.num_to_string id ++ "?fields=most") no_options ;;
  statuses <- request "/api/v4/machine_status" no_options ;;
  status <- lift (statuses_find statuses vm) ;;
  if negb (Js.truthy status) then
    vm_name <- lift (Js.get vm "name") ;;
    ret [("vm_id", JNum id); ("name", vm_name);
         ("power_state", JStr "unknown"); ("running", JBool false)]
  else
    vm_name <- lift (Js.get vm "name") ;;
    vm_machine <- lift (Js.get vm "machine") ;;
    st_running <- lift (Js.get status "running") ;;
    st_status <- lift (Js.get status "status") ;;
    st_info <- lift (Js.get status "status_info") ;;
    st_migratable <- lift (Js.get status "migratable") ;;
    ret [("vm_id", JNum id); ("name", vm_name); ("machine", vm_machine);
         ("running", st_running); ("power_state", st_status);
         ("status_info", Js.or st_info (JStr ""));
         ("migratable", st_migratable)].

(** [async vmAction(id, action)] (index.js 882-888) *)
Definition vmAction (id : Z) (action : string) : M JsVal :=
  request "/api/v4/vm_actions"
    (mkOptions (Some "POST") json_headers
       (Some (JObj [("vm", JNum id); ("action", JStr action)]))).

(** The [while] loop of [powerOffVM] (index.js 924-936): [Some r] when the
    loop returns [r], [None] when its condition fails. *)
Fixpoint poll_loop (fuel : nat) (id : Z) (status : JsObj)
    (startTime maxWait : Z) : M (option JsObj) :=
  t <- date_now ;;
  if t - startTime <? maxWait then
    match fuel with
    | O => throw OutOfFuel
    | S fuel' =>
        sleep pollInterval ;;
        currentStatus <- getVMStatus id ;;
        if negb (Js.truthy (Js.field currentStatus "running")) then
          t' <- date_now ;;
          ret (Some (graceful_result status currentStatus (t' - startTime)))
        else poll_loop fuel' id status startTime maxWait
    end
  else ret None.

(** [async powerOffVM(id, options = {})] (index.js 898-962) *)
Definition powerOffVM (id : Z) (options : PowerOffOptions) : M JsObj :=
  let wait_timeout := default 0 (po_wait_timeout options) in
  let force_after_timeout := default false (po_force_after_timeout options) in
  status <- getVMStatus id ;;
  if negb (Js.truthy (Js.field status "running")) then
    ret (already_stopped_result status)
  else
    vmAction id "poweroff" ;;
    if wait_timeout <=? 0 then
      ret (no_wait_result status)
    else
      startTime <- date_now ;;
      let maxWait := maxWait_of wait_timeout in
      polled <- poll_loop (poll_fuel maxWait) id status startTime maxWait ;;
      match polled with
      | Some result => ret result
      | None =>
          if force_after_timeout then
            vmAction id "kill" ;;
            sleep 2000 ;;
            finalStatus <- getVMStatus id ;;
            t <- date_now ;;
            ret (forced_result status wait_timeout finalStatus (t - startTime))
          else
            currentStatus <- getVMStatus id ;;
            t <- date_now ;;
            ret (timeout_result status wait_timeout currentStatus (t - startTime))
      end.

End Timed.
End Timed.

(** Round trips that take no time, and round trips that all take [ms]. *)
Definition no_delay : Delay := fun _ _ _ => 0.

(* ===================================================================== *)
(** ** The connectivity test script (src/unnamed/part_000) *)
(* ===================================================================== *)

Module TestScript.

(** [async function getToken()] of the test script (lines 18-36); its
    variable [VERGEOS_TOKEN], initialised from the environment, is the
    [token] of the world.  "Always get fresh token if we have user/pass":
    the pair comes before the static token. *)
Definition getToken (env : Env) (backend : Backend) : M JsVal :=
  if negb (String.eqb (VERGEOS_USER env) "") && negb (String.eqb (VERGEOS_PASS env) "")
  then
    response <- node_fetch backend
      (mkRequest ("https://" ++ VERGEOS_HOST env ++ "/api/sys/tokens") (Some "POST")
         [("Content-Type", "application/json");
          ("Authorization",
           "Basic " ++ Js.base64 (VERGEOS_USER env ++ ":" ++ VERGEOS_PASS env))]
         (Some (JObj [("login", JStr (VERGEOS_USER env));
                      ("password", JStr (VERGEOS_PASS env))]))) ;;
    data <- response_json response ;;
    key <- lift (Js.get data "$key") ;;
    set_this_token key ;;
    get_this_token
  else get_this_token.

End TestScript.

(* ===================================================================== *)
(** ** Classifying the events of a trace *)
(* ===================================================================== *)

(** An update request: the [PUT] of [modifyVM]. *)
Definition is_put (e : Event) : bool :=
  match e with
  | EvRequest r =>
      match req_method r with
      | Some m => String.eqb m "PUT"
      | None => false
      end
  | EvSleep _ => false
  end.

(** An action request with the given verb. *)
Definition is_action (verb : string) (e : Event) : bool :=
  match e with
  | EvRequest r =>
      match req_body r with
      | Some (JObj o) => Js.strict_eq (Js.field o "action") (JStr verb)
      | _ => false
      end
  | EvSleep _ => false
  end.

Definition is_sleep (e : Event) : bool :=
  match e with
  | EvSleep _ => true
  | EvRequest _ => false
  end.

Definition count (f : Event -> bool) (l : list Event) : nat :=
  List.length (filter f l).

(** The events recorded between an earlier world and a later one. *)
Definition events_since (w w' : World) : list Event :=
  skipn (List.length (trace w)) (trace w').

(** The request [request path options] sends once it holds a token, and the
    login request, told apart from everything else by method and body. *)
Definition carries (method : option string) (body : option JsVal) (e : Event) : Prop :=
  exists r, e = EvRequest r /\ req_method r = method /\ req_body r = body.

Definition login_body (env : Env) : option JsVal :=
  Some (JObj [("login", JStr (VERGEOS_USER env)); ("password", JStr (VERGEOS_PASS env))]).

Definition is_login (env : Env) (e : Event) : Prop :=
  carries (Some "POST") (login_body env) e.

(** A read: a [GET] without body, or a login. *)
Definition is_read (env : Env) (e : Event) : Prop :=
  is_login env e \/ carries None None e.

(** Every computation of the model only appends to the trace; [emits P m]
    says that all it appends satisfies [P]. *)
Definition emits {A} (P : Event -> Prop) (m : M A) : Prop :=
  forall w, exists new,
    trace (snd (m w)) = (trace w ++ new)%list /\ Forall P new.

(** [quiet m]: [m] does not touch the clock and is not cut short by the
    recursion bound of the model. *)
Definition quiet {A} (m : M A) : Prop :=
  forall w, now (snd (m w)) = now w /\ fst (m w) <> inl OutOfFuel.

(** [terminates m]: the recursion bound of the model is never what ends
    [m]; it returns or throws as the JavaScript does. *)
Definition terminates {A} (m : M A) : Prop :=
  forall w, fst (m w) <> inl OutOfFuel.

(** No update request among the events. *)
Definition not_update (e : Event) : Prop := is_put e = false.

(** The claim of the specification about the configuration surface, in its
    words: with a credential pair and a static token both present, the
    freshly constructed stdio client obtains its credential by a login
    with the pair. *)
Definition pair_takes_priority (env : Env) (backend : Backend) : Prop :=
  let w := mkWorld 0 (Stdio.constructor env) [] in
  exists r, In (EvRequest r) (trace (snd (Stdio.getToken env backend w)))
            /\ req_body r = login_body env.


(** How many events satisfying [f] a computation records when run in [w]. *)
Definition sent {A} (f : Event -> bool) (m : M A) (w : World) : nat :=
  count f (events_since w (snd (m w))).

(** A JavaScript object, as opposed to [null], [undefined], a primitive or
    an array. *)
Definition is_object (v : JsVal) : Prop := exists o, v = JObj o.

(** The request [Direct.apiRequest] sends for a token [tok]. *)
Definition direct_request (env : Env) (path : string) (options : Options)
    (tok : JsVal) : Request :=
  mkRequest (Direct.BASE_URL env ++ path) (opt_method options)
    (fold_left (fun hs kv => set_header (fst kv) (snd kv) hs)
       (opt_headers options)
       [("Content-Type", "application/json");
        ("Cookie", "token=" ++ Js.to_string tok)])
    (opt_body options).

(** The login request of [Direct.getToken]. *)
Definition direct_login (env : Env) : Request :=
  mkRequest (Direct.BASE_URL env ++ "/api/sys/tokens") (Some "POST")
    [("Content-Type", "application/json");
     ("Authorization",
      "Basic " ++ Js.base64 (VERGEOS_USER env ++ ":" ++ VERGEOS_PASS env))]
    (Some (JObj [("login", JStr (VERGEOS_USER env));
                 ("password", JStr (VERGEOS_PASS env))])).

(** A request to the given URL. *)
Definition is_request_to (url : string) (e : Event) : bool :=
  match e with
  | EvRequest r => String.eqb (req_url r) url
  | EvSleep _ => false
  end.



(** [timely P m]: [m] appends only events satisfying [P], never moves the
    clock back, and is not cut short by the recursion bound of the model. *)
Definition timely {A} (P : Event -> Prop) (m : M A) : Prop :=
  forall w, (exists new, trace (snd (m w)) = (trace w ++ new)%list /\ Forall P new)
            /\ now w <= now (snd (m w))
            /\ fst (m w) <> inl OutOfFuel.

(* ===================================================================== *)
(** * Properties *)
(* ===================================================================== *)

Example base64_sample : Js.base64 "admin:secret" = "YWRtaW46c2VjcmV0".
Proof. reflexivity. Qed.

(** ** The monad and the trace *)

Lemma bind_inr {A B} (m : M A) (k : A -> M B) w a w1 :
  m w = (inr a, w1) -> bind m k w = k a w1.
Proof. intros E. unfold bind. now rewrite E. Qed.

Lemma bind_inl {A B} (m : M A) (k : A -> M B) w e w1 :
  m w = (inl e, w1) -> bind m k w = (inl e, w1).
Proof. intros E. unfold bind. now rewrite E. Qed.

Lemma emits_weaken {A} (P Q : Event -> Prop) (m : M A) :
  (forall e, P e -> Q e) -> emits P m -> emits Q m.
Proof.
  intros HPQ Hm w. destruct (Hm w) as [new [E F]].
  exists new. split; [exact E|]. eapply Forall_impl; eauto.
Qed.

Lemma emits_nothing {A} (P : Event -> Prop) (m : M A) :
  (forall w, trace (snd (m w)) = trace w) -> emits P m.
Proof.
  intros H w. exists []. rewrite app_nil_r. split; [apply H | constructor].
Qed.

Lemma emits_ret {A} P (a : A) : emits P (ret a).
Proof. apply emits_nothing. reflexivity. Qed.

Lemma emits_throw {A} P e : emits P (@throw A e).
Proof. apply emits_nothing. reflexivity. Qed.

Lemma emits_lift {A} P (r : Exn + A) : emits P (lift r).
Proof. destruct r; [apply emits_throw | apply emits_ret]. Qed.

Lemma emits_bind {A B} P (m : M A) (k : A -> M B) :
  emits P m -> (forall a, emits P (k a)) -> emits P (bind m k).
Proof.
  intros Hm Hk w. unfold bind.
  destruct (Hm w) as [n1 [E1 F1]].
  destruct (m w) as [[e|a] w1]; simpl in *.
  - exists n1. auto.
  - destruct (Hk a w1) as [n2 [E2 F2]].
    exists (n1 ++ n2)%list. rewrite E2, E1, app_assoc.
    split; [reflexivity | apply Forall_app; auto].
Qed.

Lemma emits_date_now P : emits P date_now.
Proof. apply emits_nothing. reflexivity. Qed.

Lemma emits_get_this_token P : emits P get_this_token.
Proof. apply emits_nothing. reflexivity. Qed.

Lemma emits_set_this_token P t : emits P (set_this_token t).
Proof. apply emits_nothing. reflexivity. Qed.

Lemma emits_response_json P r : emits P (response_json r).
Proof.
  unfold response_json. destruct (resp_json r); [apply emits_ret | apply emits_throw].
Qed.

Lemma emits_node_fetch (P : Event -> Prop) backend r :
  P (EvRequest r) -> emits P (node_fetch backend r).
Proof. intros H w. exists [EvRequest r]. simpl. auto. Qed.

Lemma emits_sleep (P : Event -> Prop) ms :
  P (EvSleep ms) -> emits P (sleep ms).
Proof. intros H w. exists [EvSleep ms]. simpl. auto. Qed.

Lemma emits_promise_all2 {A B} P (p : M A) (q : M B) :
  emits P p -> emits P q -> emits P (promise_all2 p q).
Proof.
  intros Hp Hq w. unfold promise_all2.
  destruct (Hp w) as [n1 [E1 F1]].
  destruct (p w) as [ra w1]; simpl in *.
  destruct (Hq w1) as [n2 [E2 F2]].
  destruct (q w1) as [rb w2]; simpl in *.
  exists (n1 ++ n2)%list. split.
  - destruct ra as [e|a]; [|destruct rb as [e|b]]; simpl;
      rewrite E2, E1, app_assoc; reflexivity.
  - apply Forall_app; auto.
Qed.

Lemma quiet_ret {A} (a : A) : quiet (ret a).
Proof. intros w. simpl. split; [reflexivity | discriminate]. Qed.

Lemma quiet_throw {A} e : e <> OutOfFuel -> quiet (@throw A e).
Proof. intros H w. simpl. split; [reflexivity | congruence]. Qed.

Lemma quiet_bind {A B} (m : M A) (k : A -> M B) :
  quiet m -> (forall a, quiet (k a)) -> quiet (bind m k).
Proof.
  intros Hm Hk w. unfold bind.
  destruct (Hm w) as [N1 F1].
  destruct (m w) as [[e|a] w1]; simpl in *.
  - split; [exact N1 | congruence].
  - destruct (Hk a w1) as [N2 F2]. split; [congruence | exact F2].
Qed.

Lemma quiet_lift {A} (r : Exn + A) : r <> inl OutOfFuel -> quiet (lift r).
Proof.
  intros H. destruct r as [e|a]; [apply quiet_throw; congruence | apply quiet_ret].
Qed.

Lemma quiet_date_now : quiet date_now.
Proof. intros w. simpl. split; [reflexivity | discriminate]. Qed.

Lemma quiet_get_this_token : quiet get_this_token.
Proof. intros w. simpl. split; [reflexivity | discriminate]. Qed.

Lemma quiet_set_this_token t : quiet (set_this_token t).
Proof. intros w. simpl. split; [reflexivity | discriminate]. Qed.

Lemma quiet_response_json r : quiet (response_json r).
Proof.
  unfold response_json. destruct (resp_json r);
    [apply quiet_ret | apply quiet_throw; discriminate].
Qed.

Lemma quiet_node_fetch backend r : quiet (node_fetch backend r).
Proof. intros w. simpl. split; [reflexivity | discriminate]. Qed.

Lemma quiet_promise_all2 {A B} (p : M A) (q : M B) :
  quiet p -> quiet q -> quiet (promise_all2 p q).
Proof.
  intros Hp Hq w. unfold promise_all2.
  destruct (Hp w) as [N1 F1].
  destruct (p w) as [ra w1]; simpl in *.
  destruct (Hq w1) as [N2 F2].
  destruct (q w1) as [rb w2]; simpl in *.
  destruct ra as [e|a]; [|destruct rb as [e|b]]; simpl;
    (split; [congruence | congruence]).
Qed.

Lemma get_not_out_of_fuel v k : Js.get v k <> inl OutOfFuel.
Proof. destruct v; simpl; discriminate. Qed.

Lemma statuses_find_not_out_of_fuel statuses vm :
  statuses_find statuses vm <> inl OutOfFuel.
Proof.
  destruct statuses; simpl; try discriminate.
  induction items as [|s tl IH]; simpl; [discriminate|].
  destruct s, vm; simpl; try discriminate;
    try (match goal with |- context [if ?c then _ else _] => destruct c end;
         [discriminate | exact IH]).
Qed.

Create HintDb js.

#[local] Hint Resolve emits_ret emits_throw emits_lift emits_date_now
  emits_get_this_token emits_set_this_token emits_response_json
  quiet_ret quiet_date_now quiet_get_this_token quiet_set_this_token
  quiet_response_json quiet_node_fetch quiet_lift get_not_out_of_fuel
  statuses_find_not_out_of_fuel : js.

Lemma events_since_app w w' new :
  trace w' = (trace w ++ new)%list -> events_since w w' = new.
Proof.
  intros E. unfold events_since. rewrite E.
  rewrite skipn_app, skipn_all, Nat.sub_diag. reflexivity.
Qed.

Lemma count_app f l1 l2 : count f (l1 ++ l2)%list = (count f l1 + count f l2)%nat.
Proof. unfold count. now rewrite filter_app, length_app. Qed.

Lemma count_none f l :
  Forall (fun e => f e = false) l -> count f l = 0%nat.
Proof.
  unfold count. induction 1 as [|e l He _ IH]; simpl; [reflexivity|].
  now rewrite He.
Qed.

(** ** The backend client *)

Ltac step_emits :=
  first
    [ solve [auto with js]
    | apply emits_bind; [|intros]
    | apply emits_promise_all2
    | apply emits_node_fetch
    | apply emits_sleep
    | match goal with
      | |- emits _ (if ?c then _ else _) => destruct c
      | |- emits _ (match ?x with _ => _ end) => destruct x
      end ].

Ltac step_quiet :=
  first
    [ apply quiet_bind; [|intros]
    | apply quiet_promise_all2
    | apply quiet_throw; discriminate
    | solve [auto with js]
    | match goal with
      | |- quiet (if ?c then _ else _) => destruct c
      | |- quiet (match ?x with _ => _ end) => destruct x
      end ].

Section ClientFacts.

Variable env : Env.
Variable backend : Backend.
Variable not_configured : string.

Local Notation this_fetch := (fetch env backend).
Local Notation this_getToken := (getToken env backend not_configured).
Local Notation this_request := (request env backend not_configured).

Lemma fetch_run path options w :
  this_fetch path options w =
  (inr (backend (now w) (trace w) (fetchOptions env path options (token w))),
   mkWorld (now w) (token w)
     (trace w ++ [EvRequest (fetchOptions env path options (token w))])).
Proof. reflexivity. Qed.

Lemma getToken_cached w :
  Js.truthy (token w) = true -> this_getToken w = (inr (token w), w).
Proof.
  intros H. unfold getToken, bind, get_this_token.
  now rewrite H.
Qed.

Lemma emits_fetch path options :
  emits (carries (opt_method options) (opt_body options)) (this_fetch path options).
Proof.
  unfold fetch. repeat step_emits.
  eexists. split; [reflexivity|]. split; reflexivity.
Qed.

Lemma emits_getToken : emits (is_login env) this_getToken.
Proof.
  unfold getToken. repeat step_emits.
  eexists. repeat split; reflexivity.
Qed.

Lemma emits_request path options :
  emits (fun e => is_login env e \/ carries (opt_method options) (opt_body options) e)
        (this_request path options).
Proof.
  unfold request.
  apply emits_bind; [eapply emits_weaken; [|apply emits_getToken]; auto|intros _].
  apply emits_bind; [eapply emits_weaken; [|apply emits_fetch]; auto|intros r].
  repeat step_emits.
Qed.

Lemma quiet_fetch path options : quiet (this_fetch path options).
Proof. unfold fetch. repeat step_quiet. Qed.

Lemma quiet_getToken : quiet this_getToken.
Proof.
  unfold getToken. repeat step_quiet.
Qed.

Lemma quiet_request path options : quiet (this_request path options).
Proof.
  unfold request.
  apply quiet_bind; [apply quiet_getToken|intros _].
  apply quiet_bind; [apply quiet_fetch|intros r].
  repeat step_quiet.
Qed.

(** A request that holds a token is one round trip: a failure status is
    thrown with its code and body, anything else is decoded. *)
Lemma request_holding path options w :
  Js.truthy (token w) = true ->
  let rq := fetchOptions env path options (token w) in
  let response := backend (now w) (trace w) rq in
  this_request path options w =
  (if negb (resp_ok response) then inl (api_error response)
   else match resp_json response with
        | Some v => inr v
        | None => inl SyntaxError
        end,
   mkWorld (now w) (token w) (trace w ++ [EvRequest rq])).
Proof.
  intros H rq response.
  unfold request.
  rewrite (bind_inr _ _ _ _ _ (getToken_cached w H)).
  rewrite (bind_inr _ _ _ _ _ (fetch_run path options w)).
  fold rq. fold response.
  destruct (negb (resp_ok response)); [reflexivity|].
  unfold response_json. destruct (resp_json response); reflexivity.
Qed.

(** A request that succeeds has sent logins, if any, and then itself. *)
Lemma request_ok path options w v w' :
  this_request path options w = (inr v, w') ->
  exists pre rq,
    trace w' = (trace w ++ pre ++ [EvRequest rq])%list
    /\ Forall (is_login env) pre
    /\ req_url rq = (baseUrl env ++ path)%string
    /\ req_method rq = opt_method options
    /\ req_body rq = opt_body options.
Proof.
  unfold request, bind.
  destruct (emits_getToken w) as [pre [E F]].
  destruct (this_getToken w) as [[e|t] w1]; simpl in E; [discriminate|].
  rewrite fetch_run.
  set (rq := fetchOptions env path options (token w1)).
  destruct (negb (resp_ok _)); [discriminate|].
  unfold response_json. destruct (resp_json _); simpl; [|discriminate].
  intros H. inversion H; subst. simpl.
  exists pre, rq. rewrite E, app_assoc. repeat split; auto.
Qed.

End ClientFacts.

(** ** The VM operations: what they send and how long they take *)

Lemma read_not_put env e : is_read env e -> is_put e = false.
Proof.
  intros [[r [-> [Hm _]]] | [r [-> [Hm _]]]]; simpl; now rewrite Hm.
Qed.

Lemma read_not_action env verb e : is_read env e -> is_action verb e = false.
Proof.
  intros [[r [-> [_ Hb]]] | [r [-> [_ Hb]]]]; simpl; now rewrite Hb.
Qed.

Lemma read_not_sleep env e : is_read env e -> is_sleep e = false.
Proof.
  intros [[r [-> _]] | [r [-> _]]]; reflexivity.
Qed.

Lemma login_is_read env e : is_login env e -> is_read env e.
Proof. now left. Qed.

Section ServerFacts.

Variable env : Env.
Variable backend : Backend.

Local Notation this_request := (Http.request env backend).
Local Notation this_getVM := (getVM env backend).
Local Notation this_getVMStatus := (getVMStatus env backend).
Local Notation this_vmAction := (vmAction env backend).
Local Notation this_poll_loop := (poll_loop env backend).
Local Notation this_powerOffVM := (powerOffVM env backend).
Local Notation this_modifyVM := (modifyVM env backend).

Lemma emits_read path : emits (is_read env) (this_request path no_options).
Proof.
  eapply emits_weaken; [|apply emits_request].
  intros e [H|H]; [now left | now right].
Qed.

Lemma emits_getVMStatus id : emits (is_read env) (this_getVMStatus id).
Proof.
  unfold getVMStatus.
  apply emits_bind; [apply emits_read|intros vm].
  apply emits_bind; [apply emits_read|intros statuses].
  repeat step_emits.
Qed.

Lemma quiet_getVMStatus id : quiet (this_getVMStatus id).
Proof.
  unfold getVMStatus.
  apply quiet_bind; [apply quiet_request|intros vm].
  apply quiet_bind; [apply quiet_request|intros statuses].
  repeat step_quiet.
Qed.

Lemma emits_getVM id : emits (is_read env) (this_getVM id).
Proof.
  unfold getVM.
  apply emits_bind; [apply emits_promise_all2; apply emits_read|intros [vm statuses]].
  repeat step_emits.
Qed.

Lemma quiet_getVM id : quiet (this_getVM id).
Proof.
  unfold getVM.
  apply quiet_bind; [apply quiet_promise_all2; apply quiet_request|intros [vm statuses]].
  repeat step_quiet.
Qed.

Lemma quiet_vmAction id action : quiet (this_vmAction id action).
Proof. apply quiet_request. Qed.

(** An action that succeeds has sent logins, if any, and then the action
    request with its verb. *)
Lemma vmAction_ok id action w v w' :
  this_vmAction id action w = (inr v, w') ->
  exists pre rq,
    trace w' = (trace w ++ pre ++ [EvRequest rq])%list
    /\ Forall (is_login env) pre
    /\ req_url rq = (baseUrl env ++ "/api/v4/vm_actions")%string
    /\ req_method rq = Some "POST"
    /\ req_body rq = Some (JObj [("vm", JNum id); ("action", JStr action)]).
Proof. intros H. apply request_ok in H. exact H. Qed.

(** What an action may send, whether it succeeds or not. *)
Lemma emits_vmAction id action :
  emits (fun e => is_read env e \/
                  carries (Some "POST")
                    (Some (JObj [("vm", JNum id); ("action", JStr action)])) e)
        (this_vmAction id action).
Proof.
  eapply emits_weaken; [|apply emits_request].
  intros e [H|H]; [left; now left | now right].
Qed.

Lemma poll_loop_unfold fuel id status startTime maxWait w :
  this_poll_loop fuel id status startTime maxWait w =
  if now w - startTime <? maxWait then
    match fuel with
    | O => (inl OutOfFuel, w)
    | S fuel' =>
        match this_getVMStatus id
                (mkWorld (now w + pollInterval) (token w)
                         (trace w ++ [EvSleep pollInterval])) with
        | (inl e, w1) => (inl e, w1)
        | (inr currentStatus, w1) =>
            if negb (Js.truthy (Js.field currentStatus "running")) then
              (inr (Some (graceful_result status currentStatus (now w1 - startTime))), w1)
            else this_poll_loop fuel' id status startTime maxWait w1
        end
    end
  else (inr None, w).
Proof.
  destruct fuel; simpl; unfold bind, date_now; simpl;
    destruct (now w - startTime <? maxWait); try reflexivity.
  destruct (getVMStatus _ _ _ _) as [[e|cs] w1]; try reflexivity.
  destruct (negb _); reflexivity.
Qed.

Lemma emits_poll_loop fuel id status startTime maxWait :
  emits (fun e => is_read env e \/ e = EvSleep pollInterval)
        (this_poll_loop fuel id status startTime maxWait).
Proof.
  induction fuel as [|fuel IH]; simpl.
  - repeat step_emits.
  - apply emits_bind; [auto with js|intros t].
    destruct (t - startTime <? maxWait); [|auto with js].
    apply emits_bind; [apply emits_sleep; now right|intros _].
    apply emits_bind;
      [eapply emits_weaken; [|apply emits_getVMStatus]; auto|intros cs].
    destruct (negb _); [repeat step_emits | exact IH].
Qed.

(** The clock of the polling loop.  The loop ends a whole number of
    intervals after it began; its last interval began before the bound;
    it gives up only once the bound is reached; and it does not run out
    of fuel when the fuel covers the bound. *)
Lemma poll_loop_clock fuel id status startTime maxWait :
  forall w r w',
    this_poll_loop fuel id status startTime maxWait w = (r, w') ->
    (exists k, 0 <= k /\ now w' = now w + pollInterval * k
               /\ (0 < k -> now w' - pollInterval - startTime < maxWait))
    /\ (r = inr None -> maxWait <= now w' - startTime)
    /\ (maxWait - (now w - startTime) <= pollInterval * Z.of_nat fuel ->
        r <> inl OutOfFuel).
Proof.
  unfold pollInterval.
  induction fuel as [|fuel IH]; intros w r w'; rewrite poll_loop_unfold;
    destruct (Z.ltb_spec (now w - startTime) maxWait) as [Hlt|Hge].
  - intros H; inversion H; subst. repeat split.
    + exists 0. lia.
    + discriminate.
    + lia.
  - intros H; inversion H; subst. repeat split.
    + exists 0. lia.
    + intros _. lia.
    + discriminate.
  - set (ws := mkWorld _ _ _).
    destruct (quiet_getVMStatus id ws) as [Hnow Hfuel].
    destruct (getVMStatus _ _ _ _) as [[e|cs] w1]; simpl in Hnow, Hfuel.
    + intros H; inversion H; subst. repeat split.
      * exists 1. unfold pollInterval in *. lia.
      * discriminate.
      * intros _ C. apply Hfuel. congruence.
    + destruct (negb _).
      * intros H; inversion H; subst. repeat split.
        -- exists 1. unfold pollInterval in *. lia.
        -- discriminate.
        -- discriminate.
      * intros H. destruct (IH _ _ _ H) as [[k [Hk [Hn Hlast]]] [Hnone Hf]].
        unfold pollInterval in *. simpl in Hnow. repeat split.
        -- exists (k + 1). repeat split; lia.
        -- exact Hnone.
        -- intros Hb. apply Hf. lia.
  - intros H; inversion H; subst. repeat split.
    + exists 0. lia.
    + intros _. lia.
    + discriminate.
Qed.

Lemma poll_fuel_enough maxWait :
  maxWait <= pollInterval * Z.of_nat (poll_fuel maxWait).
Proof.
  unfold poll_fuel, pollInterval.
  destruct (Z.le_gt_cases 0 maxWait) as [H|H].
  - rewrite Nat2Z.inj_succ, Z2Nat.id by (apply Z.div_pos; lia).
    pose proof (Z.mod_pos_bound maxWait 3000 ltac:(lia)).
    pose proof (Z.div_mod maxWait 3000 ltac:(lia)). lia.
  - lia.
Qed.

End ServerFacts.

(** ** Running the operations *)

Lemma emits_run {A} P (m : M A) w r w' :
  emits P m -> m w = (r, w') ->
  exists new, trace w' = (trace w ++ new)%list /\ Forall P new.
Proof. intros Hm E. specialize (Hm w). now rewrite E in Hm. Qed.

Lemma quiet_run {A} (m : M A) w r w' :
  quiet m -> m w = (r, w') -> now w' = now w.
Proof. intros Hm E. specialize (Hm w). rewrite E in Hm. apply Hm. Qed.

Lemma terminates_of_quiet {A} (m : M A) : quiet m -> terminates m.
Proof. intros H w. apply H. Qed.

Lemma terminates_ret {A} (a : A) : terminates (ret a).
Proof. intros w. discriminate. Qed.

Lemma terminates_bind {A B} (m : M A) (k : A -> M B) :
  terminates m -> (forall a, terminates (k a)) -> terminates (bind m k).
Proof.
  intros Hm Hk w. unfold bind. specialize (Hm w).
  destruct (m w) as [[e|a] w1]; simpl in *; [congruence | apply Hk].
Qed.

Lemma terminates_sleep ms : terminates (sleep ms).
Proof. intros w. discriminate. Qed.

Lemma terminates_date_now : terminates date_now.
Proof. intros w. discriminate. Qed.

Ltac step_terminates :=
  first
    [ solve [auto with js]
    | apply terminates_ret
    | apply terminates_sleep
    | apply terminates_date_now
    | apply terminates_bind; [|intros]
    | match goal with
      | |- terminates (if ?c then _ else _) => destruct c
      | |- terminates (match ?x with _ => _ end) => destruct x
      end ].

Lemma bind_date_now {B} (k : Z -> M B) w : bind date_now k w = k (now w) w.
Proof. reflexivity. Qed.

Lemma bind_sleep {B} ms (k : unit -> M B) w :
  bind (sleep ms) k w = k tt (snd (sleep ms w)).
Proof. reflexivity. Qed.

Section FlowFacts.

Variable env : Env.
Variable backend : Backend.

Local Notation this_request := (Http.request env backend).
Local Notation this_getVM := (getVM env backend).
Local Notation this_getVMStatus := (getVMStatus env backend).
Local Notation this_vmAction := (vmAction env backend).
Local Notation this_poll_loop := (poll_loop env backend).
Local Notation this_powerOffVM := (powerOffVM env backend).
Local Notation this_apply_changes := (apply_changes env backend).
Local Notation this_modifyVM := (modifyVM env backend).

Lemma terminates_getVMStatus id : terminates (this_getVMStatus id).
Proof. apply terminates_of_quiet, quiet_getVMStatus. Qed.

Lemma terminates_getVM id : terminates (this_getVM id).
Proof. apply terminates_of_quiet, quiet_getVM. Qed.

Lemma terminates_request path options : terminates (this_request path options).
Proof. apply terminates_of_quiet, quiet_request. Qed.

Lemma terminates_vmAction id action : terminates (this_vmAction id action).
Proof. apply terminates_of_quiet, quiet_vmAction. Qed.

Hint Resolve terminates_getVMStatus terminates_getVM terminates_request
  terminates_vmAction : js.

(** The polling phase of [powerOffVM] is never cut short by the fuel. *)
Lemma terminates_polling {B} id status maxWait (k : Z -> option JsObj -> M B) :
  (forall s p, terminates (k s p)) ->
  terminates (bind date_now (fun startTime =>
              bind (this_poll_loop (poll_fuel maxWait) id status startTime maxWait)
                   (k startTime))).
Proof.
  intros Hk w. rewrite bind_date_now. unfold bind.
  destruct (poll_loop _ _ _ _ _ _ _ w) as [r w'] eqn:E.
  destruct (poll_loop_clock _ _ _ _ _ _ _ _ _ _ E) as [_ [_ Hf]].
  pose proof (poll_fuel_enough maxWait) as Hfuel.
  destruct r as [e|p]; simpl.
  - intros C. apply Hf; [lia | congruence].
  - apply Hk.
Qed.

(** [powerOffVM] always returns or throws: the bound of the loop of the
    model is never reached. *)
Lemma powerOffVM_never_out_of_fuel id options :
  terminates (this_powerOffVM id options).
Proof.
  unfold powerOffVM.
  apply terminates_bind; [auto with js|intros status].
  destruct (negb _); [apply terminates_ret|].
  apply terminates_bind; [auto with js|intros _].
  destruct (_ <=? 0); [apply terminates_ret|].
  apply (terminates_polling id status _
           (fun startTime polled => match polled with
                                    | Some result => ret result
                                    | None => _
                                    end)).
  intros s p. repeat step_terminates.
Qed.

Lemma modifyVM_never_out_of_fuel vmId options :
  terminates (this_modifyVM vmId options).
Proof.
  pose proof powerOffVM_never_out_of_fuel.
  unfold modifyVM, apply_changes. repeat step_terminates.
Qed.

End FlowFacts.

Lemma events_since_two w w1 w2 n1 n2 :
  trace w1 = (trace w ++ n1)%list -> trace w2 = (trace w1 ++ n2)%list ->
  events_since w w2 = (n1 ++ n2)%list.
Proof.
  intros E1 E2. apply events_since_app. now rewrite E2, E1, app_assoc.
Qed.

Lemma count_reads env f l :
  (forall e, is_read env e -> f e = false) ->
  Forall (is_read env) l -> count f l = 0%nat.
Proof.
  intros Hf Hl. apply count_none. eapply Forall_impl; eauto.
Qed.

(** ** The power-state controller *)

(** A missing [wait_timeout] is the timeout 0, a missing
    [force_after_timeout] is [false]. *)
Lemma powerOffVM_defaults env backend id :
  powerOffVM env backend id (mkPowerOffOptions None None)
  = powerOffVM env backend id (mkPowerOffOptions (Some 0) (Some false)).
Proof. reflexivity. Qed.

(** C5. A VM that is already stopped: [powerOffVM] returns success with
    [current_state] and [was_running: false] straight after the status
    read.  The world it leaves is the one the status read leaves, so no
    shutdown action is sent and no timer is started: calling it again is a
    status read again. *)
Theorem powerOffVM_already_stopped env backend id options w status w1 :
  getVMStatus env backend id w = (inr status, w1) ->
  Js.truthy (Js.field status "running") = false ->
  let result := already_stopped_result status in
  powerOffVM env backend id options w = (inr result, w1)
  /\ Js.field result "success" = JBool true
  /\ Js.field result "current_state" = Js.field status "power_state"
  /\ Js.field result "was_running" = JBool false
  /\ count (is_action "poweroff") (events_since w w1) = 0%nat
  /\ count is_sleep (events_since w w1) = 0%nat
  /\ now w1 = now w.
Proof.
  intros H Hrun result. repeat split.
  - unfold powerOffVM. rewrite (bind_inr _ _ _ _ _ H). now rewrite Hrun.
  - destruct (emits_run _ _ _ _ _ (emits_getVMStatus env backend id) H) as [new [E F]].
    rewrite (events_since_app _ _ _ E).
    eapply count_reads; eauto using read_not_action.
  - destruct (emits_run _ _ _ _ _ (emits_getVMStatus env backend id) H) as [new [E F]].
    rewrite (events_since_app _ _ _ E).
    eapply count_reads; eauto using read_not_sleep.
  - exact (quiet_run _ _ _ _ (quiet_getVMStatus env backend id) H).
Qed.

Lemma powerOffVM_already_stopped_witness :
  let backend := Fake.vm_backend 7 Fake.stopped in
  let w := Fake.holding "tok" in
  let w1 := snd (getVMStatus Fake.env backend 7 w) in
  powerOffVM Fake.env backend 7 (mkPowerOffOptions (Some 60) (Some true)) w
  = (inr [("success", JBool true);
          ("message", JStr "VM 'web' is already stopped");
          ("current_state", JStr "stopped");
          ("was_running", JBool false)], w1)
  /\ powerOffVM Fake.env backend 7 (mkPowerOffOptions (Some 60) (Some true)) w1
     = (inr [("success", JBool true);
             ("message", JStr "VM 'web' is already stopped");
             ("current_state", JStr "stopped");
             ("was_running", JBool false)],
        snd (getVMStatus Fake.env backend 7 w1))
  /\ count (is_action "poweroff") (events_since w w1) = 0%nat.
Proof.
  intros backend w w1.
  assert (H : getVMStatus Fake.env backend 7 w
              = (inr [("vm_id", JNum 7); ("name", JStr "web"); ("machine", JNum 70);
                      ("running", JBool false); ("power_state", JStr "stopped");
                      ("status_info", JStr ""); ("migratable", JBool true)], w1))
    by (vm_compute; reflexivity).
  assert (H' : getVMStatus Fake.env backend 7 w1
              = (inr [("vm_id", JNum 7); ("name", JStr "web"); ("machine", JNum 70);
                      ("running", JBool false); ("power_state", JStr "stopped");
                      ("status_info", JStr ""); ("migratable", JBool true)],
                 snd (getVMStatus Fake.env backend 7 w1)))
    by (vm_compute; reflexivity).
  destruct (powerOffVM_already_stopped Fake.env backend 7
              (mkPowerOffOptions (Some 60) (Some true)) w _ w1 H eq_refl)
    as [E [_ [_ [_ [C _]]]]].
  destruct (powerOffVM_already_stopped Fake.env backend 7
              (mkPowerOffOptions (Some 60) (Some true)) w1 _ _ H' eq_refl)
    as [E' _].
  split; [exact E | split; [exact E' | exact C]].
Defined.

(** ** The reconfiguration workflow *)

(** C7. With both [cpu_cores] and [ram_mb] absent, [modifyVM] answers with
    the validation failure in the very world it was called in: nothing is
    read from or written to the backend. *)
Theorem modifyVM_nothing_requested env backend vmId shutdown_if_running
    wait_timeout force_after_timeout w :
  let options := mkModifyOptions None None shutdown_if_running
                                 wait_timeout force_after_timeout in
  modifyVM env backend vmId options w = (inr nothing_to_modify_result, w)
  /\ Js.field nothing_to_modify_result "success" = JBool false
  /\ Js.has_field nothing_to_modify_result "error" = true
  /\ events_since w (snd (modifyVM env backend vmId options w)) = [].
Proof.
  repeat split.
  unfold events_since. simpl. now rewrite skipn_all.
Qed.

(** C8. A running VM and no permission to shut it down: once the request
    has passed validation and the VM and its status have been read,
    [modifyVM] answers with a failure that carries the current CPU and RAM
    values, the requested ones and a hint naming [shutdown_if_running];
    between call and return no update request is sent: everything sent is
    a read. *)
Theorem modifyVM_running_refused env backend vmId options w vm w1 status w2 :
  let cpu_cores := opt_num (mo_cpu_cores options) in
  let ram_mb := opt_num (mo_ram_mb options) in
  Js.truthy cpu_cores || Js.truthy ram_mb = true ->
  getVM env backend vmId w = (inr vm, w1) ->
  getVMStatus env backend vmId w1 = (inr status, w2) ->
  Js.truthy (Js.field status "running") = true ->
  default false (mo_shutdown_if_running options) = false ->
  let result := running_result vm status cpu_cores ram_mb in
  modifyVM env backend vmId options w = (inr result, w2)
  /\ Js.field result "success" = JBool false
  /\ Js.field result "current_cpu" = Js.field vm "cpu_cores"
  /\ Js.field result "current_ram_mb" = Js.field vm "ram"
  /\ Js.field result "requested_cpu" = Js.or cpu_cores (Js.field vm "cpu_cores")
  /\ Js.field result "requested_ram_mb" = Js.or ram_mb (Js.field vm "ram")
  /\ (exists hint, Js.field result "hint" = JStr hint
                   /\ Js.includes hint "shutdown_if_running" = true)
  /\ count is_put (events_since w w2) = 0%nat
  /\ Forall (is_read env) (events_since w w2).
Proof.
  intros cpu_cores ram_mb Hvalid Hvm Hst Hrun Hflag result.
  repeat split.
  - unfold modifyVM. fold cpu_cores ram_mb.
    replace (negb (Js.truthy cpu_cores) && negb (Js.truthy ram_mb)) with false
      by (destruct (Js.truthy cpu_cores), (Js.truthy ram_mb); simpl in *; congruence).
    rewrite (bind_inr _ _ _ _ _ Hvm), (bind_inr _ _ _ _ _ Hst), Hrun, Hflag.
    reflexivity.
  - eexists. split; reflexivity.
  - destruct (emits_run _ _ _ _ _ (emits_getVM env backend vmId) Hvm) as [n1 [E1 F1]].
    destruct (emits_run _ _ _ _ _ (emits_getVMStatus env backend vmId) Hst) as [n2 [E2 F2]].
    rewrite (events_since_two _ _ _ _ _ E1 E2).
    eapply count_reads; [apply read_not_put | apply Forall_app; eauto].
  - destruct (emits_run _ _ _ _ _ (emits_getVM env backend vmId) Hvm) as [n1 [E1 F1]].
    destruct (emits_run _ _ _ _ _ (emits_getVMStatus env backend vmId) Hst) as [n2 [E2 F2]].
    rewrite (events_since_two _ _ _ _ _ E1 E2).
    apply Forall_app; auto.
Qed.

Lemma modifyVM_running_refused_witness :
  let backend := Fake.vm_backend 3 Fake.never_stops in
  let w := Fake.holding "tok" in
  let options := mkModifyOptions None (Some 8192) (Some false) None None in
  let w2 := snd (modifyVM Fake.env backend 3 options w) in
  fst (modifyVM Fake.env backend 3 options w)
  = inr [("success", JBool false);
         ("error", JStr "VM 'web' is currently running. CPU/RAM changes require the VM to be powered off.");
         ("current_state", JStr "running");
         ("current_cpu", JNum 2);
         ("current_ram_mb", JNum 4096);
         ("requested_cpu", JNum 2);
         ("requested_ram_mb", JNum 8192);
         ("hint", JStr "Set shutdown_if_running=true to automatically shut down the VM, apply changes, and optionally restart it")]
  /\ count is_put (events_since w w2) = 0%nat.
Proof.
  intros backend w options w2.
  pose (r1 := getVM Fake.env backend 3 w).
  pose (vm := match fst r1 with inr o => o | inl _ => [] end).
  pose (r2 := getVMStatus Fake.env backend 3 (snd r1)).
  pose (status := match fst r2 with inr o => o | inl _ => [] end).
  assert (Hvm : getVM Fake.env backend 3 w = (inr vm, snd r1))
    by (vm_compute; reflexivity).
  assert (Hst : getVMStatus Fake.env backend 3 (snd r1) = (inr status, snd r2))
    by (vm_compute; reflexivity).
  destruct (modifyVM_running_refused Fake.env backend 3 options w vm (snd r1)
              status (snd r2) eq_refl Hvm Hst eq_refl eq_refl)
    as [E [_ [_ [_ [_ [_ [_ [C _]]]]]]]].
  split.
  - rewrite E. vm_compute. reflexivity.
  - unfold w2. rewrite E. exact C.
Defined.

Lemma trace_two (t t1 t2 n1 n2 : list Event) :
  t1 = (t ++ n1)%list -> t2 = (t1 ++ n2)%list -> t2 = (t ++ (n1 ++ n2))%list.
Proof. intros -> ->. now rewrite app_assoc. Qed.

Lemma login_not_update env e : is_login env e -> not_update e.
Proof. intros H. eapply read_not_put. left. exact H. Qed.

Lemma filter_put_prefix l t :
  Forall not_update l -> filter is_put (l ++ t) = filter is_put t.
Proof.
  intros H. rewrite filter_app.
  assert (E : filter is_put l = []).
  { induction H as [|e l He _ IH]; simpl; [reflexivity|].
    unfold not_update in He. now rewrite He. }
  now rewrite E.
Qed.

Section UpdateFacts.

Variable env : Env.
Variable backend : Backend.

(** A request sends logins, if any, and then itself at most once; it has
    sent itself whenever it returns. *)
Lemma request_trace not_configured path options w :
  let run := request env backend not_configured path options w in
  exists pre tail,
    trace (snd run) = (trace w ++ pre ++ tail)%list
    /\ Forall (is_login env) pre
    /\ (tail = [] \/
        exists rq, tail = [EvRequest rq]
                   /\ req_url rq = (baseUrl env ++ path)%string
                   /\ req_method rq = opt_method options
                   /\ req_body rq = opt_body options)
    /\ (forall v, fst run = inr v -> tail <> []).
Proof.
  unfold request, bind.
  destruct (emits_getToken env backend not_configured w) as [pre [E F]].
  destruct (getToken env backend not_configured w) as [[e|t] w1]; simpl in E.
  - exists pre, []. simpl. rewrite app_nil_r. repeat split; auto. discriminate.
  - rewrite fetch_run.
    set (rq := fetchOptions env path options (token w1)).
    exists pre, [EvRequest rq].
    assert (Htr : forall (r : Exn + JsVal),
               trace (snd (r, mkWorld (now w1) (token w1) (trace w1 ++ [EvRequest rq])))
               = (trace w ++ pre ++ [EvRequest rq])%list)
      by (intros r; simpl; now rewrite E, app_assoc).
    split.
    + destruct (negb (resp_ok _)); [apply Htr|].
      unfold response_json. destruct (resp_json _); apply Htr.
    + repeat split; auto.
      * right. exists rq. repeat split; reflexivity.
      * intros _ _. discriminate.
Qed.

Lemma emits_not_update_getVMStatus id :
  emits not_update (getVMStatus env backend id).
Proof.
  eapply emits_weaken; [|apply emits_getVMStatus]. apply read_not_put.
Qed.

Lemma emits_not_update_getVM id : emits not_update (getVM env backend id).
Proof.
  eapply emits_weaken; [|apply emits_getVM]. apply read_not_put.
Qed.

Lemma emits_not_update_vmAction id action :
  emits not_update (vmAction env backend id action).
Proof.
  eapply emits_weaken; [|apply emits_vmAction].
  intros e [H|[r [-> [Hm _]]]]; [eapply read_not_put; eauto|].
  unfold not_update. simpl. now rewrite Hm.
Qed.

Lemma emits_not_update_poll_loop fuel id status startTime maxWait :
  emits not_update (poll_loop env backend fuel id status startTime maxWait).
Proof.
  eapply emits_weaken; [|apply emits_poll_loop].
  intros e [H| ->]; [eapply read_not_put; eauto | reflexivity].
Qed.

Hint Resolve emits_not_update_getVMStatus emits_not_update_getVM
  emits_not_update_vmAction emits_not_update_poll_loop : js.

(** [powerOffVM] never sends an update request. *)
Lemma emits_not_update_powerOffVM id options :
  emits not_update (powerOffVM env backend id options).
Proof.
  unfold powerOffVM. repeat step_emits; reflexivity.
Qed.

(** The update step: logins, if any, then the update request at most
    once, and once whenever the step returns. *)
Lemma apply_changes_trace vmId vm status cpu_cores ram_mb changes w :
  let run := apply_changes env backend vmId vm status cpu_cores ram_mb changes w in
  exists pre tail,
    trace (snd run) = (trace w ++ pre ++ tail)%list
    /\ Forall not_update pre
    /\ (tail = [] \/
        exists rq, tail = [EvRequest rq]
                   /\ req_url rq = (baseUrl env ++ "/api/v4/vms/" ++ Js.num_to_string vmId)%string
                   /\ req_method rq = Some "PUT"
                   /\ req_body rq = Some (JObj changes))
    /\ (forall result, fst run = inr result -> tail <> []).
Proof.
  unfold apply_changes.
  set (path := ("/api/v4/vms/" ++ Js.num_to_string vmId)%string).
  set (options := mkOptions (Some "PUT") json_headers (Some (JObj changes))).
  destruct (request_trace Http.not_configured path options w)
    as [pre [tail [E [F [Ht Hok]]]]].
  exists pre, tail. unfold bind.
  change (Http.request env backend path options w)
    with (request env backend Http.not_configured path options w).
  destruct (request env backend Http.not_configured path options w) as [[e|v] w1];
    simpl in *.
  - repeat split; auto.
    + eapply Forall_impl; [apply login_not_update | exact F].
    + discriminate.
  - repeat split; auto.
    + eapply Forall_impl; [apply login_not_update | exact F].
    + intros _ _. now apply (Hok v).
Qed.

(** Everything [modifyVM] records: events that are no update requests,
    then the update request at most once, and once whenever the call
    reports success. *)
Lemma modifyVM_trace vmId options w :
  let changes := build_changes (opt_num (mo_cpu_cores options))
                               (opt_num (mo_ram_mb options)) in
  let run := modifyVM env backend vmId options w in
  exists before tail,
    trace (snd run) = (trace w ++ before ++ tail)%list
    /\ Forall not_update before
    /\ (tail = [] \/
        exists rq, tail = [EvRequest rq]
                   /\ req_url rq = (baseUrl env ++ "/api/v4/vms/" ++ Js.num_to_string vmId)%string
                   /\ req_method rq = Some "PUT"
                   /\ req_body rq = Some (JObj changes))
    /\ (forall result, fst run = inr result ->
                       Js.field result "success" = JBool true -> tail <> []).
Proof.
  intros changes. unfold modifyVM. fold changes.
  set (cpu_cores := opt_num (mo_cpu_cores options)).
  set (ram_mb := opt_num (mo_ram_mb options)).
  assert (Hquiet : forall (before : list Event) (r : Exn + JsObj) w',
             trace w' = (trace w ++ before)%list ->
             Forall not_update before ->
             (forall result, r = inr result ->
                             Js.field result "success" <> JBool true) ->
             exists before tail,
               trace (snd (r, w')) = (trace w ++ before ++ tail)%list
               /\ Forall not_update before
               /\ (tail = [] \/
                   exists rq, tail = [EvRequest rq]
                     /\ req_url rq = (baseUrl env ++ "/api/v4/vms/" ++ Js.num_to_string vmId)%string
                     /\ req_method rq = Some "PUT"
                     /\ req_body rq = Some (JObj changes))
               /\ (forall result, fst (r, w') = inr result ->
                     Js.field result "success" = JBool true -> tail <> [])).
  { intros before r w' E F Hr. exists before, []. simpl.
    rewrite app_nil_r. repeat split; auto.
    intros result Hres Hs. exfalso. eapply Hr; eauto. }
  assert (Happly : forall (before : list Event) w' vm status,
             trace w' = (trace w ++ before)%list ->
             Forall not_update before ->
             let run := apply_changes env backend vmId vm status cpu_cores ram_mb changes w' in
             exists before tail,
               trace (snd run) = (trace w ++ before ++ tail)%list
               /\ Forall not_update before
               /\ (tail = [] \/
                   exists rq, tail = [EvRequest rq]
                     /\ req_url rq = (baseUrl env ++ "/api/v4/vms/" ++ Js.num_to_string vmId)%string
                     /\ req_method rq = Some "PUT"
                     /\ req_body rq = Some (JObj changes))
               /\ (forall result, fst run = inr result ->
                     Js.field result "success" = JBool true -> tail <> [])).
  { intros before w' vm status E F run.
    destruct (apply_changes_trace vmId vm status cpu_cores ram_mb changes w')
      as [pre [tail [E' [F' [Ht Hok]]]]].
    exists (before ++ pre)%list, tail. fold run in E', Hok.
    repeat split; auto.
    - rewrite E', E. now rewrite !app_assoc.
    - apply Forall_app; auto.
    - intros result Hres _. eapply Hok; eauto. }
  cbv zeta in Happly. cbv zeta.
  destruct (negb (Js.truthy cpu_cores) && negb (Js.truthy ram_mb)).
  { apply (Hquiet []); [simpl; now rewrite app_nil_r | constructor |].
    intros result Hres. inversion Hres. discriminate. }
  destruct (getVM env backend vmId w) as [[e|vm] w1] eqn:Hvm;
    destruct (emits_run _ _ _ _ _ (emits_not_update_getVM vmId) Hvm) as [n1 [E1 F1]].
  { rewrite (bind_inl _ _ _ _ _ Hvm). apply (Hquiet n1); auto. discriminate. }
  rewrite (bind_inr _ _ _ _ _ Hvm).
  destruct (getVMStatus env backend vmId w1) as [[e|status] w2] eqn:Hst;
    destruct (emits_run _ _ _ _ _ (emits_not_update_getVMStatus vmId) Hst) as [n2 [E2 F2]].
  { rewrite (bind_inl _ _ _ _ _ Hst). apply (Hquiet (n1 ++ n2)%list);
      [exact (trace_two _ _ _ _ _ E1 E2) | apply Forall_app; auto | discriminate]. }
  rewrite (bind_inr _ _ _ _ _ Hst).
  assert (E12 : trace w2 = (trace w ++ (n1 ++ n2))%list)
    by exact (trace_two _ _ _ _ _ E1 E2).
  assert (F12 : Forall not_update (n1 ++ n2)%list) by (apply Forall_app; auto).
  destruct (Js.truthy (Js.field status "running")); [|apply (Happly _ _ _ _ E12 F12)].
  destruct (negb (default false (mo_shutdown_if_running options))).
  { apply (Hquiet _ _ _ E12 F12). intros result Hres. inversion Hres. discriminate. }
  match goal with
  | |- context [powerOffVM env backend vmId ?o] =>
      destruct (powerOffVM env backend vmId o w2) as [[e|shutdownResult] w3] eqn:Hoff;
      destruct (emits_run _ _ _ _ _ (emits_not_update_powerOffVM vmId o) Hoff)
        as [n3 [E3 F3]]
  end.
  { rewrite (bind_inl _ _ _ _ _ Hoff). apply (Hquiet ((n1 ++ n2) ++ n3)%list);
      [exact (trace_two _ _ _ _ _ E12 E3) | apply Forall_app; auto | discriminate]. }
  rewrite (bind_inr _ _ _ _ _ Hoff).
  assert (E123 : trace w3 = (trace w ++ ((n1 ++ n2) ++ n3))%list)
    by exact (trace_two _ _ _ _ _ E12 E3).
  assert (F123 : Forall not_update ((n1 ++ n2) ++ n3)%list) by (apply Forall_app; auto).
  destruct (negb (Js.truthy (Js.field shutdownResult "success"))
            && negb (message_includes shutdownResult "already stopped")).
  - apply (Hquiet _ _ _ E123 F123). intros result Hres. inversion Hres. discriminate.
  - apply (Happly _ _ _ _ E123 F123).
Qed.

End UpdateFacts.

Lemma build_changes_cases cpu_cores ram_mb :
  build_changes cpu_cores ram_mb =
  match Js.truthy cpu_cores, Js.truthy ram_mb with
  | true, true => [("cpu_cores", cpu_cores); ("ram", ram_mb)]
  | true, false => [("cpu_cores", cpu_cores)]
  | false, true => [("ram", ram_mb)]
  | false, false => []
  end.
Proof.
  unfold build_changes. destruct (Js.truthy cpu_cores), (Js.truthy ram_mb); reflexivity.
Qed.

Lemma build_changes_fields cpu_cores ram_mb k v :
  In (k, v) (build_changes cpu_cores ram_mb) ->
  (k = "cpu_cores"%string /\ v = cpu_cores /\ Js.truthy cpu_cores = true)
  \/ (k = "ram"%string /\ v = ram_mb /\ Js.truthy ram_mb = true).
Proof.
  rewrite build_changes_cases.
  destruct (Js.truthy cpu_cores) eqn:Hc, (Js.truthy ram_mb) eqn:Hr; simpl;
    intuition (try congruence);
    match goal with H : (_, _) = (_, _) |- _ => inversion H; subst end; auto.
Qed.

Lemma lookup_in k o v : Js.lookup k o = Some v -> In (k, v) o.
Proof.
  induction o as [|[k' v'] tl IH]; simpl; [discriminate|].
  destruct (String.eqb_spec k k') as [->|Hne].
  - intros H. inversion H. now left.
  - intros H. right. now apply IH.
Qed.

Lemma build_changes_never_zero cpu_cores ram_mb k :
  Js.field (build_changes cpu_cores ram_mb) k <> JNum 0.
Proof.
  unfold Js.field.
  destruct (Js.lookup k (build_changes cpu_cores ram_mb)) as [v|] eqn:E; [|discriminate].
  apply lookup_in, build_changes_fields in E.
  destruct E as [[_ [-> H]] | [_ [-> H]]]; intros C; rewrite C in H; discriminate.
Qed.

(** C9. [modifyVM] sends the update request at most once, and exactly once
    whenever it reports success; the body of that request is the object
    [changes], which holds nothing but the requested fields: [cpu_cores]
    only when the caller gave it, [ram] only when the caller gave it. *)
Theorem modifyVM_single_update env backend vmId options w :
  let cpu_cores := opt_num (mo_cpu_cores options) in
  let ram_mb := opt_num (mo_ram_mb options) in
  let changes := build_changes cpu_cores ram_mb in
  let run := modifyVM env backend vmId options w in
  let sent := filter is_put (events_since w (snd run)) in
  let is_the_update (rq : Request) :=
    req_url rq = (baseUrl env ++ "/api/v4/vms/" ++ Js.num_to_string vmId)%string
    /\ req_method rq = Some "PUT"
    /\ req_body rq = Some (JObj changes) in
  (sent = [] \/ exists rq, sent = [EvRequest rq] /\ is_the_update rq)
  /\ (forall result, fst run = inr result ->
                     Js.field result "success" = JBool true ->
                     exists rq, sent = [EvRequest rq] /\ is_the_update rq)
  /\ (forall k v, In (k, v) changes ->
                  (k = "cpu_cores"%string /\ v = cpu_cores /\ mo_cpu_cores options <> None)
                  \/ (k = "ram"%string /\ v = ram_mb /\ mo_ram_mb options <> None))
  /\ (mo_ram_mb options = None -> Js.has_field changes "ram" = false)
  /\ (mo_cpu_cores options = None -> Js.has_field changes "cpu_cores" = false).
Proof.
  intros cpu_cores ram_mb changes run sent is_the_update.
  destruct (modifyVM_trace env backend vmId options w)
    as [before [tail [E [F [Ht Hok]]]]].
  fold cpu_cores ram_mb changes run in E, Ht, Hok.
  assert (Hsent : sent = filter is_put tail).
  { unfold sent. rewrite (events_since_app _ _ _ E). now apply filter_put_prefix. }
  assert (Hone : forall rq, tail = [EvRequest rq] -> req_method rq = Some "PUT" ->
                            sent = [EvRequest rq]).
  { intros rq -> Hm. rewrite Hsent. simpl. now rewrite Hm. }
  repeat split.
  - destruct Ht as [->|[rq [Hrq Hu]]]; [left; now rewrite Hsent|].
    right. exists rq. split; [apply Hone; tauto | exact Hu].
  - intros result Hres Hs.
    destruct Ht as [->|[rq [Hrq Hu]]]; [exfalso; now apply (Hok result Hres Hs)|].
    exists rq. split; [apply Hone; tauto | exact Hu].
  - intros k v Hin. apply build_changes_fields in Hin.
    destruct Hin as [[-> [-> Ht']]|[-> [-> Ht']]]; [left|right]; repeat split.
    + unfold cpu_cores in Ht'. intros C. rewrite C in Ht'. discriminate.
    + unfold ram_mb in Ht'. intros C. rewrite C in Ht'. discriminate.
  - intros Hnone. unfold changes, ram_mb. rewrite Hnone, build_changes_cases.
    simpl. destruct (Js.truthy cpu_cores); reflexivity.
  - intros Hnone. unfold changes, cpu_cores. rewrite Hnone, build_changes_cases.
    simpl. destruct (Js.truthy ram_mb); reflexivity.
Qed.

Lemma modifyVM_single_update_witness :
  let backend := Fake.vm_backend 3 Fake.stopped in
  let w := Fake.holding "tok" in
  let options := mkModifyOptions None (Some 8192) None None None in
  let run := modifyVM Fake.env backend 3 options w in
  Js.field (match fst run with inr o => o | inl _ => [] end) "success" = JBool true
  /\ (exists rq, filter is_put (events_since w (snd run)) = [EvRequest rq]
                 /\ req_body rq = Some (JObj [("ram", JNum 8192)]))
  /\ Js.has_field (build_changes JUndefined (JNum 8192)) "cpu_cores" = false.
Proof.
  intros backend w options run.
  destruct (modifyVM_single_update Fake.env backend 3 options w)
    as [_ [Hok [_ [_ Hcpu]]]].
  assert (Hres : fst run = inr (match fst run with inr o => o | inl _ => [] end))
    by (vm_compute; reflexivity).
  assert (Hs : Js.field (match fst run with inr o => o | inl _ => [] end) "success"
               = JBool true) by (vm_compute; reflexivity).
  destruct (Hok _ Hres Hs) as [rq [Hsent [_ [_ Hbody]]]].
  split; [exact Hs|]. split.
  - exists rq. split; [exact Hsent | exact Hbody].
  - exact (Hcpu eq_refl).
Defined.

(** C10. A zero counts as absent.  A request whose [cpu_cores] and [ram_mb]
    are each absent or 0 is rejected by the validation without touching the
    backend; a 0 next to a non-zero other field is left out of [changes];
    and no update request that [modifyVM] sends carries a field equal
    to 0. *)
Theorem modifyVM_zero_is_absent env backend vmId options w :
  ((mo_cpu_cores options = None \/ mo_cpu_cores options = Some 0) ->
   (mo_ram_mb options = None \/ mo_ram_mb options = Some 0) ->
   modifyVM env backend vmId options w = (inr nothing_to_modify_result, w))
  /\ (forall n, n <> 0 ->
        build_changes (JNum 0) (JNum n) = [("ram", JNum n)]
        /\ build_changes (JNum n) (JNum 0) = [("cpu_cores", JNum n)]
        /\ build_changes JUndefined (JNum n) = build_changes (JNum 0) (JNum n)
        /\ build_changes (JNum n) JUndefined = build_changes (JNum n) (JNum 0))
  /\ (forall rq,
        In (EvRequest rq) (events_since w (snd (modifyVM env backend vmId options w))) ->
        is_put (EvRequest rq) = true ->
        exists changes, req_body rq = Some (JObj changes)
                        /\ forall k, Js.field changes k <> JNum 0).
Proof.
  repeat split.
  - intros Hc Hr. unfold modifyVM.
    destruct Hc as [-> | ->], Hr as [-> | ->]; reflexivity.
  - rewrite build_changes_cases. simpl.
    destruct (Z.eqb_spec n 0); [contradiction | reflexivity].
  - rewrite build_changes_cases. simpl.
    destruct (Z.eqb_spec n 0); [contradiction | reflexivity].
  - intros rq Hin Hput.
    destruct (modifyVM_trace env backend vmId options w)
      as [before [tail [E [F [Ht _]]]]].
    rewrite (events_since_app _ _ _ E) in Hin.
    apply in_app_or in Hin. destruct Hin as [Hin|Hin].
    + rewrite Forall_forall in F. specialize (F _ Hin).
      unfold not_update in F. congruence.
    + destruct Ht as [->|[rq' [-> [_ [_ Hb]]]]]; [contradiction|].
      destruct Hin as [Heq|[]]. inversion Heq; subst.
      eexists. split; [exact Hb|]. apply build_changes_never_zero.
Qed.

Lemma modifyVM_zero_is_absent_witness :
  let backend := Fake.vm_backend 3 Fake.stopped in
  let w := Fake.holding "tok" in
  modifyVM Fake.env backend 3 (mkModifyOptions (Some 0) (Some 0) None None None) w
  = (inr nothing_to_modify_result, w)
  /\ build_changes (JNum 0) (JNum 8192) = [("ram", JNum 8192)]
  /\ filter is_put
       (events_since w
          (snd (modifyVM Fake.env backend 3
                  (mkModifyOptions (Some 0) (Some 8192) None None None) w)))
     = [EvRequest (mkRequest "https://verge.test/api/v4/vms/3" (Some "PUT")
                     [("Content-Type", "application/json"); ("Cookie", "token=tok")]
                     (Some (JObj [("ram", JNum 8192)])))].
Proof.
  intros backend w.
  destruct (modifyVM_zero_is_absent Fake.env backend 3
              (mkModifyOptions (Some 0) (Some 0) None None None) w)
    as [Hreject [Hchanges _]].
  split; [apply Hreject; right; reflexivity|].
  split; [apply (Hchanges 8192); discriminate|].
  vm_compute. reflexivity.
Defined.

Lemma count_logins env verb l :
  Forall (is_login env) l -> count (is_action verb) l = 0%nat.
Proof.
  intros H. eapply count_reads; [apply read_not_action|].
  eapply Forall_impl; [apply login_is_read | exact H].
Qed.

Lemma count_polling env verb l :
  Forall (fun e => is_read env e \/ e = EvSleep pollInterval) l ->
  count (is_action verb) l = 0%nat.
Proof.
  intros H. apply count_none. eapply Forall_impl; [|exact H].
  intros e [He| ->]; [eapply read_not_action; eauto | reflexivity].
Qed.

(** An action request carries its own verb and no other. *)
Lemma count_action_request verb verb' id rq :
  req_body rq = Some (JObj [("vm", JNum id); ("action", JStr verb')]) ->
  count (is_action verb) [EvRequest rq] = if String.eqb verb' verb then 1%nat else 0%nat.
Proof.
  intros Hb. unfold count. simpl. rewrite Hb. simpl.
  destruct (String.eqb verb' verb); reflexivity.
Qed.

(** C4. The timeout is reached with [force_after_timeout] set: the loop
    has given up ([poll_loop] answers [None]), the backend accepts the
    kill action and answers the last status read.  Then [powerOffVM]
    returns success with [forced: true] and the state of that last read,
    whatever this state is; between the end of the loop and the return it
    records the kill request, the 2000 ms timer and the reads of one
    status query, in this order; and in the whole call exactly one kill
    action is sent. *)
Theorem powerOffVM_forced_after_timeout env backend id wait_timeout
    w0 status w1 ack w2 w3 ack' w4 finalStatus w5 :
  getVMStatus env backend id w0 = (inr status, w1) ->
  Js.truthy (Js.field status "running") = true ->
  vmAction env backend id "poweroff" w1 = (inr ack, w2) ->
  0 < wait_timeout ->
  poll_loop env backend (poll_fuel (maxWait_of wait_timeout)) id status
            (now w2) (maxWait_of wait_timeout) w2 = (inr None, w3) ->
  vmAction env backend id "kill" w3 = (inr ack', w4) ->
  getVMStatus env backend id (snd (sleep 2000 w4)) = (inr finalStatus, w5) ->
  let result := forced_result status wait_timeout finalStatus (now w5 - now w2) in
  powerOffVM env backend id (mkPowerOffOptions (Some wait_timeout) (Some true)) w0
  = (inr result, w5)
  /\ Js.field result "success" = JBool true
  /\ Js.field result "forced" = JBool true
  /\ Js.field result "final_state" = Js.field finalStatus "power_state"
  /\ count (is_action "kill") (events_since w0 w5) = 1%nat
  /\ exists logins kill reads,
       events_since w3 w5 = (logins ++ [EvRequest kill; EvSleep 2000] ++ reads)%list
       /\ Forall (is_login env) logins
       /\ is_action "kill" (EvRequest kill) = true
       /\ Forall (is_read env) reads.
Proof.
  intros H1 Hrun H2 Hwt H3 H4 H5 result.
  destruct (emits_run _ _ _ _ _ (emits_getVMStatus env backend id) H1) as [n1 [E1 F1]].
  destruct (vmAction_ok _ _ _ _ _ _ _ H2) as [pre2 [rq2 [E2 [F2 [_ [_ B2]]]]]].
  destruct (emits_run _ _ _ _ _ (emits_poll_loop env backend _ _ _ _ _) H3) as [n3 [E3 F3]].
  destruct (vmAction_ok _ _ _ _ _ _ _ H4) as [pre4 [rq4 [E4 [F4 [_ [_ B4]]]]]].
  destruct (emits_run _ _ _ _ _ (emits_getVMStatus env backend id) H5) as [n5 [E5 F5]].
  simpl in E5.
  repeat split.
  - unfold powerOffVM. cbn [default po_wait_timeout po_force_after_timeout].
    rewrite (bind_inr _ _ _ _ _ H1), Hrun. cbn [negb].
    rewrite (bind_inr _ _ _ _ _ H2).
    destruct (Z.leb_spec wait_timeout 0); [lia|].
    rewrite bind_date_now, (bind_inr _ _ _ _ _ H3), (bind_inr _ _ _ _ _ H4).
    rewrite bind_sleep, (bind_inr _ _ _ _ _ H5), bind_date_now.
    reflexivity.
  - assert (E : trace w5 = (trace w0 ++ n1 ++ (pre2 ++ [EvRequest rq2]) ++ n3
                            ++ (pre4 ++ [EvRequest rq4]) ++ [EvSleep 2000] ++ n5)%list).
    { rewrite E5, E4, E3, E2, E1. now rewrite <- !app_assoc. }
    rewrite (events_since_app _ _ _ E), !count_app.
    rewrite (count_reads env _ n1 (read_not_action env "kill") F1).
    rewrite (count_logins env _ _ F2), (count_action_request _ _ _ _ B2).
    rewrite (count_polling env _ _ F3).
    rewrite (count_logins env _ _ F4), (count_action_request _ _ _ _ B4).
    rewrite (count_reads env _ n5 (read_not_action env "kill") F5).
    reflexivity.
  - exists pre4, rq4, n5. repeat split; auto.
    + apply events_since_app. rewrite E5, E4. now rewrite <- !app_assoc.
    + simpl. now rewrite B4.
Qed.

Lemma powerOffVM_forced_after_timeout_witness :
  let backend := Fake.vm_backend 7 Fake.never_stops in
  let w0 := Fake.holding "tok" in
  let run := powerOffVM Fake.env backend 7 (mkPowerOffOptions (Some 6) (Some true)) w0 in
  fst run = inr [("success", JBool true);
                 ("message", JStr "VM 'web' did not shut down within 6s - forced power off");
                 ("final_state", JStr "running");
                 ("forced", JBool true);
                 ("elapsed_seconds", JNum 8)]
  /\ count (is_action "kill") (events_since w0 (snd run)) = 1%nat.
Proof.
  intros backend w0 run.
  pose (r1 := getVMStatus Fake.env backend 7 w0).
  pose (status := match fst r1 with inr o => o | inl _ => [] end).
  pose (r2 := vmAction Fake.env backend 7 "poweroff" (snd r1)).
  pose (r3 := poll_loop Fake.env backend (poll_fuel (maxWait_of 6)) 7 status
                        (now (snd r2)) (maxWait_of 6) (snd r2)).
  pose (r4 := vmAction Fake.env backend 7 "kill" (snd r3)).
  pose (r5 := getVMStatus Fake.env backend 7 (snd (sleep 2000 (snd r4)))).
  pose (finalStatus := match fst r5 with inr o => o | inl _ => [] end).
  assert (H1 : getVMStatus Fake.env backend 7 w0 = (inr status, snd r1))
    by (vm_compute; reflexivity).
  assert (H2 : vmAction Fake.env backend 7 "poweroff" (snd r1) = (inr (JObj []), snd r2))
    by (vm_compute; reflexivity).
  assert (H3 : poll_loop Fake.env backend (poll_fuel (maxWait_of 6)) 7 status
                         (now (snd r2)) (maxWait_of 6) (snd r2) = (inr None, snd r3))
    by (vm_compute; reflexivity).
  assert (H4 : vmAction Fake.env backend 7 "kill" (snd r3) = (inr (JObj []), snd r4))
    by (vm_compute; reflexivity).
  assert (H5 : getVMStatus Fake.env backend 7 (snd (sleep 2000 (snd r4)))
               = (inr finalStatus, snd r5))
    by (vm_compute; reflexivity).
  destruct (powerOffVM_forced_after_timeout Fake.env backend 7 6 w0 status (snd r1)
              (JObj []) (snd r2) (snd r3) (JObj []) (snd r4) finalStatus (snd r5)
              H1 eq_refl H2 eq_refl H3 H4 H5)
    as [E [_ [_ [_ [C _]]]]].
  unfold run. rewrite E. split; [vm_compute; reflexivity | exact C].
Defined.

(** A client without a token logs in first; when the login yields a token,
    the request goes on as if the client had held it. *)
Lemma request_after_login env backend not_configured path options w data key :
  Js.truthy (token w) = false ->
  String.eqb (VERGEOS_USER env) "" || String.eqb (VERGEOS_PASS env) "" = false ->
  resp_json (backend (now w) (trace w)
               (fetchOptions env "/api/sys/tokens" (login_options env) (token w)))
  = Some data ->
  Js.get data "$key" = inr key ->
  Js.truthy key = true ->
  request env backend not_configured path options w
  = request env backend not_configured path options
      (mkWorld (now w) key
         (trace w ++ [EvRequest (fetchOptions env "/api/sys/tokens"
                                   (login_options env) (token w))])).
Proof.
  intros Hfalsy Hcfg Hjson Hkey Htruthy.
  set (wl := mkWorld _ _ _).
  assert (Hlogin : getToken env backend not_configured w = (inr key, wl)).
  { unfold getToken, bind, get_this_token. rewrite Hfalsy, Hcfg, fetch_run.
    unfold response_json. rewrite Hjson. simpl. rewrite Hkey. reflexivity. }
  unfold request.
  rewrite (bind_inr _ _ _ _ _ Hlogin).
  rewrite (bind_inr _ _ _ _ _ (getToken_cached env backend not_configured wl Htruthy)).
  reflexivity.
Qed.

(** The scenario of the specification with a scripted backend, on the
    clock of the timers: the status list reports the VM running to the
    first two reads (the read that opens [powerOffVM] and the poll at 3 s)
    and stopped to the third (the poll at 6 s). *)
Example powerOffVM_scripted_scenario :
  powerOffVM Fake.env (Fake.vm_backend 7 (Fake.running_for_reads 2)) 7
    (mkPowerOffOptions (Some 6) (Some false)) (Fake.holding "tok")
  = (inr [("success", JBool true);
          ("message", JStr "VM 'web' shut down gracefully");
          ("final_state", JStr "stopped");
          ("elapsed_seconds", JNum 6)],
     snd (powerOffVM Fake.env (Fake.vm_backend 7 (Fake.running_for_reads 2)) 7
            (mkPowerOffOptions (Some 6) (Some false)) (Fake.holding "tok"))).
Proof. vm_compute. reflexivity. Qed.

(* ===================================================================== *)
(** ** Round trips that take time *)
(* ===================================================================== *)

Lemma timely_emits {A} P (m : M A) : timely P m -> emits P m.
Proof. intros H w. apply H. Qed.


Lemma timely_still {A} (P : Event -> Prop) (m : M A) :
  (forall w, snd (m w) = w) -> (forall w, fst (m w) <> inl OutOfFuel) -> timely P m.
Proof.
  intros Hs Hf w. rewrite Hs. split; [|split; [lia | apply Hf]].
  exists []. now rewrite app_nil_r.
Qed.

Lemma timely_ret {A} P (a : A) : timely P (ret a).
Proof. apply timely_still; [reflexivity | discriminate]. Qed.

Lemma timely_throw {A} P e : e <> OutOfFuel -> timely P (@throw A e).
Proof. intros H. apply timely_still; [reflexivity | simpl; congruence]. Qed.

Lemma timely_lift {A} P (r : Exn + A) : r <> inl OutOfFuel -> timely P (lift r).
Proof.
  intros H. destruct r as [e|a]; [apply timely_throw; congruence | apply timely_ret].
Qed.

Lemma timely_date_now P : timely P date_now.
Proof. apply timely_still; [reflexivity | discriminate]. Qed.

Lemma timely_get_this_token P : timely P get_this_token.
Proof. apply timely_still; [reflexivity | discriminate]. Qed.

Lemma timely_set_this_token P t : timely P (set_this_token t).
Proof.
  intros w. simpl. split; [|split; [lia | discriminate]].
  exists []. now rewrite app_nil_r.
Qed.

Lemma timely_response_json P r : timely P (response_json r).
Proof.
  unfold response_json. destruct (resp_json r);
    [apply timely_ret | apply timely_throw; discriminate].
Qed.

Lemma timely_sleep (P : Event -> Prop) ms :
  0 <= ms -> P (EvSleep ms) -> timely P (sleep ms).
Proof.
  intros Hms H w. simpl. split; [|split; [lia | discriminate]].
  exists [EvSleep ms]. auto.
Qed.



#[local] Hint Resolve timely_ret timely_lift timely_date_now timely_get_this_token
  timely_set_this_token timely_response_json : js.


Section TimedFacts.

Variable delay : Delay.
Variable env : Env.
Variable backend : Backend.

(** No round trip ends before it began. *)
Hypothesis delay_nonneg : forall t history r, 0 <= delay t history r.

Local Notation timed_fetch := (Timed.fetch delay env backend).
Local Notation timed_getToken := (Timed.getToken delay env backend).
Local Notation timed_request := (Timed.request delay env backend).
Local Notation timed_getVMStatus := (Timed.getVMStatus delay env backend).
Local Notation timed_vmAction := (Timed.vmAction delay env backend).
Local Notation timed_poll_loop := (Timed.poll_loop delay env backend).
Local Notation timed_powerOffVM := (Timed.powerOffVM delay env backend).















End TimedFacts.

(** *** Round trips that take no time: the clock of the timers *)

Lemma bind_ext {A B} (m m' : M A) (k k' : A -> M B) w :
  m w = m' w -> (forall a w1, k a w1 = k' a w1) -> bind m k w = bind m' k' w.
Proof.
  intros Hm Hk. unfold bind. rewrite Hm.
  destruct (m' w) as [[e|a] w1]; [reflexivity | apply Hk].
Qed.

Section NoDelay.

Variable env : Env.
Variable backend : Backend.

Lemma timed_fetch_no_delay path options w :
  Timed.fetch no_delay env backend path options w = fetch env backend path options w.
Proof.
  unfold Timed.fetch, fetch, bind, get_this_token, Timed.node_fetch, node_fetch, no_delay.
  now rewrite Z.add_0_r.
Qed.

Lemma timed_getToken_no_delay w :
  Timed.getToken no_delay env backend w = Http.getToken env backend w.
Proof.
  unfold Timed.getToken, Http.getToken, getToken.
  apply bind_ext; [reflexivity|intros t w1].
  destruct (Js.truthy t); [reflexivity|].
  destruct (_ || _); [reflexivity|].
  apply bind_ext; [apply timed_fetch_no_delay | reflexivity].
Qed.

Lemma timed_request_no_delay path options w :
  Timed.request no_delay env backend path options w
  = Http.request env backend path options w.
Proof.
  unfold Timed.request, Http.request, request.
  apply bind_ext; [apply timed_getToken_no_delay|intros _ w1].
  apply bind_ext; [apply timed_fetch_no_delay | reflexivity].
Qed.

Lemma timed_getVMStatus_no_delay id w :
  Timed.getVMStatus no_delay env backend id w = getVMStatus env backend id w.
Proof.
  unfold Timed.getVMStatus, getVMStatus.
  apply bind_ext; [apply timed_request_no_delay|intros vm w1].
  apply bind_ext; [apply timed_request_no_delay | reflexivity].
Qed.

Lemma timed_vmAction_no_delay id action w :
  Timed.vmAction no_delay env backend id action w = vmAction env backend id action w.
Proof. apply timed_request_no_delay. Qed.

Lemma timed_poll_loop_no_delay id status startTime maxWait :
  forall fuel w,
    Timed.poll_loop no_delay env backend fuel id status startTime maxWait w
    = poll_loop env backend fuel id status startTime maxWait w.
Proof.
  induction fuel as [|fuel IH]; intros w; simpl.
  - reflexivity.
  - apply bind_ext; [reflexivity|intros t w1].
    destruct (t - startTime <? maxWait); [|reflexivity].
    apply bind_ext; [reflexivity|intros _ w2].
    apply bind_ext; [apply timed_getVMStatus_no_delay|intros cs w3].
    destruct (negb _); [reflexivity | apply IH].
Qed.

(** With round trips that take no time the timed [powerOffVM] is the
    [powerOffVM] of the clock of the timers. *)
Lemma timed_powerOffVM_no_delay id options w :
  Timed.powerOffVM no_delay env backend id options w
  = powerOffVM env backend id options w.
Proof.
  unfold Timed.powerOffVM, powerOffVM.
  apply bind_ext; [apply timed_getVMStatus_no_delay|intros status w1].
  destruct (negb _); [reflexivity|].
  apply bind_ext; [apply timed_vmAction_no_delay|intros _ w2].
  destruct (_ <=? 0); [reflexivity|].
  apply bind_ext; [reflexivity|intros startTime w3].
  apply bind_ext; [apply timed_poll_loop_no_delay|intros polled w4].
  destruct polled as [result|]; [reflexivity|].
  destruct (default false _).
  - apply bind_ext; [apply timed_vmAction_no_delay|intros _ w5].
    apply bind_ext; [reflexivity|intros _ w6].
    apply bind_ext; [apply timed_getVMStatus_no_delay | reflexivity].
  - apply bind_ext; [apply timed_getVMStatus_no_delay | reflexivity].
Qed.

End NoDelay.

(** *** The stop at the timeout boundary *)







(** *** The timers of a whole [powerOffVM] *)










(** ** The credential *)

Lemma header_set_header k v hs : header k (set_header k v hs) = Some v.
Proof.
  unfold header.
  induction hs as [|[k' v'] tl IH]; simpl.
  - now rewrite String.eqb_refl.
  - destruct (String.eqb k k') eqn:E; simpl; rewrite E; [reflexivity | exact IH].
Qed.

(** A failure status is thrown with its code and body after a single round
    trip: the client keeps its token and sends nothing else. *)
Lemma request_failure_propagated env backend not_configured path options w :
  Js.truthy (token w) = true ->
  resp_ok (backend (now w) (trace w) (fetchOptions env path options (token w))) = false ->
  request env backend not_configured path options w
  = (inl (Error ("API Error "
                 ++ Js.num_to_string
                      (resp_status (backend (now w) (trace w)
                                      (fetchOptions env path options (token w))))
                 ++ ": "
                 ++ resp_text (backend (now w) (trace w)
                                 (fetchOptions env path options (token w))))),
     mkWorld (now w) (token w)
       (trace w ++ [EvRequest (fetchOptions env path options (token w))])).
Proof.
  intros Htok Hfail. rewrite (request_holding _ _ _ _ _ w Htok), Hfail. reflexivity.
Qed.

(** C2. The failing input: the backend rejects the cached token with a 401
    and hands out a fresh one at login; the credential pair is configured.
    [request] of the HTTP server and of the stdio server throws the 401
    with its body after one round trip, keeps the rejected token and
    neither logs in nor retries; the [apiRequest] of the direct-connection
    proxy, at the same input, drops the token, logs in and succeeds at the
    second attempt. *)
Theorem request_401_is_thrown_not_retried :
  let stale_request tok :=
    EvRequest (mkRequest "https://verge.test/api/v4/vms?fields=most" None
                 [("Cookie", "token=" ++ tok)%string] None) in
  Http.request Fake.env Fake.expiring_backend "/api/v4/vms?fields=most" no_options
    (Fake.holding "stale")
  = (inl (Error "API Error 401: token expired"),
     mkWorld 0 (JStr "stale") [stale_request "stale"])
  /\ Stdio.request Fake.env_both Fake.expiring_backend "/api/v4/vms?fields=most"
       no_options (Fake.fresh_stdio Fake.env_both)
     = (inl (Error "API Error 401: token expired"),
        mkWorld 0 (JStr "static-token") [stale_request "static-token"])
  /\ fst (Direct.apiRequest Fake.env Fake.expiring_backend 2 "/api/v4/vms?fields=most"
            no_options (Fake.holding "stale"))
     = inr (JArr [])
  /\ token (snd (Direct.apiRequest Fake.env Fake.expiring_backend 2
                   "/api/v4/vms?fields=most" no_options (Fake.holding "stale")))
     = JStr "fresh"
  /\ List.length
       (trace (snd (Direct.apiRequest Fake.env Fake.expiring_backend 2
                      "/api/v4/vms?fields=most" no_options (Fake.holding "stale"))))
     = 3%nat.
Proof. vm_compute. repeat split. Qed.

(** Every other failure status is propagated in the same way, with its
    code and its body. *)
Example request_500_is_thrown :
  Http.request Fake.env (Fake.failing_backend 500 "boom") "/api/v4/vms" no_options
    (Fake.holding "tok")
  = (inl (Error "API Error 500: boom"),
     mkWorld 0 (JStr "tok")
       [EvRequest (mkRequest "https://verge.test/api/v4/vms" None
                     [("Cookie", "token=tok")] None)]).
Proof. vm_compute. reflexivity. Qed.

(** C3.  The failing input: a credential pair and a static token are both
    configured.  The stdio client never contacts the login endpoint, where
    the claim has it exchange the pair: the pair does not take priority. *)
Lemma static_token_shadows_pair :
  VERGEOS_USER Fake.env_both <> ""%string
  /\ VERGEOS_PASS Fake.env_both <> ""%string
  /\ VERGEOS_TOKEN Fake.env_both <> ""%string
  /\ ~ pair_takes_priority Fake.env_both Fake.expiring_backend.
Proof.
  repeat split; try discriminate.
  intros [r [Hin _]]. vm_compute in Hin. exact Hin.
Qed.

(** The sibling paths at the input of C3, a credential pair and a static
    token both configured: the [getToken] of the connectivity test script
    and the [getToken] of the HTTP server both exchange the pair at the
    login endpoint and return the token it hands out. *)
Example sibling_getToken_uses_pair :
  let login :=
    EvRequest (mkRequest "https://verge.test/api/sys/tokens" (Some "POST")
                 [("Content-Type", "application/json");
                  ("Authorization", "Basic YWRtaW46c2VjcmV0")]
                 (Some (JObj [("login", JStr "admin"); ("password", JStr "secret")]))) in
  TestScript.getToken Fake.env_both Fake.expiring_backend (Fake.fresh_stdio Fake.env_both)
  = (inr (JStr "fresh"), mkWorld 0 (JStr "fresh") [login])
  /\ Http.getToken Fake.env_both Fake.expiring_backend Fake.fresh_http
     = (inr (JStr "fresh"), mkWorld 0 (JStr "fresh") [login])
  /\ Stdio.getToken Fake.env_both Fake.expiring_backend (Fake.fresh_stdio Fake.env_both)
     = (inr (JStr "static-token"), Fake.fresh_stdio Fake.env_both).
Proof. vm_compute. repeat split. Qed.

(** What the stdio server does with its configuration, for every
    environment: a static token is made the cached credential by the
    constructor, [getToken] returns it without contacting the backend, and
    a request is a single round trip that carries it as the cookie.  The
    credential pair is exchanged at the login endpoint only when no static
    token is configured. *)
Theorem stdio_static_token_takes_priority env backend :
  let w := mkWorld 0 (Stdio.constructor env) [] in
  (VERGEOS_TOKEN env <> ""%string ->
   Stdio.getToken env backend w = (inr (JStr (VERGEOS_TOKEN env)), w)
   /\ ~ pair_takes_priority env backend
   /\ forall path options,
        no_authorization options = true ->
        exists rq,
          trace (snd (Stdio.request env backend path options w)) = [EvRequest rq]
          /\ req_url rq = (baseUrl env ++ path)%string
          /\ header "Cookie" (req_headers rq)
             = Some ("token=" ++ VERGEOS_TOKEN env)%string)
  /\ (VERGEOS_TOKEN env = ""%string ->
      VERGEOS_USER env <> ""%string ->
      VERGEOS_PASS env <> ""%string ->
      pair_takes_priority env backend
      /\ exists rq rest,
           trace (snd (Stdio.getToken env backend w)) = EvRequest rq :: rest
           /\ req_url rq = (baseUrl env ++ "/api/sys/tokens")%string
           /\ req_body rq = login_body env
           /\ header "Authorization" (req_headers rq)
              = Some ("Basic " ++ Js.base64 (VERGEOS_USER env ++ ":" ++ VERGEOS_PASS env))%string).
Proof.
  intros w. split.
  - intros Htok.
    assert (Htruthy : Js.truthy (token w) = true).
    { simpl. apply String.eqb_neq in Htok. now rewrite Htok. }
    assert (Hget : Stdio.getToken env backend w = (inr (JStr (VERGEOS_TOKEN env)), w))
      by (apply (getToken_cached env backend Stdio.not_configured w Htruthy)).
    split; [exact Hget|]. split.
    + intros [r [Hin _]].
      change (In (EvRequest r) (trace (snd (Stdio.getToken env backend w)))) in Hin.
      rewrite Hget in Hin. exact Hin.
    + intros path options Hauth. unfold Stdio.request.
      rewrite (request_holding _ _ _ _ _ w Htruthy).
      eexists. split; [reflexivity|]. split; [reflexivity|].
      unfold fetchOptions. cbn [req_headers]. rewrite Htruthy, Hauth.
      apply header_set_header.
  - intros Hnone Huser Hpass.
    assert (Hfalsy : Js.truthy (token w) = false) by (simpl; now rewrite Hnone).
    apply String.eqb_neq in Huser, Hpass.
    assert (Hrun : exists rest,
               trace (snd (Stdio.getToken env backend w))
               = EvRequest (fetchOptions env "/api/sys/tokens" (login_options env) (token w))
                 :: rest).
    { unfold Stdio.getToken, getToken, bind, get_this_token.
      rewrite Hfalsy, Huser, Hpass. cbn [orb]. rewrite fetch_run.
      unfold response_json. destruct (resp_json _) as [data|]; [|now exists []].
      cbn [ret]. destruct (Js.get data "$key"); now exists []. }
    destruct Hrun as [rest Hrun]. split.
    + exists (fetchOptions env "/api/sys/tokens" (login_options env) (token w)).
      change (In (EvRequest (fetchOptions env "/api/sys/tokens" (login_options env) (token w)))
                 (trace (snd (Stdio.getToken env backend w)))
              /\ req_body (fetchOptions env "/api/sys/tokens" (login_options env) (token w))
                 = login_body env).
      rewrite Hrun. split; [now left | reflexivity].
    + eexists. exists rest. split; [exact Hrun|].
      split; [reflexivity|]. split; [reflexivity|].
      unfold fetchOptions. cbn [req_headers]. rewrite Hfalsy. reflexivity.
Qed.

Lemma stdio_static_token_takes_priority_witness :
  Stdio.getToken Fake.env_both Fake.expiring_backend (Fake.fresh_stdio Fake.env_both)
  = (inr (JStr "static-token"), Fake.fresh_stdio Fake.env_both)
  /\ pair_takes_priority Fake.env Fake.expiring_backend
  /\ Stdio.getToken Fake.env Fake.expiring_backend (Fake.fresh_stdio Fake.env)
     = (inr (JStr "fresh"),
        mkWorld 0 (JStr "fresh")
          [EvRequest (mkRequest "https://verge.test/api/sys/tokens" (Some "POST")
                        [("Content-Type", "application/json");
                         ("Authorization", "Basic YWRtaW46c2VjcmV0")]
                        (Some (JObj [("login", JStr "admin");
                                     ("password", JStr "secret")])))]).
Proof.
  destruct (stdio_static_token_takes_priority Fake.env_both Fake.expiring_backend)
    as [Hstatic _].
  destruct (Hstatic ltac:(discriminate)) as [Hget _].
  destruct (stdio_static_token_takes_priority Fake.env Fake.expiring_backend)
    as [_ Hpair].
  destruct (Hpair eq_refl ltac:(discriminate) ltac:(discriminate)) as [Hprio _].
  split; [exact Hget|]. split; [exact Hprio|]. vm_compute. reflexivity.
Defined.

(* ===================================================================== *)
(** * Further properties of the code *)
(* ===================================================================== *)

(** ** Counting what a computation sends *)

Lemma emits_any {A} (P : Event -> Prop) (m : M A) :
  emits P m -> emits (fun _ => True) m.
Proof. apply emits_weaken. auto. Qed.

Lemma sent_of_emits {A} (P : Event -> Prop) f (m : M A) w :
  (forall e, P e -> f e = false) -> emits P m -> sent f m w = 0%nat.
Proof.
  intros Hf Hm. destruct (Hm w) as [new [E F]].
  unfold sent. rewrite (events_since_app _ _ _ E).
  apply count_none. eapply Forall_impl; eauto.
Qed.

Lemma sent_ret {A} f (a : A) w : sent f (ret a) w = 0%nat.
Proof. unfold sent, events_since. simpl. now rewrite skipn_all. Qed.

Lemma sent_throw {A} f e w : sent f (@throw A e) w = 0%nat.
Proof. unfold sent, events_since. simpl. now rewrite skipn_all. Qed.

(** What a sequence sends is what its first part sends and, when this part
    returns, what the rest sends. *)
Lemma sent_bind {A B} (P Q : Event -> Prop) f (m : M A) (k : A -> M B) w :
  emits P m -> (forall a, emits Q (k a)) ->
  sent f (bind m k) w
  = (sent f m w + match fst (m w) with
                  | inr a => sent f (k a) (snd (m w))
                  | inl _ => 0
                  end)%nat.
Proof.
  intros Hm Hk. unfold sent, bind.
  destruct (Hm w) as [n1 [E1 _]].
  destruct (m w) as [[e|a] w1]; simpl in *.
  - now rewrite Nat.add_0_r.
  - destruct (Hk a w1) as [n2 [E2 _]].
    rewrite (events_since_app _ _ _ E1).
    rewrite (events_since_app _ _ _ E2).
    rewrite (events_since_app w _ (n1 ++ n2)%list) by (rewrite E2, E1; now rewrite app_assoc).
    apply count_app.
Qed.

Lemma sleep_not_action verb ms : is_action verb (EvSleep ms) = false.
Proof. reflexivity. Qed.

(** An action request is an action with its own verb only. *)
Lemma action_request_verb verb verb' id e :
  carries (Some "POST") (Some (JObj [("vm", JNum id); ("action", JStr verb')])) e ->
  is_action verb e = String.eqb verb' verb.
Proof. intros [r [-> [_ Hb]]]. simpl. now rewrite Hb. Qed.

Lemma emits_no_verb_getVMStatus env backend verb id :
  emits (fun e => is_action verb e = false) (getVMStatus env backend id).
Proof.
  eapply emits_weaken; [|apply emits_getVMStatus]. apply read_not_action.
Qed.

Lemma emits_no_verb_getVM env backend verb id :
  emits (fun e => is_action verb e = false) (getVM env backend id).
Proof.
  eapply emits_weaken; [|apply emits_getVM]. apply read_not_action.
Qed.

Lemma emits_no_verb_vmAction env backend verb verb' id :
  verb' <> verb ->
  emits (fun e => is_action verb e = false) (vmAction env backend id verb').
Proof.
  intros Hne. eapply emits_weaken; [|apply emits_vmAction].
  intros e [H|H]; [eapply read_not_action; eauto|].
  rewrite (action_request_verb _ _ _ _ H). now apply String.eqb_neq.
Qed.

Lemma emits_no_verb_poll_loop env backend verb fuel id status startTime maxWait :
  emits (fun e => is_action verb e = false)
        (poll_loop env backend fuel id status startTime maxWait).
Proof.
  eapply emits_weaken; [|apply emits_poll_loop].
  intros e [H| ->]; [eapply read_not_action; eauto | reflexivity].
Qed.

#[local] Hint Resolve emits_no_verb_getVMStatus emits_no_verb_getVM
  emits_no_verb_poll_loop : js.

(** ** The power-state controller, continued *)

(** X1. The timeout is reached without [force_after_timeout]: the loop has
    given up and the backend answers one more status read.  [powerOffVM]
    returns a failure that carries the state of this read, the elapsed
    seconds and a hint naming [force_after_timeout]; at least the clamped
    timeout has elapsed; after the loop only this read is made; and no kill
    action is sent in the whole call. *)
Theorem powerOffVM_timeout_without_force env backend id wait_timeout force
    w0 status w1 ack w2 w3 currentStatus w4 :
  getVMStatus env backend id w0 = (inr status, w1) ->
  Js.truthy (Js.field status "running") = true ->
  vmAction env backend id "poweroff" w1 = (inr ack, w2) ->
  0 < wait_timeout ->
  default false force = false ->
  poll_loop env backend (poll_fuel (maxWait_of wait_timeout)) id status
            (now w2) (maxWait_of wait_timeout) w2 = (inr None, w3) ->
  getVMStatus env backend id w3 = (inr currentStatus, w4) ->
  let result := timeout_result status wait_timeout currentStatus (now w4 - now w2) in
  powerOffVM env backend id (mkPowerOffOptions (Some wait_timeout) force) w0
  = (inr result, w4)
  /\ Js.field result "success" = JBool false
  /\ Js.field result "current_state" = Js.field currentStatus "power_state"
  /\ (exists hint, Js.field result "hint" = JStr hint
                   /\ Js.includes hint "force_after_timeout" = true)
  /\ Js.has_field result "forced" = false
  /\ maxWait_of wait_timeout <= now w4 - now w2
  /\ Forall (is_read env) (events_since w3 w4)
  /\ count (is_action "kill") (events_since w0 w4) = 0%nat.
Proof.
  intros H1 Hrun H2 Hwt Hforce H3 H4 result.
  destruct (emits_run _ _ _ _ _ (emits_getVMStatus env backend id) H1) as [n1 [E1 F1]].
  destruct (vmAction_ok _ _ _ _ _ _ _ H2) as [pre2 [rq2 [E2 [F2 [_ [_ B2]]]]]].
  destruct (emits_run _ _ _ _ _ (emits_poll_loop env backend _ _ _ _ _) H3) as [n3 [E3 F3]].
  destruct (emits_run _ _ _ _ _ (emits_getVMStatus env backend id) H4) as [n4 [E4 F4]].
  destruct (poll_loop_clock _ _ _ _ _ _ _ _ _ _ H3) as [_ [Hnone _]].
  pose proof (quiet_run _ _ _ _ (quiet_getVMStatus env backend id) H4) as N4.
  split.
  { unfold powerOffVM. cbn [default po_wait_timeout po_force_after_timeout].
    rewrite (bind_inr _ _ _ _ _ H1), Hrun. cbn [negb].
    rewrite (bind_inr _ _ _ _ _ H2).
    destruct (Z.leb_spec wait_timeout 0); [lia|].
    rewrite bind_date_now, (bind_inr _ _ _ _ _ H3).
    cbn [default] in Hforce. rewrite Hforce.
    rewrite (bind_inr _ _ _ _ _ H4), bind_date_now. reflexivity. }
  do 2 (split; [reflexivity|]).
  split; [eexists; split; reflexivity|].
  split; [reflexivity|].
  split; [specialize (Hnone eq_refl); lia|].
  split; [now rewrite (events_since_app _ _ _ E4)|].
  assert (E : trace w4 = (trace w0 ++ n1 ++ (pre2 ++ [EvRequest rq2]) ++ n3 ++ n4)%list).
  { rewrite E4, E3, E2, E1. now rewrite <- !app_assoc. }
  rewrite (events_since_app _ _ _ E), !count_app.
  rewrite (count_reads env _ n1 (read_not_action env "kill") F1).
  rewrite (count_logins env _ _ F2), (count_action_request _ _ _ _ B2).
  rewrite (count_polling env _ _ F3).
  rewrite (count_reads env _ n4 (read_not_action env "kill") F4).
  reflexivity.
Qed.

Lemma powerOffVM_timeout_without_force_witness :
  let backend := Fake.vm_backend 7 Fake.never_stops in
  let w0 := Fake.holding "tok" in
  let run := powerOffVM Fake.env backend 7 (mkPowerOffOptions (Some 6) None) w0 in
  fst run = inr [("success", JBool false);
                 ("error", JStr "VM 'web' did not shut down within 6s");
                 ("current_state", JStr "running");
                 ("elapsed_seconds", JNum 6);
                 ("hint", JStr "Use force_after_timeout=true to automatically force shutdown after timeout")]
  /\ count (is_action "kill") (events_since w0 (snd run)) = 0%nat.
Proof.
  intros backend w0 run.
  pose (r1 := getVMStatus Fake.env backend 7 w0).
  pose (status := match fst r1 with inr o => o | inl _ => [] end).
  pose (r2 := vmAction Fake.env backend 7 "poweroff" (snd r1)).
  pose (r3 := poll_loop Fake.env backend (poll_fuel (maxWait_of 6)) 7 status
                        (now (snd r2)) (maxWait_of 6) (snd r2)).
  pose (r4 := getVMStatus Fake.env backend 7 (snd r3)).
  pose (cur := match fst r4 with inr o => o | inl _ => [] end).
  assert (H1 : getVMStatus Fake.env backend 7 w0 = (inr status, snd r1))
    by (vm_compute; reflexivity).
  assert (H2 : vmAction Fake.env backend 7 "poweroff" (snd r1) = (inr (JObj []), snd r2))
    by (vm_compute; reflexivity).
  assert (H3 : poll_loop Fake.env backend (poll_fuel (maxWait_of 6)) 7 status
                         (now (snd r2)) (maxWait_of 6) (snd r2) = (inr None, snd r3))
    by (vm_compute; reflexivity).
  assert (H4 : getVMStatus Fake.env backend 7 (snd r3) = (inr cur, snd r4))
    by (vm_compute; reflexivity).
  destruct (powerOffVM_timeout_without_force Fake.env backend 7 6 None w0 status (snd r1)
              (JObj []) (snd r2) (snd r3) cur (snd r4)
              H1 eq_refl H2 eq_refl eq_refl H3 H4)
    as [E [_ [_ [_ [_ [_ [_ C]]]]]]].
  unfold run. rewrite E. split; [vm_compute; reflexivity | exact C].
Defined.

(** X2. Without [force_after_timeout] no kill action is ever sent:
    whatever the timeout, the backend and the state of the client. *)
Theorem powerOffVM_no_kill_without_force env backend id wait_timeout force w :
  default false force = false ->
  sent (is_action "kill")
       (powerOffVM env backend id (mkPowerOffOptions wait_timeout force)) w = 0%nat.
Proof.
  intros Hforce. apply (sent_of_emits (fun e => is_action "kill" e = false)); [auto|].
  unfold powerOffVM. cbn [po_force_after_timeout]. rewrite Hforce.
  apply emits_bind; [auto with js|intros status].
  destruct (negb _); [auto with js|].
  apply emits_bind; [apply emits_no_verb_vmAction; discriminate|intros _].
  destruct (_ <=? 0); [auto with js|].
  apply emits_bind; [auto with js|intros t].
  apply emits_bind; [auto with js|intros [result|]]; [auto with js|].
  apply emits_bind; [auto with js|intros cur].
  apply emits_bind; [auto with js|intros t']. auto with js.
Qed.

Lemma powerOffVM_no_kill_without_force_witness :
  sent (is_action "kill")
       (powerOffVM Fake.env (Fake.vm_backend 7 Fake.never_stops) 7
          (mkPowerOffOptions (Some 1000) None)) (Fake.holding "tok") = 0%nat
  /\ sent (is_action "kill")
       (powerOffVM Fake.env (Fake.vm_backend 7 Fake.never_stops) 7
          (mkPowerOffOptions (Some 1000) (Some true))) (Fake.holding "tok") = 1%nat.
Proof.
  split.
  - apply (powerOffVM_no_kill_without_force Fake.env _ 7 (Some 1000) None). reflexivity.
  - vm_compute. reflexivity.
Defined.

Lemma emits_true_getVMStatus env backend id :
  emits (fun _ => True) (getVMStatus env backend id).
Proof. eapply emits_any, emits_getVMStatus. Qed.

Lemma emits_true_getVM env backend id :
  emits (fun _ => True) (getVM env backend id).
Proof. eapply emits_any, emits_getVM. Qed.

Lemma emits_true_request env backend not_configured path options :
  emits (fun _ => True) (request env backend not_configured path options).
Proof. eapply emits_any, emits_request. Qed.

Lemma emits_true_http_request env backend path options :
  emits (fun _ => True) (Http.request env backend path options).
Proof. apply emits_true_request. Qed.

Lemma emits_true_vmAction env backend id verb :
  emits (fun _ => True) (vmAction env backend id verb).
Proof. eapply emits_any, emits_vmAction. Qed.

Lemma emits_true_poll_loop env backend fuel id status startTime maxWait :
  emits (fun _ => True) (poll_loop env backend fuel id status startTime maxWait).
Proof. eapply emits_any, emits_poll_loop. Qed.

Lemma emits_true_sleep ms : emits (fun _ => True) (sleep ms).
Proof. now apply emits_sleep. Qed.

#[local] Hint Resolve emits_true_getVMStatus emits_true_getVM emits_true_request
  emits_true_http_request emits_true_vmAction emits_true_poll_loop
  emits_true_sleep : js.

(** What an action sends: its own verb at most once, and once when the
    backend accepts it; no other verb. *)
Lemma vmAction_sent env backend id verb verb' w :
  let run := vmAction env backend id verb' w in
  (sent (is_action verb) (vmAction env backend id verb') w
   <= if String.eqb verb' verb then 1 else 0)%nat
  /\ (forall v, fst run = inr v -> String.eqb verb' verb = true ->
                sent (is_action verb) (vmAction env backend id verb') w = 1%nat).
Proof.
  intros run. unfold sent. fold run.
  destruct (request_trace env backend Http.not_configured "/api/v4/vm_actions"
              (mkOptions (Some "POST") json_headers
                 (Some (JObj [("vm", JNum id); ("action", JStr verb')]))) w)
    as [pre [tail [E [F [Ht Hok]]]]].
  change (request env backend Http.not_configured "/api/v4/vm_actions" _ w) with run in E, Hok.
  rewrite (events_since_app _ _ _ E), count_app, (count_logins env _ _ F).
  destruct Ht as [->|[rq [-> [_ [_ Hb]]]]].
  - split; [destruct (String.eqb verb' verb); unfold count; simpl; lia|].
    intros v Hv _. exfalso. now apply (Hok v).
  - rewrite (count_action_request _ _ _ _ Hb).
    split; [destruct (String.eqb verb' verb); unfold count; simpl; lia|].
    intros v _ ->. reflexivity.
Qed.

Lemma sent_date_now f w : sent f date_now w = 0%nat.
Proof. unfold sent, events_since. simpl. now rewrite skipn_all. Qed.

Ltac solve_emits_true := intros; repeat step_emits.

(** What [powerOffVM] sends, step by step: nothing but what its two
    actions send, the kill only after the loop has given up. *)
Lemma powerOffVM_sent env backend id options verb w :
  let wait_timeout := default 0 (po_wait_timeout options) in
  let force := default false (po_force_after_timeout options) in
  sent (is_action verb) (powerOffVM env backend id options) w
  = match getVMStatus env backend id w with
    | (inl _, _) => 0%nat
    | (inr status, w1) =>
        if negb (Js.truthy (Js.field status "running")) then 0%nat
        else
          Nat.add
            (sent (is_action verb) (vmAction env backend id "poweroff") w1)
            match vmAction env backend id "poweroff" w1 with
            | (inl _, _) => 0%nat
            | (inr _, w2) =>
                if wait_timeout <=? 0 then 0%nat
                else
                  match poll_loop env backend (poll_fuel (maxWait_of wait_timeout))
                                  id status (now w2) (maxWait_of wait_timeout) w2 with
                  | (inr None, w3) =>
                      if force
                      then sent (is_action verb) (vmAction env backend id "kill") w3
                      else 0%nat
                  | _ => 0%nat
                  end
            end
    end.
Proof.
  intros wait_timeout force. unfold powerOffVM. fold wait_timeout force.
  rewrite (sent_bind (fun _ => True) (fun _ => True)); [|auto with js|solve_emits_true].
  rewrite (sent_of_emits _ _ _ _ (read_not_action env verb) (emits_getVMStatus env backend id)).
  destruct (getVMStatus env backend id w) as [[e|status] w1]; [reflexivity|].
  cbn [fst snd plus].
  destruct (negb _); [apply sent_ret|].
  rewrite (sent_bind (fun _ => True) (fun _ => True)); [|auto with js|solve_emits_true].
  f_equal.
  destruct (vmAction env backend id "poweroff" w1) as [[e|ack] w2]; [reflexivity|].
  cbn [fst snd].
  destruct (wait_timeout <=? 0); [apply sent_ret|].
  rewrite (sent_bind (fun _ => True) (fun _ => True)); [|auto with js|solve_emits_true].
  rewrite sent_date_now. cbn [fst snd plus date_now].
  rewrite (sent_bind (fun _ => True) (fun _ => True)); [|auto with js|solve_emits_true].
  rewrite (sent_of_emits _ _ _ _ (fun e H => H)
             (emits_no_verb_poll_loop env backend verb _ id status (now w2) _)).
  destruct (poll_loop env backend _ id status (now w2) _ w2) as [[e|[result|]] w3];
    cbn [fst snd plus]; [reflexivity | apply sent_ret |].
  destruct force.
  - rewrite (sent_bind (fun _ => True) (fun _ => True)); [|auto with js|solve_emits_true].
    rewrite <- Nat.add_0_r. f_equal.
    destruct (vmAction env backend id "kill" w3) as [[e|ack'] w4]; [reflexivity|].
    cbn [fst snd].
    rewrite (sent_bind (fun _ => True) (fun _ => True)); [|auto with js|solve_emits_true].
    rewrite (sent_of_emits (fun e => is_action verb e = false) _ (sleep 2000) w4 (fun e H => H))
      by (apply emits_sleep; reflexivity).
    cbn [fst snd plus sleep].
    rewrite (sent_bind (fun _ => True) (fun _ => True)); [|auto with js|solve_emits_true].
    rewrite (sent_of_emits _ _ _ _ (read_not_action env verb) (emits_getVMStatus env backend id)).
    destruct (getVMStatus env backend id _) as [[e|fin] w5]; [reflexivity|].
    cbn [fst snd plus].
    rewrite (sent_bind (fun _ => True) (fun _ => True)); [|auto with js|solve_emits_true].
    rewrite sent_date_now. cbn [fst snd plus date_now]. apply sent_ret.
  - rewrite (sent_bind (fun _ => True) (fun _ => True)); [|auto with js|solve_emits_true].
    rewrite (sent_of_emits _ _ _ _ (read_not_action env verb) (emits_getVMStatus env backend id)).
    destruct (getVMStatus env backend id w3) as [[e|cur] w4]; [reflexivity|].
    cbn [fst snd plus].
    rewrite (sent_bind (fun _ => True) (fun _ => True)); [|auto with js|solve_emits_true].
    rewrite sent_date_now. cbn [fst snd plus date_now]. apply sent_ret.
Qed.

(** X3. In every run [powerOffVM] sends the graceful "poweroff" action at
    most once and the "kill" action at most once, and no other action.  A
    kill is sent only in a run that asked for [force_after_timeout] with a
    positive timeout, and only after the poweroff action was sent. *)
Theorem powerOffVM_actions_at_most_once env backend id options w :
  let total verb := sent (is_action verb) (powerOffVM env backend id options) w in
  (total "poweroff" <= 1)%nat
  /\ (total "kill" <= 1)%nat
  /\ (total "kill" = 1%nat ->
      total "poweroff" = 1%nat
      /\ default false (po_force_after_timeout options) = true
      /\ 0 < default 0 (po_wait_timeout options))
  /\ (forall verb, verb <> "poweroff"%string -> verb <> "kill"%string ->
                   total verb = 0%nat).
Proof.
  intros total.
  assert (Hoff := fun verb w1 => vmAction_sent env backend id verb "poweroff" w1).
  assert (Hkill := fun verb w3 => vmAction_sent env backend id verb "kill" w3).
  cbv zeta in Hoff, Hkill.
  split; [|split; [|split]].
  - unfold total. rewrite powerOffVM_sent.
    destruct (getVMStatus env backend id w) as [[e|status] w1]; [lia|].
    destruct (negb _); [lia|].
    destruct (Hoff "poweroff" w1) as [Hle _]. cbn in Hle.
    destruct (Hkill "poweroff" w1) as [_ _].
    destruct (vmAction env backend id "poweroff" w1) as [[e|ack] w2]; [lia|].
    destruct (_ <=? 0); [lia|].
    destruct (poll_loop _ _ _ _ _ _ _ w2) as [[e|[result|]] w3]; try lia.
    destruct (default false _); [|lia].
    destruct (Hkill "poweroff" w3) as [Hk _]. cbn in Hk. lia.
  - unfold total. rewrite powerOffVM_sent.
    destruct (getVMStatus env backend id w) as [[e|status] w1]; [lia|].
    destruct (negb _); [lia|].
    destruct (Hoff "kill" w1) as [Hle _]. cbn in Hle.
    destruct (vmAction env backend id "poweroff" w1) as [[e|ack] w2]; [lia|].
    destruct (_ <=? 0); [lia|].
    destruct (poll_loop _ _ _ _ _ _ _ w2) as [[e|[result|]] w3]; try lia.
    destruct (default false _); [|lia].
    destruct (Hkill "kill" w3) as [Hk _]. cbn in Hk. lia.
  - unfold total. rewrite !powerOffVM_sent.
    destruct (getVMStatus env backend id w) as [[e|status] w1]; [discriminate|].
    destruct (negb _); [discriminate|].
    destruct (Hoff "kill" w1) as [Hle _]. cbn in Hle.
    destruct (Hoff "poweroff" w1) as [_ Hone].
    destruct (vmAction env backend id "poweroff" w1) as [[e|ack] w2] eqn:E2; [lia|].
    destruct (Z.leb_spec (default 0 (po_wait_timeout options)) 0); [lia|].
    destruct (poll_loop _ _ _ _ _ _ _ w2) as [[e|[result|]] w3]; try lia.
    destruct (default false _); [|lia].
    destruct (Hkill "poweroff" w3) as [Hk _]. cbn in Hk.
    intros _. rewrite (Hone ack eq_refl eq_refl). repeat split; lia.
  - intros verb Hoffv Hkillv. unfold total. rewrite powerOffVM_sent.
    apply String.eqb_neq in Hoffv, Hkillv.
    rewrite String.eqb_sym in Hoffv. rewrite String.eqb_sym in Hkillv.
    destruct (getVMStatus env backend id w) as [[e|status] w1]; [reflexivity|].
    destruct (negb _); [reflexivity|].
    destruct (Hoff verb w1) as [Hle _]. rewrite Hoffv in Hle.
    destruct (vmAction env backend id "poweroff" w1) as [[e|ack] w2]; [lia|].
    destruct (_ <=? 0); [lia|].
    destruct (poll_loop _ _ _ _ _ _ _ w2) as [[e|[result|]] w3]; try lia.
    destruct (default false _); [|lia].
    destruct (Hkill verb w3) as [Hk _]. rewrite Hkillv in Hk. lia.
Qed.

Lemma powerOffVM_actions_at_most_once_witness :
  let run verb :=
    sent (is_action verb)
         (powerOffVM Fake.env (Fake.vm_backend 7 Fake.never_stops) 7
            (mkPowerOffOptions (Some 1000) (Some true))) (Fake.holding "tok") in
  run "kill" = 1%nat /\ run "poweroff" = 1%nat /\ run "poweron" = 0%nat.
Proof.
  intros run.
  destruct (powerOffVM_actions_at_most_once Fake.env (Fake.vm_backend 7 Fake.never_stops) 7
              (mkPowerOffOptions (Some 1000) (Some true)) (Fake.holding "tok"))
    as [_ [_ [Hkill Hother]]].
  assert (K : run "kill" = 1%nat) by (vm_compute; reflexivity).
  destruct (Hkill K) as [Hoff _].
  split; [exact K|]. split; [exact Hoff|].
  apply (Hother "poweron"); discriminate.
Defined.

(** What the loop returns is the graceful result of its last poll. *)
Lemma poll_loop_result env backend id status startTime maxWait :
  forall fuel w r w',
    poll_loop env backend fuel id status startTime maxWait w = (inr (Some r), w') ->
    exists cur, r = graceful_result status cur (now w' - startTime)
                /\ Js.truthy (Js.field cur "running") = false.
Proof.
  induction fuel as [|fuel IH]; intros w r w'; rewrite poll_loop_unfold;
    destruct (now w - startTime <? maxWait); try discriminate.
  destruct (getVMStatus env backend id _) as [[e|cs] wb]; [discriminate|].
  destruct (negb (Js.truthy (Js.field cs "running"))) eqn:Hcs.
  - intros H. inversion H; subst. exists cs. split; [reflexivity|].
    now apply negb_true_iff in Hcs.
  - apply IH.
Qed.

(** Every result [powerOffVM] returns is one of its five object literals;
    the failure is the timeout without force. *)
Lemma powerOffVM_result_shape env backend id options w result w' :
  powerOffVM env backend id options w = (inr result, w') ->
  let wait_timeout := default 0 (po_wait_timeout options) in
  (exists status, result = already_stopped_result status)
  \/ (exists status, result = no_wait_result status)
  \/ (exists status cur ms, result = graceful_result status cur ms)
  \/ (exists status fin ms, result = forced_result status wait_timeout fin ms
                            /\ default false (po_force_after_timeout options) = true)
  \/ (exists status cur ms, result = timeout_result status wait_timeout cur ms
                            /\ default false (po_force_after_timeout options) = false
                            /\ 0 < wait_timeout
                            /\ maxWait_of wait_timeout <= ms).
Proof.
  intros H wait_timeout. revert H. unfold powerOffVM. fold wait_timeout.
  destruct (getVMStatus env backend id w) as [[e|status] w1] eqn:H1.
  { rewrite (bind_inl _ _ _ _ _ H1). discriminate. }
  rewrite (bind_inr _ _ _ _ _ H1).
  destruct (negb _).
  { intros H. inversion H. left. now exists status. }
  destruct (vmAction env backend id "poweroff" w1) as [[e|ack] w2] eqn:H2.
  { rewrite (bind_inl _ _ _ _ _ H2). discriminate. }
  rewrite (bind_inr _ _ _ _ _ H2).
  destruct (Z.leb_spec wait_timeout 0) as [Hle|Hgt].
  { intros H. inversion H. right. left. now exists status. }
  rewrite bind_date_now.
  destruct (poll_loop env backend (poll_fuel (maxWait_of wait_timeout)) id status
                      (now w2) (maxWait_of wait_timeout) w2) as [[e|polled] w3] eqn:H3.
  { rewrite (bind_inl _ _ _ _ _ H3). discriminate. }
  rewrite (bind_inr _ _ _ _ _ H3).
  destruct polled as [r|].
  { intros H. inversion H; subst. right. right. left.
    destruct (poll_loop_result _ _ _ _ _ _ _ _ _ _ H3) as [cur [-> _]].
    now exists status, cur, (now w' - now w2). }
  destruct (poll_loop_clock _ _ _ _ _ _ _ _ _ _ H3) as [_ [Hnone _]].
  specialize (Hnone eq_refl).
  destruct (default false (po_force_after_timeout options)).
  - destruct (vmAction env backend id "kill" w3) as [[e|ack'] w4] eqn:H4.
    { rewrite (bind_inl _ _ _ _ _ H4). discriminate. }
    rewrite (bind_inr _ _ _ _ _ H4), bind_sleep.
    destruct (getVMStatus env backend id (snd (sleep 2000 w4))) as [[e|fin] w5] eqn:H5.
    { rewrite (bind_inl _ _ _ _ _ H5). discriminate. }
    rewrite (bind_inr _ _ _ _ _ H5), bind_date_now.
    intros H. inversion H. right. right. right. left.
    exists status, fin, (now w' - now w2). now split.
  - destruct (getVMStatus env backend id w3) as [[e|cur] w4] eqn:H4.
    { rewrite (bind_inl _ _ _ _ _ H4). discriminate. }
    rewrite (bind_inr _ _ _ _ _ H4), bind_date_now.
    pose proof (quiet_run _ _ _ _ (quiet_getVMStatus env backend id) H4) as N4.
    intros H. inversion H; subst. right. right. right. right.
    exists status, cur, (now w' - now w2). repeat split; auto; lia.
Qed.

(** X4. [powerOffVM] reports a failure only for a timeout without force:
    every result it returns carries [success: true], unless the caller
    passed a positive timeout without [force_after_timeout]; then the
    failure tells that at least the clamped timeout has elapsed. *)
Theorem powerOffVM_failure_only_on_timeout env backend id options w result w' :
  powerOffVM env backend id options w = (inr result, w') ->
  Js.field result "success" = JBool true
  \/ (Js.field result "success" = JBool false
      /\ default false (po_force_after_timeout options) = false
      /\ 0 < default 0 (po_wait_timeout options)
      /\ Js.has_field result "message" = false
      /\ exists secs, Js.field result "elapsed_seconds" = JNum secs
                      /\ Z.min (default 0 (po_wait_timeout options)) 300 <= secs).
Proof.
  intros H. apply powerOffVM_result_shape in H. cbv zeta in H.
  destruct H as [[s ->]|[[s ->]|[[s [c [ms ->]]]|[[s [f [ms [-> _]]]]|[s [c [ms [-> [Hf [Hwt Hms]]]]]]]]]];
    try (left; reflexivity).
  right. repeat split; auto.
  exists (Js.round_div_1000 ms). split; [reflexivity|].
  unfold Js.round_div_1000, maxWait_of in *.
  apply Z.div_le_lower_bound; lia.
Qed.

Lemma powerOffVM_failure_only_on_timeout_witness :
  let backend := Fake.vm_backend 7 Fake.never_stops in
  Js.field (match fst (powerOffVM Fake.env backend 7 (mkPowerOffOptions (Some 6) (Some true))
                         (Fake.holding "tok")) with
            | inr r => r
            | inl _ => []
            end) "success" = JBool true.
Proof.
  intros backend.
  set (run := powerOffVM Fake.env backend 7 (mkPowerOffOptions (Some 6) (Some true))
                         (Fake.holding "tok")).
  set (result := match fst run with inr r => r | inl _ => [] end).
  assert (E : powerOffVM Fake.env backend 7 (mkPowerOffOptions (Some 6) (Some true))
                (Fake.holding "tok") = (inr result, snd run))
    by (vm_compute; reflexivity).
  pose proof (powerOffVM_failure_only_on_timeout Fake.env backend 7
                (mkPowerOffOptions (Some 6) (Some true)) (Fake.holding "tok")
                result (snd run) E) as H.
  destruct H as [Hs|[_ [Hf _]]].
  - exact Hs.
  - vm_compute in Hf. discriminate Hf.
Defined.

(** ** The reconfiguration workflow, continued *)

Lemma build_changes_no_action cpu_cores ram_mb :
  Js.field (build_changes cpu_cores ram_mb) "action" = JUndefined.
Proof.
  rewrite build_changes_cases.
  destruct (Js.truthy cpu_cores), (Js.truthy ram_mb); reflexivity.
Qed.

Lemma emits_no_verb_powerOffVM env backend verb id options :
  verb <> "poweroff"%string -> verb <> "kill"%string ->
  emits (fun e => is_action verb e = false) (powerOffVM env backend id options).
Proof.
  intros Hoff Hkill.
  assert (A1 := emits_no_verb_vmAction env backend verb "poweroff" id
                  (fun C => Hoff (eq_sym C))).
  assert (A2 := emits_no_verb_vmAction env backend verb "kill" id
                  (fun C => Hkill (eq_sym C))).
  unfold powerOffVM. repeat step_emits; reflexivity.
Qed.

(** X5. The only actions [modifyVM] ever sends are "poweroff" and "kill":
    whatever the request and the backend, it sends no "poweron" and no
    "reset", so a VM it has shut down is never restarted by it. *)
Theorem modifyVM_sends_no_other_action env backend vmId options verb w :
  verb <> "poweroff"%string -> verb <> "kill"%string ->
  sent (is_action verb) (modifyVM env backend vmId options) w = 0%nat.
Proof.
  intros Hoff Hkill.
  apply (sent_of_emits (fun e => is_action verb e = false)); [auto|].
  assert (Hput : forall vm status c r,
             emits (fun e => is_action verb e = false)
                   (apply_changes env backend vmId vm status c r
                      (build_changes (opt_num (mo_cpu_cores options))
                                     (opt_num (mo_ram_mb options))))).
  { intros vm status c r. unfold apply_changes.
    apply emits_bind; [|intros; auto with js].
    eapply emits_weaken; [|apply emits_request].
    intros e [H|[rq [-> [_ Hb]]]]; [eapply read_not_action; left; exact H|].
    simpl. cbn [opt_body] in Hb. rewrite Hb, build_changes_no_action. reflexivity. }
  pose proof (emits_no_verb_powerOffVM env backend verb vmId) as Hpo.
  unfold modifyVM.
  destruct (negb _ && negb _); [auto with js|].
  apply emits_bind; [auto with js|intros vm].
  apply emits_bind; [auto with js|intros status].
  destruct (Js.truthy (Js.field status "running")); [|apply Hput].
  destruct (negb (default false _)); [auto with js|].
  apply emits_bind; [apply Hpo; assumption|intros shutdownResult].
  destruct (negb _ && negb _); [auto with js | apply Hput].
Qed.

Lemma modifyVM_sends_no_other_action_witness :
  let run verb :=
    sent (is_action verb)
         (modifyVM Fake.env (Fake.vm_backend 3 Fake.never_stops) 3
            (mkModifyOptions (Some 4) None (Some true) (Some 6) None))
         (Fake.holding "tok") in
  run "poweron" = 0%nat /\ run "poweroff" = 1%nat /\ run "kill" = 1%nat.
Proof.
  intros run. split.
  - apply (modifyVM_sends_no_other_action Fake.env _ 3 _ "poweron"); discriminate.
  - vm_compute. split; reflexivity.
Defined.

(** X6. The shutdown fails: the VM runs, the caller allows the shutdown,
    and [powerOffVM], called with the timeout and the force flag of the
    request (60 s and [true] by default), reports a failure.  [modifyVM]
    returns a failure that quotes the error of the shutdown and carries its
    whole result, and sends no update request.  This happens only when the
    caller passed [force_after_timeout: false]. *)
Theorem modifyVM_shutdown_failure_propagated env backend vmId options
    w vm w1 status w2 shutdownResult w3 :
  let cpu_cores := opt_num (mo_cpu_cores options) in
  let ram_mb := opt_num (mo_ram_mb options) in
  Js.truthy cpu_cores || Js.truthy ram_mb = true ->
  getVM env backend vmId w = (inr vm, w1) ->
  getVMStatus env backend vmId w1 = (inr status, w2) ->
  Js.truthy (Js.field status "running") = true ->
  default false (mo_shutdown_if_running options) = true ->
  powerOffVM env backend vmId
    (mkPowerOffOptions (Some (default 60 (mo_wait_timeout options)))
                       (Some (default true (mo_force_after_timeout options)))) w2
  = (inr shutdownResult, w3) ->
  Js.field shutdownResult "success" = JBool false ->
  let result := shutdown_failed_result vm shutdownResult in
  modifyVM env backend vmId options w = (inr result, w3)
  /\ Js.field result "success" = JBool false
  /\ Js.field result "shutdown_result" = JObj shutdownResult
  /\ (exists inner, Js.field shutdownResult "error" = JStr inner
                    /\ Js.field result "error"
                       = JStr ("Failed to shut down " ++ quoted_name vm ++ ": " ++ inner))
  /\ mo_force_after_timeout options = Some false
  /\ count is_put (events_since w w3) = 0%nat.
Proof.
  intros cpu_cores ram_mb Hvalid Hvm Hst Hrun Hflag Hoff Hfail result.
  pose proof (powerOffVM_result_shape _ _ _ _ _ _ _ Hoff) as Hshape.
  cbv zeta in Hshape. cbn [default po_force_after_timeout po_wait_timeout] in Hshape.
  assert (Hcase : exists s c ms,
             shutdownResult
             = timeout_result s (default 60 (mo_wait_timeout options)) c ms
             /\ default true (mo_force_after_timeout options) = false).
  { destruct Hshape
      as [[s E]|[[s E]|[[s [c [ms E]]]|[[s [f [ms [E _]]]]|[s [c [ms [E [Hf _]]]]]]]]];
      try (rewrite E in Hfail; discriminate Hfail).
    exists s, c, ms. split; assumption. }
  destruct Hcase as [s [c [ms [E Hforce]]]].
  split.
  { unfold modifyVM. fold cpu_cores ram_mb.
    replace (negb (Js.truthy cpu_cores) && negb (Js.truthy ram_mb)) with false
      by (destruct (Js.truthy cpu_cores), (Js.truthy ram_mb); simpl in *; congruence).
    rewrite (bind_inr _ _ _ _ _ Hvm), (bind_inr _ _ _ _ _ Hst), Hrun, Hflag.
    cbn [negb]. rewrite (bind_inr _ _ _ _ _ Hoff), Hfail.
    assert (Hinc : message_includes shutdownResult "already stopped" = false)
      by (rewrite E; reflexivity).
    rewrite Hinc. reflexivity. }
  do 2 (split; [reflexivity|]).
  split.
  { unfold result. rewrite E. eexists. split; reflexivity. }
  split.
  { destruct (mo_force_after_timeout options) as [[|]|]; try discriminate; reflexivity. }
  destruct (emits_run _ _ _ _ _ (emits_not_update_getVM env backend vmId) Hvm) as [n1 [E1 F1]].
  destruct (emits_run _ _ _ _ _ (emits_not_update_getVMStatus env backend vmId) Hst)
    as [n2 [E2 F2]].
  destruct (emits_run _ _ _ _ _ (emits_not_update_powerOffVM env backend vmId _) Hoff)
    as [n3 [E3 F3]].
  rewrite (events_since_app _ _ (n1 ++ n2 ++ n3)%list)
    by (rewrite E3, E2, E1; now rewrite <- !app_assoc).
  apply count_none. repeat (apply Forall_app; split); auto.
Qed.

Lemma modifyVM_shutdown_failure_propagated_witness :
  let backend := Fake.vm_backend 3 Fake.never_stops in
  let w := Fake.holding "tok" in
  let options := mkModifyOptions (Some 4) None (Some true) (Some 6) (Some false) in
  let run := modifyVM Fake.env backend 3 options w in
  Js.field (match fst run with inr r => r | inl _ => [] end) "error"
  = JStr "Failed to shut down VM 'web': VM 'web' did not shut down within 6s"
  /\ count is_put (events_since w (snd run)) = 0%nat.
Proof.
  intros backend w options. cbv zeta. split; [vm_compute; reflexivity|].
  assert (Hx : exists vm w1 status w2 sr w3,
             getVM Fake.env backend 3 w = (inr vm, w1)
             /\ getVMStatus Fake.env backend 3 w1 = (inr status, w2)
             /\ Js.truthy (Js.field status "running") = true
             /\ powerOffVM Fake.env backend 3 (mkPowerOffOptions (Some 6) (Some false)) w2
                = (inr sr, w3)
             /\ Js.field sr "success" = JBool false).
  { pose (r1 := getVM Fake.env backend 3 w).
    pose (r2 := getVMStatus Fake.env backend 3 (snd r1)).
    pose (r3 := powerOffVM Fake.env backend 3 (mkPowerOffOptions (Some 6) (Some false))
                           (snd r2)).
    exists (match fst r1 with inr o => o | inl _ => [] end), (snd r1),
           (match fst r2 with inr o => o | inl _ => [] end), (snd r2),
           (match fst r3 with inr o => o | inl _ => [] end), (snd r3).
    vm_compute. repeat split. }
  destruct Hx as [vm [w1 [status [w2 [sr [w3 [Hvm [Hst [Hrun [Hoff Hfail]]]]]]]]]].
  pose proof (modifyVM_shutdown_failure_propagated Fake.env backend 3 options w vm w1
                status w2 sr w3 eq_refl Hvm Hst Hrun eq_refl Hoff Hfail) as H.
  cbv zeta in H. destruct H as [E [_ [_ [_ [_ C]]]]].
  rewrite E. cbn [snd]. exact C.
Defined.



Lemma put_is_last bf tail before e after :
  Forall not_update bf ->
  (tail = [] \/ exists x, tail = [x]) ->
  (bf ++ tail)%list = (before ++ e :: after)%list ->
  is_put e = true ->
  before = bf /\ after = [] /\ tail = [e].
Proof.
  intros F. revert before.
  induction F as [|b bf Hb F IH]; intros before Ht E He; simpl in E.
  - destruct Ht as [->|[x ->]].
    + destruct before; discriminate.
    + destruct before as [|b' before'].
      * inversion E; subst. auto.
      * inversion E. destruct before'; discriminate.
  - destruct before as [|b' before']; simpl in E; inversion E; subst.
    + unfold not_update in Hb. congruence.
    + destruct (IH before' Ht H1 He) as [-> [-> ->]]. auto.
Qed.

(** X8. The update request is the last thing [modifyVM] sends: in every
    run, whatever is recorded before an update request is no update
    request, and nothing at all is recorded after it.  The reads and the
    shutdown come first; no request follows the update. *)
Theorem modifyVM_update_is_last env backend vmId options w before e after :
  events_since w (snd (modifyVM env backend vmId options w))
  = (before ++ e :: after)%list ->
  is_put e = true ->
  after = [] /\ Forall not_update before.
Proof.
  intros E He.
  destruct (modifyVM_trace env backend vmId options w)
    as [bf [tail [Etr [F [Ht _]]]]].
  rewrite (events_since_app _ _ _ Etr) in E.
  assert (Ht' : tail = [] \/ exists x, tail = [x]).
  { destruct Ht as [->|[rq [-> _]]]; [now left | right; eauto]. }
  destruct (put_is_last _ _ _ _ _ F Ht' E He) as [-> [-> _]]. auto.
Qed.

Lemma modifyVM_update_is_last_witness :
  let backend := Fake.vm_backend 3 Fake.never_stops in
  let w := Fake.holding "tok" in
  let options := mkModifyOptions (Some 4) None (Some true) (Some 6) None in
  let evs := events_since w (snd (modifyVM Fake.env backend 3 options w)) in
  exists before e, evs = (before ++ [e])%list /\ is_put e = true
                   /\ Forall not_update before
                   /\ count (is_action "kill") before = 1%nat.
Proof.
  intros backend w options evs.
  pose (e := last evs (EvSleep 0)).
  pose (before := removelast evs).
  assert (E : evs = (before ++ e :: [])%list) by (vm_compute; reflexivity).
  assert (He : is_put e = true) by (vm_compute; reflexivity).
  destruct (modifyVM_update_is_last Fake.env backend 3 options w before e [] E He)
    as [_ F].
  exists before, e. split; [exact E|]. split; [exact He|]. split; [exact F|].
  vm_compute. reflexivity.
Defined.

(** ** Power on, force off, reset *)

(** The pattern of [powerOnVM], [forceOffVM] and [resetVM]: one status
    read, then either an answer without any request or one action. *)
Lemma guarded_action_run env backend id verb
    (guard : JsObj -> bool) (refused accepted : JsObj -> JsObj) w status w1 :
  let m := bind (getVMStatus env backend id) (fun status =>
             if guard status then ret (refused status)
             else bind (vmAction env backend id verb) (fun _ => ret (accepted status))) in
  getVMStatus env backend id w = (inr status, w1) ->
  (guard status = true ->
   m w = (inr (refused status), w1)
   /\ forall v, count (is_action v) (events_since w w1) = 0%nat)
  /\ (guard status = false ->
      forall ack w2,
        vmAction env backend id verb w1 = (inr ack, w2) ->
        m w = (inr (accepted status), w2)
        /\ count (is_action verb) (events_since w w2) = 1%nat
        /\ forall v, v <> verb -> count (is_action v) (events_since w w2) = 0%nat).
Proof.
  intros m H1.
  destruct (emits_run _ _ _ _ _ (emits_getVMStatus env backend id) H1) as [n1 [E1 F1]].
  split.
  - intros Hg. split.
    + unfold m. rewrite (bind_inr _ _ _ _ _ H1), Hg. reflexivity.
    + intros v. rewrite (events_since_app _ _ _ E1).
      apply (count_reads env); [apply read_not_action | exact F1].
  - intros Hg ack w2 H2.
    destruct (vmAction_ok _ _ _ _ _ _ _ H2) as [pre2 [rq2 [E2 [F2 [_ [_ B2]]]]]].
    assert (E : trace w2 = (trace w ++ n1 ++ pre2 ++ [EvRequest rq2])%list)
      by (rewrite E2, E1; now rewrite <- !app_assoc).
    split; [|split].
    + unfold m. rewrite (bind_inr _ _ _ _ _ H1), Hg, (bind_inr _ _ _ _ _ H2). reflexivity.
    + rewrite (events_since_app _ _ _ E), !count_app.
      rewrite (count_reads env _ n1 (read_not_action env verb) F1).
      rewrite (count_logins env _ _ F2), (count_action_request _ _ _ _ B2).
      now rewrite String.eqb_refl.
    + intros v Hv. rewrite (events_since_app _ _ _ E), !count_app.
      rewrite (count_reads env _ n1 (read_not_action env v) F1).
      rewrite (count_logins env _ _ F2), (count_action_request _ _ _ _ B2).
      apply String.eqb_neq in Hv. rewrite String.eqb_sym in Hv. now rewrite Hv.
Qed.

(** X9. [powerOnVM] checks the status first.  On a running VM it answers
    with a failure that carries the current state and sends no action; on
    a VM that is not running it sends the "poweron" action once, and no
    other action, and answers with success. *)
Theorem powerOnVM_refuses_running_vm env backend id w status w1 :
  getVMStatus env backend id w = (inr status, w1) ->
  (Js.truthy (Js.field status "running") = true ->
   exists result,
     powerOnVM env backend id w = (inr result, w1)
     /\ Js.field result "success" = JBool false
     /\ Js.field result "current_state" = Js.field status "power_state"
     /\ forall v, count (is_action v) (events_since w w1) = 0%nat)
  /\ (Js.truthy (Js.field status "running") = false ->
      forall ack w2,
        vmAction env backend id "poweron" w1 = (inr ack, w2) ->
        exists result,
          powerOnVM env backend id w = (inr result, w2)
          /\ Js.field result "success" = JBool true
          /\ Js.field result "previous_state" = Js.field status "power_state"
          /\ count (is_action "poweron") (events_since w w2) = 1%nat
          /\ forall v, v <> "poweron"%string ->
                       count (is_action v) (events_since w w2) = 0%nat).
Proof.
  intros H1.
  destruct (guarded_action_run env backend id "poweron"
              (fun status => Js.truthy (Js.field status "running"))
              (fun status => [("success", JBool false);
                              ("error", JStr (quoted_name status ++ " is already running"));
                              ("current_state", Js.field status "power_state")])
              (fun status => [("success", JBool true);
                              ("message", JStr ("Power on command sent to " ++ quoted_name status));
                              ("previous_state", Js.field status "power_state")])
              w status w1 H1) as [Hrefuse Haccept].
  split.
  - intros Hrun. destruct (Hrefuse Hrun) as [E C].
    eexists. split; [exact E|]. repeat split. exact C.
  - intros Hrun ack w2 H2. destruct (Haccept Hrun ack w2 H2) as [E [C1 C0]].
    eexists. split; [exact E|]. repeat split; assumption.
Qed.

Lemma powerOnVM_refuses_running_vm_witness :
  let w := Fake.holding "tok" in
  fst (powerOnVM Fake.env (Fake.vm_backend 7 Fake.never_stops) 7 w)
  = inr [("success", JBool false);
         ("error", JStr "VM 'web' is already running");
         ("current_state", JStr "running")]
  /\ sent (is_action "poweron") (powerOnVM Fake.env (Fake.vm_backend 7 Fake.never_stops) 7) w
     = 0%nat
  /\ sent (is_action "poweron") (powerOnVM Fake.env (Fake.vm_backend 7 Fake.stopped) 7) w
     = 1%nat.
Proof.
  intros w.
  pose (backend := Fake.vm_backend 7 Fake.never_stops).
  pose (r1 := getVMStatus Fake.env backend 7 w).
  assert (H1 : getVMStatus Fake.env backend 7 w = (inr (Fake.status_of 7 true), snd r1))
    by (vm_compute; reflexivity).
  destruct (powerOnVM_refuses_running_vm Fake.env backend 7 w _ _ H1) as [Hrefuse _].
  destruct (Hrefuse eq_refl) as [result [E [_ [_ C]]]].
  split; [vm_compute; reflexivity|]. split.
  - unfold sent. fold backend. rewrite E. apply C.
  - vm_compute. reflexivity.
Defined.

(** X10. [resetVM] checks the status first.  On a VM that is not running it
    answers with a failure and sends no action; on a running VM it sends
    the "reset" action once, and no other action. *)
Theorem resetVM_refuses_stopped_vm env backend id w status w1 :
  getVMStatus env backend id w = (inr status, w1) ->
  (Js.truthy (Js.field status "running") = false ->
   exists result,
     resetVM env backend id w = (inr result, w1)
     /\ Js.field result "success" = JBool false
     /\ Js.field result "current_state" = Js.field status "power_state"
     /\ forall v, count (is_action v) (events_since w w1) = 0%nat)
  /\ (Js.truthy (Js.field status "running") = true ->
      forall ack w2,
        vmAction env backend id "reset" w1 = (inr ack, w2) ->
        exists result,
          resetVM env backend id w = (inr result, w2)
          /\ Js.field result "success" = JBool true
          /\ count (is_action "reset") (events_since w w2) = 1%nat
          /\ forall v, v <> "reset"%string ->
                       count (is_action v) (events_since w w2) = 0%nat).
Proof.
  intros H1.
  destruct (guarded_action_run env backend id "reset"
              (fun status => negb (Js.truthy (Js.field status "running")))
              (fun status => [("success", JBool false);
                              ("error", JStr (quoted_name status ++ " is not running - cannot reset"));
                              ("current_state", Js.field status "power_state")])
              (fun status => [("success", JBool true);
                              ("message", JStr ("Reset command sent to " ++ quoted_name status));
                              ("previous_state", Js.field status "power_state")])
              w status w1 H1) as [Hrefuse Haccept].
  split.
  - intros Hrun. destruct (Hrefuse ltac:(now rewrite Hrun)) as [E C].
    eexists. split; [exact E|]. repeat split. exact C.
  - intros Hrun ack w2 H2.
    destruct (Haccept ltac:(now rewrite Hrun) ack w2 H2) as [E [C1 C0]].
    eexists. split; [exact E|]. repeat split; assumption.
Qed.

Lemma resetVM_refuses_stopped_vm_witness :
  let w := Fake.holding "tok" in
  fst (resetVM Fake.env (Fake.vm_backend 7 Fake.stopped) 7 w)
  = inr [("success", JBool false);
         ("error", JStr "VM 'web' is not running - cannot reset");
         ("current_state", JStr "stopped")]
  /\ sent (is_action "reset") (resetVM Fake.env (Fake.vm_backend 7 Fake.stopped) 7) w
     = 0%nat
  /\ sent (is_action "reset") (resetVM Fake.env (Fake.vm_backend 7 Fake.never_stops) 7) w
     = 1%nat.
Proof.
  intros w.
  pose (backend := Fake.vm_backend 7 Fake.stopped).
  pose (r1 := getVMStatus Fake.env backend 7 w).
  assert (H1 : getVMStatus Fake.env backend 7 w = (inr (Fake.status_of 7 false), snd r1))
    by (vm_compute; reflexivity).
  destruct (resetVM_refuses_stopped_vm Fake.env backend 7 w _ _ H1) as [Hrefuse _].
  destruct (Hrefuse eq_refl) as [result [E [_ [_ C]]]].
  split; [vm_compute; reflexivity|]. split.
  - unfold sent. fold backend. rewrite E. apply C.
  - vm_compute. reflexivity.
Defined.

(** X11. [forceOffVM] checks the status first.  On a VM that is not running
    it answers with success and sends no action, so that it can be
    repeated; on a running VM it sends the "kill" action once, without a
    graceful "poweroff" before it and without waiting. *)
Theorem forceOffVM_kills_running_vm_only env backend id w status w1 :
  getVMStatus env backend id w = (inr status, w1) ->
  (Js.truthy (Js.field status "running") = false ->
   exists result,
     forceOffVM env backend id w = (inr result, w1)
     /\ Js.field result "success" = JBool true
     /\ Js.field result "current_state" = Js.field status "power_state"
     /\ forall v, count (is_action v) (events_since w w1) = 0%nat)
  /\ (Js.truthy (Js.field status "running") = true ->
      forall ack w2,
        vmAction env backend id "kill" w1 = (inr ack, w2) ->
        exists result,
          forceOffVM env backend id w = (inr result, w2)
          /\ Js.field result "success" = JBool true
          /\ now w2 = now w
          /\ count (is_action "kill") (events_since w w2) = 1%nat
          /\ count (is_action "poweroff") (events_since w w2) = 0%nat).
Proof.
  intros H1.
  destruct (guarded_action_run env backend id "kill"
              (fun status => negb (Js.truthy (Js.field status "running")))
              (fun status => [("success", JBool true);
                              ("message", JStr (quoted_name status ++ " is already stopped"));
                              ("current_state", Js.field status "power_state")])
              (fun status => [("success", JBool true);
                              ("message", JStr ("Force power off (kill) command sent to "
                                                ++ quoted_name status));
                              ("previous_state", Js.field status "power_state")])
              w status w1 H1) as [Hrefuse Haccept].
  split.
  - intros Hrun. destruct (Hrefuse ltac:(now rewrite Hrun)) as [E C].
    eexists. split; [exact E|]. repeat split. exact C.
  - intros Hrun ack w2 H2.
    destruct (Haccept ltac:(now rewrite Hrun) ack w2 H2) as [E [C1 C0]].
    eexists. split; [exact E|]. split; [reflexivity|]. split; [|split].
    + rewrite (quiet_run _ _ _ _ (quiet_vmAction env backend id "kill") H2).
      exact (quiet_run _ _ _ _ (quiet_getVMStatus env backend id) H1).
    + exact C1.
    + apply C0. discriminate.
Qed.

Lemma forceOffVM_kills_running_vm_only_witness :
  let w := Fake.holding "tok" in
  fst (forceOffVM Fake.env (Fake.vm_backend 7 Fake.stopped) 7 w)
  = inr [("success", JBool true);
         ("message", JStr "VM 'web' is already stopped");
         ("current_state", JStr "stopped")]
  /\ sent (is_action "kill") (forceOffVM Fake.env (Fake.vm_backend 7 Fake.stopped) 7) w
     = 0%nat
  /\ sent (is_action "kill") (forceOffVM Fake.env (Fake.vm_backend 7 Fake.never_stops) 7) w
     = 1%nat.
Proof.
  intros w.
  pose (backend := Fake.vm_backend 7 Fake.stopped).
  pose (r1 := getVMStatus Fake.env backend 7 w).
  assert (H1 : getVMStatus Fake.env backend 7 w = (inr (Fake.status_of 7 false), snd r1))
    by (vm_compute; reflexivity).
  destruct (forceOffVM_kills_running_vm_only Fake.env backend 7 w _ _ H1) as [Hrefuse _].
  destruct (Hrefuse eq_refl) as [result [E [_ [_ C]]]].
  split; [vm_compute; reflexivity|]. split.
  - unfold sent. fold backend. rewrite E. apply C.
  - vm_compute. reflexivity.
Defined.

(** ** The credential, continued *)

(** X12. The credential is fetched once and reused: when [getToken] returns
    a token, this token is the one now cached, at most one request (the
    login) was sent to get it, none if a token was cached already, and
    calling [getToken] again returns the same token without sending
    anything. *)
Theorem getToken_caches_token env backend not_configured w t w' :
  getToken env backend not_configured w = (inr t, w') ->
  Js.truthy t = true ->
  token w' = t
  /\ getToken env backend not_configured w' = (inr t, w')
  /\ (List.length (events_since w w') <= 1)%nat
  /\ (Js.truthy (token w) = true -> w' = w).
Proof.
  intros H Ht.
  destruct (Js.truthy (token w)) eqn:Hw.
  - rewrite (getToken_cached env backend not_configured w Hw) in H.
    inversion H; subst. repeat split; auto.
    + apply getToken_cached. exact Hw.
    + unfold events_since. rewrite skipn_all. simpl. lia.
  - assert (Hw' : w' = {| now := now w; token := t;
                          trace := trace w ++
                            [EvRequest (fetchOptions env "/api/sys/tokens"
                                          (login_options env) (token w))] |}).
    { revert H. unfold getToken, bind, get_this_token at 1. rewrite Hw.
      destruct (_ || _); [discriminate|].
      rewrite fetch_run. unfold response_json.
      destruct (resp_json _) as [data|]; [|discriminate].
      cbn [ret]. destruct (Js.get data "$key") as [e|key]; [discriminate|].
      cbn [lift ret set_this_token get_this_token now token trace].
      intros H. inversion H; subst. reflexivity. }
    subst w'. cbn [token]. repeat split.
    + apply getToken_cached. exact Ht.
    + rewrite (events_since_app w _ [EvRequest (fetchOptions env "/api/sys/tokens"
                                                    (login_options env) (token w))])
        by reflexivity.
      simpl. lia.
    + discriminate.
Qed.

Lemma getToken_caches_token_witness :
  let w := Fake.fresh_http in
  let run := Http.getToken Fake.env Fake.expiring_backend w in
  fst run = inr (JStr "fresh")
  /\ Http.getToken Fake.env Fake.expiring_backend (snd run) = (inr (JStr "fresh"), snd run)
  /\ List.length (trace (snd run)) = 1%nat.
Proof.
  intros w run.
  assert (E : getToken Fake.env Fake.expiring_backend Http.not_configured w
              = (inr (JStr "fresh"), snd run)) by (vm_compute; reflexivity).
  destruct (getToken_caches_token _ _ _ _ _ _ E eq_refl) as [_ [Hagain _]].
  split; [vm_compute; reflexivity|]. split; [exact Hagain|]. vm_compute. reflexivity.
Defined.

(** X13. Without a cached token and without a complete credential pair a
    request fails with the configuration error before anything is sent. *)
Theorem request_needs_credentials env backend not_configured path options w :
  Js.truthy (token w) = false ->
  VERGEOS_USER env = ""%string \/ VERGEOS_PASS env = ""%string ->
  request env backend not_configured path options w = (inl (Error not_configured), w).
Proof.
  intros Hw Hcfg.
  assert (Hempty : String.eqb (VERGEOS_USER env) "" || String.eqb (VERGEOS_PASS env) ""
                   = true).
  { destruct Hcfg as [-> | ->]; simpl; [reflexivity|]. now rewrite orb_true_r. }
  assert (Hg : getToken env backend not_configured w = (inl (Error not_configured), w)).
  { unfold getToken, bind, get_this_token. rewrite Hw, Hempty. reflexivity. }
  unfold request. now rewrite (bind_inl _ _ _ _ _ Hg).
Qed.

Lemma request_needs_credentials_witness :
  Http.request (mkEnv "verge.test" "admin" "" "ignored") Fake.expiring_backend
    "/api/v4/vms" no_options (mkWorld 0 (Http.constructor Fake.env) [])
  = (inl (Error "VergeOS credentials not configured"),
     mkWorld 0 (Http.constructor Fake.env) []).
Proof.
  apply (request_needs_credentials (mkEnv "verge.test" "admin" "" "ignored")
           Fake.expiring_backend Http.not_configured).
  - reflexivity.
  - right. reflexivity.
Defined.

(** X14. The status of the login is not looked at.  When the answer of the
    login is JSON without a usable [$key], [getToken] throws nothing:
    the request is sent all the same, without a cookie, and it is the
    answer to this request that is returned or thrown. *)
Theorem request_ignores_login_status env backend not_configured path options w data key :
  Js.truthy (token w) = false ->
  String.eqb (VERGEOS_USER env) "" || String.eqb (VERGEOS_PASS env) "" = false ->
  no_authorization options = true ->
  let login := fetchOptions env "/api/sys/tokens" (login_options env) (token w) in
  resp_json (backend (now w) (trace w) login) = Some data ->
  Js.get data "$key" = inr key ->
  Js.truthy key = false ->
  let wl := mkWorld (now w) key (trace w ++ [EvRequest login]) in
  let rq := mkRequest (baseUrl env ++ path) (opt_method options)
                      (opt_headers options) (opt_body options) in
  let response := backend (now w) (trace wl) rq in
  request env backend not_configured path options w
  = (if negb (resp_ok response) then inl (api_error response)
     else match resp_json response with
          | Some v => inr v
          | None => inl SyntaxError
          end,
     mkWorld (now w) key (trace wl ++ [EvRequest rq])).
Proof.
  intros Hw Hcfg Hauth login Hjson Hkey Hfalsy wl rq response.
  assert (Hlogin : getToken env backend not_configured w = (inr key, wl)).
  { unfold getToken, bind, get_this_token. rewrite Hw, Hcfg, fetch_run.
    unfold response_json. fold login. rewrite Hjson. simpl. rewrite Hkey. reflexivity. }
  unfold request. rewrite (bind_inr _ _ _ _ _ Hlogin).
  rewrite (bind_inr _ _ _ _ _ (fetch_run env backend path options wl)).
  assert (Hrq : fetchOptions env path options (token wl) = rq).
  { unfold fetchOptions. cbn [token wl]. now rewrite Hfalsy. }
  rewrite Hrq. change (now wl) with (now w). change (token wl) with key.
  fold response.
  destruct (negb (resp_ok response)); [reflexivity|].
  unfold response_json. destruct (resp_json response); reflexivity.
Qed.

Lemma request_ignores_login_status_witness :
  let denying : Backend :=
    fun _ _ _ => mkResponse 401 "Unauthorized" "denied" (Some (JObj [("err", JStr "denied")])) in
  Http.request Fake.env denying "/api/v4/vms" no_options Fake.fresh_http
  = (inl (Error "API Error 401: denied"),
     mkWorld 0 JUndefined
       [EvRequest (mkRequest "https://verge.test/api/sys/tokens" (Some "POST")
                     [("Content-Type", "application/json");
                      ("Authorization", "Basic YWRtaW46c2VjcmV0")]
                     (Some (JObj [("login", JStr "admin"); ("password", JStr "secret")])));
        EvRequest (mkRequest "https://verge.test/api/v4/vms" None [] None)]).
Proof.
  intros denying. unfold Http.request.
  rewrite (request_ignores_login_status Fake.env denying Http.not_configured
             "/api/v4/vms" no_options Fake.fresh_http
             (JObj [("err", JStr "denied")]) JUndefined
             eq_refl eq_refl eq_refl eq_refl eq_refl eq_refl).
  vm_compute. reflexivity.
Defined.

(** ** The direct-connection proxy *)

Lemma direct_getToken_cached env backend w :
  Js.truthy (token w) = true -> Direct.getToken env backend w = (inr (token w), w).
Proof.
  intros H. unfold Direct.getToken, bind, get_this_token. now rewrite H.
Qed.

Lemma direct_getToken_login env backend w data key :
  Js.truthy (token w) = false ->
  resp_ok (backend (now w) (trace w) (direct_login env)) = true ->
  resp_json (backend (now w) (trace w) (direct_login env)) = Some data ->
  Js.get data "$key" = inr key ->
  Direct.getToken env backend w
  = (inr key, mkWorld (now w) key (trace w ++ [EvRequest (direct_login env)])).
Proof.
  intros Hw Hok Hjson Hkey.
  unfold Direct.getToken, bind, get_this_token, node_fetch. rewrite Hw.
  fold (direct_login env). rewrite Hok. cbn [negb].
  unfold response_json. rewrite Hjson. simpl. rewrite Hkey. reflexivity.
Qed.

(** One attempt of [apiRequest] by a client that holds a token. *)
Lemma direct_apiRequest_holding env backend fuel path options w :
  Js.truthy (token w) = true ->
  let rq := direct_request env path options (token w) in
  let response := backend (now w) (trace w) rq in
  let w1 := mkWorld (now w) (token w) (trace w ++ [EvRequest rq]) in
  Direct.apiRequest env backend (S fuel) path options w
  = if resp_status response =? 401
    then Direct.apiRequest env backend fuel path options
           (mkWorld (now w) JNull (trace w1))
    else if negb (resp_ok response)
         then (inl (Error ("API Error: " ++ Js.num_to_string (resp_status response)
                           ++ " " ++ resp_statusText response)), w1)
         else match resp_json response with
              | Some v => (inr v, w1)
              | None => (inl SyntaxError, w1)
              end.
Proof.
  intros Hw rq response w1. cbn [Direct.apiRequest].
  rewrite (bind_inr _ _ _ _ _ (direct_getToken_cached env backend w Hw)).
  unfold bind at 1. unfold node_fetch at 1.
  fold (direct_request env path options (token w)). fold rq. fold response.
  destruct (resp_status response =? 401); [reflexivity|].
  destruct (negb (resp_ok response)); [reflexivity|].
  unfold response_json. destruct (resp_json response); reflexivity.
Qed.

(** X15. The direct proxy checks the login: without a cached token, a login
    that is answered with a failure status makes [apiRequest] throw
    "Auth failed" with this status; the request itself is never sent and
    no token is cached. *)
Theorem direct_apiRequest_auth_failed env backend fuel path options w :
  Js.truthy (token w) = false ->
  resp_ok (backend (now w) (trace w) (direct_login env)) = false ->
  Direct.apiRequest env backend (S fuel) path options w
  = (inl (Error ("Auth failed: "
                 ++ Js.num_to_string
                      (resp_status (backend (now w) (trace w) (direct_login env))))),
     mkWorld (now w) (token w) (trace w ++ [EvRequest (direct_login env)])).
Proof.
  intros Hw Hfail. cbn [Direct.apiRequest].
  unfold bind at 1. unfold Direct.getToken, bind, get_this_token, node_fetch.
  rewrite Hw. fold (direct_login env). rewrite Hfail. reflexivity.
Qed.

Lemma direct_apiRequest_auth_failed_witness :
  Direct.apiRequest Fake.env (Fake.failing_backend 403 "no") 5 "/api/v4/vms" no_options
    (mkWorld 0 JNull [])
  = (inl (Error "Auth failed: 403"),
     mkWorld 0 JNull [EvRequest (direct_login Fake.env)]).
Proof.
  apply (direct_apiRequest_auth_failed Fake.env (Fake.failing_backend 403 "no") 4
           "/api/v4/vms" no_options (mkWorld 0 JNull [])); reflexivity.
Defined.

(** X16. The direct proxy recovers from an expired token: when the request
    sent with the cached token is answered 401, the login yields a new
    token and the request sent with it is accepted, [apiRequest] returns
    the answer of this second request.  It has dropped the old token,
    cached the new one and sent exactly the request, the login and the
    request again. *)
Theorem direct_apiRequest_refreshes_token env backend fuel path options w data key v :
  Js.truthy (token w) = true ->
  let first := direct_request env path options (token w) in
  let t1 := (trace w ++ [EvRequest first])%list in
  let t2 := (t1 ++ [EvRequest (direct_login env)])%list in
  let second := direct_request env path options key in
  resp_status (backend (now w) (trace w) first) = 401 ->
  resp_ok (backend (now w) t1 (direct_login env)) = true ->
  resp_json (backend (now w) t1 (direct_login env)) = Some data ->
  Js.get data "$key" = inr key ->
  Js.truthy key = true ->
  resp_ok (backend (now w) t2 second) = true ->
  resp_json (backend (now w) t2 second) = Some v ->
  Direct.apiRequest env backend (S (S fuel)) path options w
  = (inr v, mkWorld (now w) key (t2 ++ [EvRequest second])).
Proof.
  intros Hw first t1 t2 second H401 Hlok Hljson Hkey Hktruthy Hok Hjson.
  rewrite (direct_apiRequest_holding env backend (S fuel) path options w Hw).
  fold first. rewrite H401. cbn [Z.eqb Pos.eqb trace].
  set (w1 := mkWorld (now w) JNull _).
  cbn [Direct.apiRequest].
  rewrite (bind_inr _ _ _ _ _
             (direct_getToken_login env backend w1 data key eq_refl Hlok Hljson Hkey)).
  unfold bind at 1. unfold node_fetch at 1. cbn [now token trace w1].
  fold (direct_request env path options key). fold second. fold t1 t2.
  assert (Hne : (resp_status (backend (now w) t2 second) =? 401) = false).
  { unfold resp_ok in Hok. apply andb_true_iff in Hok. destruct Hok as [_ Hle].
    apply Z.leb_le in Hle. apply Z.eqb_neq. lia. }
  rewrite Hne, Hok. cbn [negb]. unfold response_json. rewrite Hjson. reflexivity.
Qed.

Lemma direct_apiRequest_refreshes_token_witness :
  Direct.apiRequest Fake.env Fake.expiring_backend 2 "/api/v4/vms" no_options
    (Fake.holding "stale")
  = (inr (JArr []),
     mkWorld 0 (JStr "fresh")
       [EvRequest (direct_request Fake.env "/api/v4/vms" no_options (JStr "stale"));
        EvRequest (direct_login Fake.env);
        EvRequest (direct_request Fake.env "/api/v4/vms" no_options (JStr "fresh"))]).
Proof.
  apply (direct_apiRequest_refreshes_token Fake.env Fake.expiring_backend 0 "/api/v4/vms"
           no_options (Fake.holding "stale") (JObj [("$key", JStr "fresh")]) (JStr "fresh")
           (JArr [])); reflexivity.
Defined.

(** X17. A failure other than 401 is thrown by the direct proxy after a
    single attempt, with the status and the status text (not the body);
    the token is kept. *)
Theorem direct_apiRequest_other_failure env backend fuel path options w :
  Js.truthy (token w) = true ->
  let rq := direct_request env path options (token w) in
  let response := backend (now w) (trace w) rq in
  resp_status response <> 401 ->
  resp_ok response = false ->
  Direct.apiRequest env backend (S fuel) path options w
  = (inl (Error ("API Error: " ++ Js.num_to_string (resp_status response)
                 ++ " " ++ resp_statusText response)),
     mkWorld (now w) (token w) (trace w ++ [EvRequest rq])).
Proof.
  intros Hw rq response Hne Hfail.
  rewrite (direct_apiRequest_holding env backend fuel path options w Hw).
  fold rq. fold response.
  apply Z.eqb_neq in Hne. rewrite Hne, Hfail. reflexivity.
Qed.

Lemma direct_apiRequest_other_failure_witness :
  Direct.apiRequest Fake.env (Fake.failing_backend 500 "boom") 1 "/api/v4/vms" no_options
    (Fake.holding "tok")
  = (inl (Error "API Error: 500 Error"),
     mkWorld 0 (JStr "tok")
       [EvRequest (direct_request Fake.env "/api/v4/vms" no_options (JStr "tok"))]).
Proof.
  apply (direct_apiRequest_other_failure Fake.env (Fake.failing_backend 500 "boom") 0
           "/api/v4/vms" no_options (Fake.holding "tok")).
  - reflexivity.
  - discriminate.
  - reflexivity.
Defined.

Lemma direct_apiRequest_after_login env backend fuel path options w data key :
  Js.truthy (token w) = false ->
  resp_ok (backend (now w) (trace w) (direct_login env)) = true ->
  resp_json (backend (now w) (trace w) (direct_login env)) = Some data ->
  Js.get data "$key" = inr key ->
  Js.truthy key = true ->
  Direct.apiRequest env backend (S fuel) path options w
  = Direct.apiRequest env backend (S fuel) path options
      (mkWorld (now w) key (trace w ++ [EvRequest (direct_login env)])).
Proof.
  intros Hw Hok Hjson Hkey Htruthy. cbn [Direct.apiRequest].
  rewrite (bind_inr _ _ _ _ _ (direct_getToken_login env backend w data key Hw Hok Hjson Hkey)).
  rewrite (bind_inr _ _ _ _ _
             (direct_getToken_cached env backend (mkWorld (now w) key _) Htruthy)).
  reflexivity.
Qed.

(** X18. The retry of the direct proxy has no bound.  Against a backend
    that answers 401 to every request for the URL and grants every login,
    [apiRequest] never returns: whatever number of attempts the model
    allows, all of them are used up, each by one request for the URL. *)
Theorem direct_apiRequest_retries_without_bound env backend path options data key :
  let url := (Direct.BASE_URL env ++ path)%string in
  (forall t history r, req_url r = url -> resp_status (backend t history r) = 401) ->
  (forall t history, resp_ok (backend t history (direct_login env)) = true
                     /\ resp_json (backend t history (direct_login env)) = Some data) ->
  Js.get data "$key" = inr key ->
  Js.truthy key = true ->
  forall fuel w,
    fst (Direct.apiRequest env backend fuel path options w) = inl OutOfFuel
    /\ sent (is_request_to url) (Direct.apiRequest env backend fuel path options) w = fuel.
Proof.
  intros url H401 Hlogin Hkey Htruthy.
  assert (Hlurl : is_request_to url (EvRequest (direct_login env)) = false).
  { unfold is_request_to.
    destruct (String.eqb_spec (req_url (direct_login env)) url) as [E|]; [|reflexivity].
    exfalso. destruct (Hlogin 0 []) as [Hok _].
    unfold resp_ok in Hok. rewrite (H401 0 [] _ E) in Hok. discriminate. }
  assert (Hrurl : forall tok, is_request_to url (EvRequest (direct_request env path options tok))
                              = true).
  { intros tok. unfold is_request_to, direct_request. cbn [req_url]. apply String.eqb_refl. }
  assert (Hgen : forall fuel w,
             exists new,
               trace (snd (Direct.apiRequest env backend fuel path options w))
               = (trace w ++ new)%list
               /\ count (is_request_to url) new = fuel
               /\ fst (Direct.apiRequest env backend fuel path options w) = inl OutOfFuel).
  { induction fuel as [|fuel IH]; intros w.
    - exists []. simpl. rewrite app_nil_r. auto.
    - assert (Hheld : forall w, Js.truthy (token w) = true ->
                 exists new,
                   trace (snd (Direct.apiRequest env backend (S fuel) path options w))
                   = (trace w ++ new)%list
                   /\ count (is_request_to url) new = S fuel
                   /\ fst (Direct.apiRequest env backend (S fuel) path options w)
                      = inl OutOfFuel).
      { clear w. intros w Hw.
        pose proof (direct_apiRequest_holding env backend fuel path options w Hw) as Hh.
        cbv zeta in Hh. rewrite Hh.
        rewrite (H401 (now w) (trace w) (direct_request env path options (token w)) eq_refl).
        cbn [Z.eqb Pos.eqb trace].
        destruct (IH (mkWorld (now w) JNull
                        (trace w ++ [EvRequest (direct_request env path options (token w))])))
          as [new [E [C F]]].
        exists (EvRequest (direct_request env path options (token w)) :: new).
        split; [|split].
        - rewrite E. cbn [trace]. now rewrite <- app_assoc.
        - change (count (is_request_to url)
                    ([EvRequest (direct_request env path options (token w))] ++ new)%list
                  = S fuel).
          rewrite count_app, C. unfold count. simpl. now rewrite String.eqb_refl.
        - exact F. }
      destruct (Js.truthy (token w)) eqn:Hw; [now apply Hheld|].
      destruct (Hlogin (now w) (trace w)) as [Hok Hjson].
      rewrite (direct_apiRequest_after_login env backend fuel path options w data key
                 Hw Hok Hjson Hkey Htruthy).
      destruct (Hheld (mkWorld (now w) key (trace w ++ [EvRequest (direct_login env)]))
                  Htruthy) as [new [E [C F]]].
      exists (EvRequest (direct_login env) :: new). split; [|split].
      + rewrite E. cbn [trace]. now rewrite <- app_assoc.
      + change (count (is_request_to url) ([EvRequest (direct_login env)] ++ new)%list
                = S fuel).
        rewrite count_app, C. unfold count at 1. cbn [filter]. rewrite Hlurl. reflexivity.
      + exact F. }
  intros fuel w. destruct (Hgen fuel w) as [new [E [C F]]].
  split; [exact F|]. unfold sent. now rewrite (events_since_app _ _ _ E).
Qed.

Lemma direct_apiRequest_retries_without_bound_witness :
  let rejecting : Backend :=
    fun _ _ r =>
      if String.eqb (req_url r) "https://verge.test/api/sys/tokens"
      then Fake.ok_json (JObj [("$key", JStr "fresh")])
      else mkResponse 401 "Unauthorized" "token expired" None in
  fst (Direct.apiRequest Fake.env rejecting 50 "/api/v4/vms" no_options (Fake.holding "stale"))
  = inl OutOfFuel
  /\ sent (is_request_to "https://verge.test/api/v4/vms")
          (Direct.apiRequest Fake.env rejecting 50 "/api/v4/vms" no_options)
          (Fake.holding "stale") = 50%nat.
Proof.
  intros rejecting.
  apply (direct_apiRequest_retries_without_bound Fake.env rejecting "/api/v4/vms" no_options
           (JObj [("$key", JStr "fresh")]) (JStr "fresh")).
  - intros t history r E. unfold rejecting. rewrite E. reflexivity.
  - intros t history. split; reflexivity.
  - reflexivity.
  - reflexivity.
Defined.

(** ** Reading a VM and its status *)

Lemma find_machine_first before o after vm :
  Forall (fun o' => Js.strict_eq (Js.field o' "machine") (Js.field vm "machine") = false)
         before ->
  Js.strict_eq (Js.field o "machine") (Js.field vm "machine") = true ->
  find_machine (map JObj (before ++ o :: after)) (JObj vm) = inr (JObj o).
Proof.
  intros Hb Ho. induction Hb as [|o' before Ho' _ IH]; simpl.
  - unfold Js.field in Ho. now rewrite Ho.
  - unfold Js.field in Ho'. rewrite Ho'. exact IH.
Qed.

Lemma find_machine_none objs vm :
  Forall (fun o' => Js.strict_eq (Js.field o' "machine") (Js.field vm "machine") = false)
         objs ->
  find_machine (map JObj objs) (JObj vm) = inr JUndefined.
Proof.
  induction 1 as [|o' objs Ho' _ IH]; simpl; [reflexivity|].
  unfold Js.field in Ho'. rewrite Ho'. exact IH.
Qed.

(** X19. The status list is filtered on the client.  [getVMStatus] reports
    the first entry of the list whose [machine] equals the machine of the
    VM, whatever entries of other machines come before or after it; when
    no entry matches it reports the power state "unknown" and
    [running: false]. *)
Theorem getVMStatus_filters_by_machine env backend id w vm w1 objs w2 :
  Http.request env backend ("/api/v4/vms/" ++ Js.num_to_string id ++ "?fields=most")
    no_options w = (inr (JObj vm), w1) ->
  Http.request env backend "/api/v4/machine_status" no_options w1
  = (inr (JArr (map JObj objs)), w2) ->
  let other o := Js.strict_eq (Js.field o "machine") (Js.field vm "machine") = false in
  (Forall other objs ->
   getVMStatus env backend id w
   = (inr [("vm_id", JNum id); ("name", Js.field vm "name");
           ("power_state", JStr "unknown"); ("running", JBool false)], w2))
  /\ (forall before o after,
        objs = (before ++ o :: after)%list ->
        Forall other before ->
        Js.strict_eq (Js.field o "machine") (Js.field vm "machine") = true ->
        getVMStatus env backend id w
        = (inr [("vm_id", JNum id); ("name", Js.field vm "name");
                ("machine", Js.field vm "machine");
                ("running", Js.field o "running");
                ("power_state", Js.field o "status");
                ("status_info", Js.or (Js.field o "status_info") (JStr ""));
                ("migratable", Js.field o "migratable")], w2)).
Proof.
  intros Hvm Hst other. split.
  - intros Hnone.
    assert (Hf : statuses_find (JArr (map JObj objs)) (JObj vm) = inr JUndefined)
      by exact (find_machine_none objs vm Hnone).
    unfold getVMStatus.
    rewrite (bind_inr _ _ _ _ _ Hvm), (bind_inr _ _ _ _ _ Hst), Hf. reflexivity.
  - intros before o after Hobjs Hbefore Ho.
    assert (Hf : statuses_find (JArr (map JObj objs)) (JObj vm) = inr (JObj o))
      by (rewrite Hobjs; exact (find_machine_first before o after vm Hbefore Ho)).
    unfold getVMStatus.
    rewrite (bind_inr _ _ _ _ _ Hvm), (bind_inr _ _ _ _ _ Hst), Hf. reflexivity.
Qed.

Lemma getVMStatus_filters_by_machine_witness :
  let backend := Fake.vm_backend 7 Fake.stopped in
  fst (getVMStatus Fake.env backend 7 (Fake.holding "tok"))
  = inr [("vm_id", JNum 7); ("name", JStr "web"); ("machine", JNum 70);
         ("running", JBool false); ("power_state", JStr "stopped");
         ("status_info", JStr ""); ("migratable", JBool true)].
Proof.
  intros backend.
  pose (w := Fake.holding "tok").
  pose (other := [("machine", JNum 1); ("running", JBool true); ("status", JStr "running")]).
  pose (mine := [("machine", JNum 70); ("running", JBool false); ("status", JStr "stopped");
                 ("status_info", JStr ""); ("migratable", JBool true)]).
  pose (vm := [("$key", JNum 7); ("name", JStr "web"); ("machine", JNum 70);
               ("cpu_cores", JNum 2); ("ram", JNum 4096)]).
  assert (Hx : exists w1 w2,
             Http.request Fake.env backend
               ("/api/v4/vms/" ++ Js.num_to_string 7 ++ "?fields=most") no_options w
             = (inr (JObj vm), w1)
             /\ Http.request Fake.env backend "/api/v4/machine_status" no_options w1
                = (inr (JArr (map JObj [other; mine])), w2)).
  { pose (r1 := Http.request Fake.env backend "/api/v4/vms/7?fields=most" no_options w).
    pose (r2 := Http.request Fake.env backend "/api/v4/machine_status" no_options (snd r1)).
    exists (snd r1), (snd r2). split; vm_compute; reflexivity. }
  destruct Hx as [w1 [w2 [H1 H2]]].
  destruct (getVMStatus_filters_by_machine Fake.env backend 7 w vm w1
              [other; mine] w2 H1 H2) as [_ Hfirst].
  fold w. rewrite (Hfirst [other] mine [] eq_refl) by (repeat constructor).
  reflexivity.
Defined.

Lemma lookup_set_prop_same k v o : Js.lookup k (Js.set_prop k v o) = Some v.
Proof.
  induction o as [|[k' v'] tl IH]; simpl.
  - now rewrite String.eqb_refl.
  - destruct (String.eqb k k') eqn:E; simpl; rewrite E; [reflexivity | exact IH].
Qed.

Lemma lookup_set_prop_other k k' v o :
  k' <> k -> Js.lookup k' (Js.set_prop k v o) = Js.lookup k' o.
Proof.
  intros Hne. induction o as [|[k0 v0] tl IH]; simpl.
  - apply String.eqb_neq in Hne. now rewrite Hne.
  - destruct (String.eqb_spec k k0) as [->|Hk]; simpl.
    + apply String.eqb_neq in Hne. now rewrite Hne.
    + now rewrite IH.
Qed.

Lemma field_set_prop_same k v o : Js.field (Js.set_prop k v o) k = v.
Proof. unfold Js.field. now rewrite lookup_set_prop_same. Qed.

Lemma field_set_prop_other k k' v o :
  k' <> k -> Js.field (Js.set_prop k v o) k' = Js.field o k'.
Proof. intros H. unfold Js.field. now rewrite lookup_set_prop_other. Qed.

Lemma get_of_status found k :
  exists v, Js.get (Js.or found (JObj [])) k = inr v
            /\ (Js.truthy found = false -> v = JUndefined).
Proof.
  unfold Js.or. destruct (Js.truthy found) eqn:Ht.
  - destruct found; try discriminate; simpl; eexists; split; try reflexivity; discriminate.
  - simpl. eexists. split; reflexivity.
Qed.

(** X20. [getVM] returns the VM record of the backend with four fields
    added: every other field of the record is passed on unchanged, and
    [power_state], [running], [status_info] and [migratable] are always
    present; without a status entry for the machine they are "unknown",
    [false], the empty string and [false]. *)
Theorem getVM_adds_status_fields env backend id w vm w1 statuses w2 found :
  Http.request env backend ("/api/v4/vms/" ++ Js.num_to_string id ++ "?fields=most")
    no_options w = (inr (JObj vm), w1) ->
  Http.request env backend "/api/v4/machine_status" no_options w1 = (inr statuses, w2) ->
  statuses_find statuses (JObj vm) = inr found ->
  exists result,
    getVM env backend id w = (inr result, w2)
    /\ (forall k, k <> "power_state"%string -> k <> "running"%string ->
                  k <> "status_info"%string -> k <> "migratable"%string ->
                  Js.field result k = Js.field vm k)
    /\ Js.has_field result "power_state" = true
    /\ Js.has_field result "running" = true
    /\ Js.has_field result "status_info" = true
    /\ Js.has_field result "migratable" = true
    /\ (Js.truthy found = false ->
        Js.field result "power_state" = JStr "unknown"
        /\ Js.field result "running" = JBool false
        /\ Js.field result "status_info" = JStr ""
        /\ Js.field result "migratable" = JBool false).
Proof.
  intros Hvm Hst Hfound.
  destruct (get_of_status found "status") as [v1 [G1 U1]].
  destruct (get_of_status found "running") as [v2 [G2 U2]].
  destruct (get_of_status found "status_info") as [v3 [G3 U3]].
  destruct (get_of_status found "migratable") as [v4 [G4 U4]].
  eexists. split.
  { unfold getVM. unfold bind at 1. unfold promise_all2.
    rewrite Hvm, Hst. cbn [lift ret bind]. rewrite Hfound. cbn [lift ret bind].
    unfold bind. cbn [lift]. rewrite G1. cbn [ret]. rewrite G2. cbn [ret].
    rewrite G3. cbn [ret]. rewrite G4. cbn [ret Js.spread]. reflexivity. }
  split.
  { intros k H1 H2 H3 H4.
    rewrite !field_set_prop_other by assumption. reflexivity. }
  unfold Js.has_field.
  split; [rewrite lookup_set_prop_other, lookup_set_prop_other, lookup_set_prop_other,
            lookup_set_prop_same by discriminate; reflexivity|].
  split; [rewrite lookup_set_prop_other, lookup_set_prop_other,
            lookup_set_prop_same by discriminate; reflexivity|].
  split; [rewrite lookup_set_prop_other, lookup_set_prop_same by discriminate; reflexivity|].
  split; [rewrite lookup_set_prop_same; reflexivity|].
  intros Hf. rewrite (U1 Hf), (U2 Hf), (U3 Hf), (U4 Hf).
  split; [|split; [|split]].
  - rewrite !field_set_prop_other by discriminate. apply field_set_prop_same.
  - rewrite !field_set_prop_other by discriminate. apply field_set_prop_same.
  - rewrite !field_set_prop_other by discriminate. apply field_set_prop_same.
  - apply field_set_prop_same.
Qed.

Lemma getVM_adds_status_fields_witness :
  let backend := Fake.vm_backend 7 Fake.never_stops in
  let run := getVM Fake.env backend 7 (Fake.holding "tok") in
  fst run = inr [("$key", JNum 7); ("name", JStr "web"); ("machine", JNum 70);
                 ("cpu_cores", JNum 2); ("ram", JNum 4096);
                 ("power_state", JStr "running"); ("running", JBool true);
                 ("status_info", JStr ""); ("migratable", JBool true)]
  /\ Js.field (match fst run with inr r => r | inl _ => [] end) "ram" = JNum 4096.
Proof.
  intros backend run.
  pose (w := Fake.holding "tok").
  pose (r1 := Http.request Fake.env backend "/api/v4/vms/7?fields=most" no_options w).
  pose (r2 := Http.request Fake.env backend "/api/v4/machine_status" no_options (snd r1)).
  pose (vm := [("$key", JNum 7); ("name", JStr "web"); ("machine", JNum 70);
               ("cpu_cores", JNum 2); ("ram", JNum 4096)]).
  pose (statuses := match fst r2 with inr v => v | inl _ => JNull end).
  pose (found := match statuses_find statuses (JObj vm) with inr v => v | inl _ => JNull end).
  assert (H1 : Http.request Fake.env backend
                 ("/api/v4/vms/" ++ Js.num_to_string 7 ++ "?fields=most") no_options w
               = (inr (JObj vm), snd r1)) by (vm_compute; reflexivity).
  assert (H2 : Http.request Fake.env backend "/api/v4/machine_status" no_options (snd r1)
               = (inr statuses, snd r2)) by (vm_compute; reflexivity).
  assert (H3 : statuses_find statuses (JObj vm) = inr found) by (vm_compute; reflexivity).
  destruct (getVM_adds_status_fields Fake.env backend 7 w vm (snd r1) statuses (snd r2)
              found H1 H2 H3) as [result [E [Hframe _]]].
  split; [vm_compute; reflexivity|].
  unfold run. fold w. rewrite E. cbn [fst].
  rewrite (Hframe "ram") by discriminate. reflexivity.
Defined.

(** ** Adding a drive *)

(** X21. [addDrive] validates before it sends: without a name, with an
    empty name, without a size or with a size below 1 GB it returns a
    failure and the world is left as it was, so no request is sent. *)
Theorem addDrive_rejects_bad_input env backend machineId options w :
  ad_name options = None \/ ad_name options = Some ""%string
  \/ ad_size_gb options = None \/ (exists g, ad_size_gb options = Some g /\ g < 1) ->
  exists msg,
    addDrive env backend machineId options w
    = (inr [("success", JBool false); ("error", JStr msg)], w).
Proof.
  intros Hbad. unfold addDrive. cbv zeta.
  destruct (negb (Js.truthy (opt_str (ad_name options)))) eqn:Hn;
    [eexists; reflexivity|].
  assert (Hsize : negb (Js.truthy (opt_num (ad_size_gb options)))
                  || (default 0 (ad_size_gb options) <? 1) = true).
  { destruct Hbad as [E|[E|[E|[g [E Hg]]]]]; rewrite E in *; try discriminate.
    - reflexivity.
    - cbn [default]. apply Z.ltb_lt in Hg. rewrite Hg. apply orb_true_r. }
  rewrite Hsize. eexists. reflexivity.
Qed.

Lemma addDrive_rejects_bad_input_witness :
  exists msg,
    addDrive Fake.env (Fake.vm_backend 7 Fake.stopped) 70
      (mkAddDriveOptions (Some "data") (Some 0) None None) Fake.fresh_http
    = (inr [("success", JBool false); ("error", JStr msg)], Fake.fresh_http).
Proof.
  apply addDrive_rejects_bad_input.
  right. right. right. exists 0. split; [reflexivity | lia].
Defined.

(** X22. A drive is created only from validated input, with its size in
    bytes.  When [addDrive] reports success, a name was given, the size
    was at least 1 GB, and the last event of the run is one POST whose body
    carries the machine, the name and the size multiplied by 2^30; before
    it nothing but logins was sent. *)
Theorem addDrive_posts_size_in_bytes env backend machineId options w result w' :
  addDrive env backend machineId options w = (inr result, w') ->
  Js.field result "success" = JBool true ->
  exists name g pre rq body,
    ad_name options = Some name /\ name <> ""%string
    /\ ad_size_gb options = Some g /\ 1 <= g
    /\ trace w' = (trace w ++ pre ++ [EvRequest rq])%list
    /\ Forall (is_login env) pre
    /\ req_method rq = Some "POST"%string
    /\ req_body rq = Some (JObj body)
    /\ Js.field body "machine" = JNum machineId
    /\ Js.field body "name" = JStr name
    /\ Js.field body "disksize" = JNum (g * 1073741824).
Proof.
  unfold addDrive. cbv zeta.
  destruct (ad_name options) as [name|] eqn:Hname; cbn [opt_str Js.truthy negb];
    [|intros H; inversion H; subst; discriminate].
  destruct (String.eqb_spec name "") as [->|Hne]; cbn [negb];
    [intros H; inversion H; subst; discriminate|].
  destruct (ad_size_gb options) as [g|] eqn:Hsize; cbn [opt_num default Js.truthy negb orb];
    [|intros H; inversion H; subst; discriminate].
  destruct (g =? 0) eqn:Hz; cbn [negb orb];
    [intros H; inversion H; subst; discriminate|].
  destruct (Z.ltb_spec g 1) as [Hlt|Hge];
    [intros H; inversion H; subst; discriminate|].
  match goal with
  | |- context [bind (Http.request env backend ?p ?o)] =>
      destruct (Http.request env backend p o w) as [[e|res] w1] eqn:Hr
  end.
  { rewrite (bind_inl _ _ _ _ _ Hr). discriminate. }
  rewrite (bind_inr _ _ _ _ _ Hr).
  destruct (Js.get res "$key") as [e|drive_id]; unfold bind, lift, throw, ret;
    [discriminate|].
  intros H _. inversion H; subst w'.
  destruct (request_ok _ _ _ _ _ _ _ _ Hr) as [pre [rq [Et [Fl [_ [Hm Hb]]]]]].
  cbn [opt_method opt_body] in Hm, Hb.
  exists name, g, pre, rq. eexists.
  repeat (split; [first [reflexivity | eassumption] |]).
  cbn [Js.to_string]. unfold drive_body, Js.field. cbn.
  repeat split. f_equal. lia.
Qed.

Lemma addDrive_posts_size_in_bytes_witness :
  let backend : Backend := fun _ _ _ => Fake.ok_json (JObj [("$key", JNum 12)]) in
  let options := mkAddDriveOptions (Some "data") (Some 20) None None in
  exists rq body,
    In (EvRequest rq) (trace (snd (addDrive Fake.env backend 70 options (Fake.holding "tok"))))
    /\ req_body rq = Some (JObj body)
    /\ Js.field body "disksize" = JNum 21474836480.
Proof.
  intros backend options.
  assert (Hx : exists result w',
             addDrive Fake.env backend 70 options (Fake.holding "tok") = (inr result, w')
             /\ Js.field result "success" = JBool true).
  { pose (run := addDrive Fake.env backend 70 options (Fake.holding "tok")).
    exists (match fst run with inr r => r | inl _ => [] end), (snd run).
    split; vm_compute; reflexivity. }
  destruct Hx as [result [w' [E Hs]]].
  destruct (addDrive_posts_size_in_bytes Fake.env backend 70 options (Fake.holding "tok")
              result w' E Hs)
    as [name [g [pre [rq [body [_ [_ [Hg [_ [Et [_ [_ [Hb [_ [_ Hd]]]]]]]]]]]]]]].
  exists rq, body. rewrite E. cbn [snd]. rewrite Et.
  split; [|split; [exact Hb|]].
  - apply in_or_app. right. apply in_or_app. right. now left.
  - inversion Hg; subst g. exact Hd.
Defined.

(** ** Creating a snapshot *)

(** X23. The name of a snapshot is checked only after the VM was read.
    Without a name (or with an empty one) [createVMSnapshot] still runs
    [getVM]: it ends in the world [getVM] leaves, having sent reads only
    and no snapshot request, and throws "Snapshot name is required" when
    the VM could be read, the error of the read otherwise. *)
Theorem createVMSnapshot_checks_name_after_reading env backend vmId options w :
  so_name options = None \/ so_name options = Some ""%string ->
  let run := createVMSnapshot env backend vmId options w in
  let read := getVM env backend vmId w in
  snd run = snd read
  /\ (forall vm, fst read = inr vm -> fst run = inl (Error "Snapshot name is required"))
  /\ (forall e, fst read = inl e -> fst run = inl e)
  /\ exists new, trace (snd run) = (trace w ++ new)%list /\ Forall (is_read env) new.
Proof.
  intros Hname run read.
  assert (Hfalsy : negb (Js.truthy (opt_str (so_name options))) = true)
    by (destruct Hname as [-> | ->]; reflexivity).
  assert (Hrun : run = match fst read with
                       | inl e => (inl e, snd read)
                       | inr _ => (inl (Error "Snapshot name is required"), snd read)
                       end).
  { unfold run, read, createVMSnapshot. cbv zeta.
    destruct (getVM env backend vmId w) as [[e|vm] w1] eqn:Hvm.
    - now rewrite (bind_inl _ _ _ _ _ Hvm).
    - now rewrite (bind_inr _ _ _ _ _ Hvm), Hfalsy. }
  assert (Hsnd : snd run = snd read) by (rewrite Hrun; destruct (fst read); reflexivity).
  split; [exact Hsnd|].
  split; [intros vm E; rewrite Hrun, E; reflexivity|].
  split; [intros e E; rewrite Hrun, E; reflexivity|].
  rewrite Hsnd. apply (emits_getVM env backend vmId w).
Qed.

Lemma createVMSnapshot_checks_name_after_reading_witness :
  let backend := Fake.vm_backend 7 Fake.stopped in
  let options := mkSnapshotOptions None None None None in
  fst (createVMSnapshot Fake.env backend 7 options (Fake.holding "tok"))
  = inl (Error "Snapshot name is required")
  /\ snd (createVMSnapshot Fake.env backend 7 options (Fake.holding "tok"))
     = snd (getVM Fake.env backend 7 (Fake.holding "tok")).
Proof.
  intros backend options.
  destruct (createVMSnapshot_checks_name_after_reading Fake.env backend 7 options
              (Fake.holding "tok") (or_introl eq_refl)) as [Hsnd _].
  split; [vm_compute; reflexivity | exact Hsnd].
Defined.

Lemma snapshot_body_dated machineId name description days quiesce stamp :
  0 < days -> stamp <> 0 ->
  let body := snapshot_body machineId name description days quiesce (JNum stamp) in
  Js.field body "expires_type" = JStr "date" /\ Js.field body "expires" = JNum stamp.
Proof.
  intros Hd Hs body. unfold body, snapshot_body. cbv zeta.
  apply Z.ltb_lt in Hd. rewrite Hd.
  apply Z.eqb_neq in Hs. cbn [Js.truthy]. rewrite Hs. cbn [negb].
  split; [|apply field_set_prop_same].
  rewrite field_set_prop_other by discriminate. reflexivity.
Qed.

Lemma snapshot_body_never machineId name description days quiesce :
  days <= 0 ->
  let body := snapshot_body machineId name description days quiesce JNull in
  Js.field body "expires_type" = JStr "never" /\ Js.has_field body "expires" = false.
Proof.
  intros Hd body. unfold body, snapshot_body. cbv zeta.
  assert (H : (0 <? days) = false) by (apply Z.ltb_ge; exact Hd).
  rewrite H. split; reflexivity.
Qed.

(** X24. The expiry of a snapshot.  When [createVMSnapshot] succeeds on a
    clock that is not negative, its run ends in one POST, preceded by
    reads only, and the body of the POST says when the snapshot expires:
    for a positive number of days (7 when none is given) the type is
    "date" and [expires] is the time of the call in seconds plus 86400
    for each day; otherwise the type is "never" and the body has no
    [expires] field.  The result names the same expiry. *)
Theorem createVMSnapshot_expiry env backend vmId options w result w' :
  createVMSnapshot env backend vmId options w = (inr result, w') ->
  0 <= now w ->
  let days := default 7 (so_expires_days options) in
  exists before rq body,
    trace w' = (trace w ++ before ++ [EvRequest rq])%list
    /\ Forall (is_read env) before
    /\ req_method rq = Some "POST"%string
    /\ req_body rq = Some (JObj body)
    /\ (0 < days ->
        Js.field body "expires_type" = JStr "date"
        /\ Js.field body "expires" = JNum (now w / 1000 + days * 86400)
        /\ Js.field result "expires" = JStr (Js.num_to_string days ++ " days"))
    /\ (days <= 0 ->
        Js.field body "expires_type" = JStr "never"
        /\ Js.has_field body "expires" = false
        /\ Js.field result "expires" = JStr "never").
Proof.
  intros H Hnow days. revert H. unfold createVMSnapshot. cbv zeta. fold days.
  destruct (getVM env backend vmId w) as [[e|vm] w1] eqn:Hvm.
  { rewrite (bind_inl _ _ _ _ _ Hvm). discriminate. }
  rewrite (bind_inr _ _ _ _ _ Hvm).
  destruct (negb (Js.truthy (opt_str (so_name options)))); [discriminate|].
  rewrite bind_date_now.
  pose proof (quiet_run _ _ _ _ (quiet_getVM env backend vmId) Hvm) as Hclock.
  destruct (emits_run _ _ _ _ _ (emits_getVM env backend vmId) Hvm) as [n1 [E1 F1]].
  rewrite Hclock.
  match goal with
  | |- context [bind (Http.request env backend ?p ?o)] =>
      destruct (Http.request env backend p o w1) as [[e|res] w2] eqn:Hr
  end.
  { rewrite (bind_inl _ _ _ _ _ Hr). discriminate. }
  rewrite (bind_inr _ _ _ _ _ Hr).
  destruct (Js.get res "$key") as [e|snapshot_id]; unfold bind, lift, throw, ret;
    [discriminate|].
  intros H. inversion H; subst w'. clear H.
  destruct (request_ok _ _ _ _ _ _ _ _ Hr) as [pre [rq [Et [Fl [_ [Hm Hb]]]]]].
  cbn [opt_method opt_body] in Hm, Hb.
  exists (n1 ++ pre)%list, rq. eexists.
  split; [rewrite Et, E1; now rewrite <- !app_assoc|].
  split; [apply Forall_app; split; [exact F1|];
          eapply Forall_impl; [|exact Fl]; intros a; apply login_is_read|].
  split; [exact Hm|]. split; [exact Hb|].
  split.
  - intros Hd.
    assert (Hlt : (0 <? days) = true) by (apply Z.ltb_lt; exact Hd).
    rewrite Hlt.
    assert (Hstamp : now w / 1000 + days * 86400 <> 0).
    { pose proof (Z.div_pos (now w) 1000 Hnow ltac:(lia)). lia. }
    destruct (snapshot_body_dated (Js.field vm "machine")
                (Js.to_string (opt_str (so_name options)))
                (default "" (so_description options)) days
                (default false (so_quiesce options)) _ Hd Hstamp) as [B1 B2].
    split; [exact B1|]. split; [exact B2|]. reflexivity.
  - intros Hd.
    assert (Hlt : (0 <? days) = false) by (apply Z.ltb_ge; exact Hd).
    rewrite Hlt.
    destruct (snapshot_body_never (Js.field vm "machine")
                (Js.to_string (opt_str (so_name options)))
                (default "" (so_description options)) days
                (default false (so_quiesce options)) Hd) as [B1 B2].
    split; [exact B1|]. split; [exact B2|]. reflexivity.
Qed.

Lemma createVMSnapshot_expiry_witness :
  let backend : Backend :=
    fun t history r =>
      if String.eqb (req_url r) "https://verge.test/api/v4/machine_snapshots"
      then Fake.ok_json (JObj [("$key", JNum 5)])
      else Fake.vm_backend 7 Fake.stopped t history r in
  let options := mkSnapshotOptions (Some "nightly") None (Some 2) None in
  let w := mkWorld 1700000000999 (JStr "tok") [] in
  exists rq body,
    In (EvRequest rq) (trace (snd (createVMSnapshot Fake.env backend 7 options w)))
    /\ req_body rq = Some (JObj body)
    /\ Js.field body "expires" = JNum 1700172800.
Proof.
  intros backend options w.
  assert (Hx : exists result w',
             createVMSnapshot Fake.env backend 7 options w = (inr result, w')).
  { pose (run := createVMSnapshot Fake.env backend 7 options w).
    exists (match fst run with inr r => r | inl _ => [] end), (snd run).
    vm_compute. reflexivity. }
  destruct Hx as [result [w' E]].
  assert (Hnow : 0 <= now w) by (vm_compute; discriminate).
  destruct (createVMSnapshot_expiry Fake.env backend 7 options w result w' E Hnow)
    as [before [rq [body [Et [_ [_ [Hb [Hdate _]]]]]]]].
  exists rq, body. rewrite E. cbn [snd]. rewrite Et.
  split; [|split; [exact Hb|]].
  - apply in_or_app. right. apply in_or_app. right. now left.
  - destruct Hdate as [_ [Hexp _]]; [cbn; lia|]. exact Hexp.
Defined.

(** ** Reading the logs *)

Lemma strict_eq_str a s : Js.strict_eq a (JStr s) = true -> a = JStr s.
Proof.
  destruct a; simpl; try discriminate.
  intros H. apply String.eqb_eq in H. now subst.
Qed.

Lemma filter_eq_keeps (P : JsVal -> Prop) key v :
  forall items kept,
    JsArray.filter_eq key v items = inr kept -> Forall P items -> Forall P kept.
Proof.
  induction items as [|x tl IH]; intros kept; simpl.
  - intros H _. inversion H. constructor.
  - destruct (Js.get x key) as [e|xv]; [discriminate|].
    destruct (JsArray.filter_eq key v tl) as [e|kept']; [discriminate|].
    intros H HP. inversion H; subst. inversion HP; subst.
    destruct (Js.strict_eq xv v); [constructor|]; auto.
Qed.

Lemma filter_eq_matches key v :
  forall items kept,
    JsArray.filter_eq key v items = inr kept ->
    Forall (fun x => exists xv, Js.get x key = inr xv /\ Js.strict_eq xv v = true) kept.
Proof.
  induction items as [|x tl IH]; intros kept; simpl.
  - intros H. inversion H. constructor.
  - destruct (Js.get x key) as [e|xv] eqn:Hx; [discriminate|].
    destruct (JsArray.filter_eq key v tl) as [e|kept']; [discriminate|].
    intros H. inversion H; subst.
    destruct (Js.strict_eq xv v) eqn:Hs; [constructor|]; auto.
    exists xv. split; [exact Hx | exact Hs].
Qed.

Lemma Forall_firstn_keeps {A} (P : A -> Prop) n :
  forall l, Forall P l -> Forall P (firstn n l).
Proof.
  induction n as [|n IH]; intros l H; simpl; [constructor|].
  destruct l as [|x tl]; [constructor|].
  inversion H; subst. constructor; auto.
Qed.

Lemma slice_to_length {A} limit (items : list A) :
  0 <= limit -> Z.of_nat (List.length (JsArray.slice_to limit items)) <= limit.
Proof.
  intros Hl. unfold JsArray.slice_to. cbv zeta.
  assert (Hneg : (limit <? 0) = false) by (apply Z.ltb_ge; exact Hl).
  rewrite Hneg, length_firstn. lia.
Qed.

Lemma map_exn_each {A B} (f : A -> Exn + B) (P : A -> Prop) (Q : B -> Prop) :
  (forall x y, P x -> f x = inr y -> Q y) ->
  forall items ys,
    JsArray.map_exn f items = inr ys ->
    Forall P items -> Forall Q ys /\ List.length ys = List.length items.
Proof.
  intros HPQ. induction items as [|x tl IH]; intros ys; simpl.
  - intros H _. inversion H. split; [constructor | reflexivity].
  - destruct (f x) as [e|y] eqn:Hx; [discriminate|].
    destruct (JsArray.map_exn f tl) as [e|ys'] eqn:Htl; [discriminate|].
    intros H HP. inversion H; subst. inversion HP; subst.
    destruct (IH ys' eq_refl) as [HQ Hlen]; [assumption|].
    split; [constructor; eauto | simpl; now rewrite Hlen].
Qed.

Lemma log_summary_fields log r :
  log_summary log = inr r ->
  Js.get log "level" = inr (Js.field r "level")
  /\ Js.get log "object_type" = inr (Js.field r "object_type").
Proof.
  unfold log_summary.
  destruct (Js.get log "$key"); try discriminate.
  destruct (Js.get log "dbtime"); try discriminate.
  destruct (Js.get log "level"); try discriminate.
  destruct (Js.get log "text"); try discriminate.
  destruct (Js.get log "user"); try discriminate.
  destruct (Js.get log "object_type"); try discriminate.
  destruct (Js.get log "object_name"); try discriminate.
  intros H. inversion H. split; reflexivity.
Qed.

Lemma filter_if_keeps (P : JsVal -> Prop) key v items kept :
  filter_if key v items = inr kept -> Forall P items -> Forall P kept.
Proof.
  unfold filter_if. destruct (Js.truthy v).
  - apply filter_eq_keeps.
  - intros H. now inversion H.
Qed.

Lemma filter_if_matches key s items kept :
  s <> ""%string ->
  filter_if key (JStr s) items = inr kept ->
  Forall (fun x => Js.get x key = inr (JStr s)) kept.
Proof.
  intros Hs. unfold filter_if. cbn [Js.truthy].
  apply String.eqb_neq in Hs. rewrite Hs. cbn [negb].
  intros H. apply filter_eq_matches in H.
  eapply Forall_impl; [|exact H].
  intros x [xv [E Hv]]. apply strict_eq_str in Hv. now subst.
Qed.

(** X25. What [getLogs] returns is filtered and cut on the client: for a
    limit that is not negative (50 when none is given) it returns at most
    that many entries, although it may have fetched five times as many,
    and with a level or an object type asked for, every returned entry
    has exactly that level or object type. *)
Theorem getLogs_result_is_filtered env backend options w result w' :
  getLogs env backend options w = (inr result, w') ->
  let limit := default 50 (lo_limit options) in
  (0 <= limit -> Z.of_nat (List.length result) <= limit)
  /\ (forall lv, lo_level options = Some lv -> lv <> ""%string ->
        Forall (fun r => Js.field r "level" = JStr lv) result)
  /\ (forall ot, lo_object_type options = Some ot -> ot <> ""%string ->
        Forall (fun r => Js.field r "object_type" = JStr ot) result).
Proof.
  intros H limit. revert H. unfold getLogs. cbv zeta. fold limit.
  match goal with
  | |- context [bind (Http.request env backend ?p ?o)] =>
      destruct (Http.request env backend p o w) as [[e|logs] w1] eqn:Hr
  end.
  { rewrite (bind_inl _ _ _ _ _ Hr). discriminate. }
  rewrite (bind_inr _ _ _ _ _ Hr). unfold bind, lift, throw, ret.
  destruct (as_array logs) as [e|items]; [discriminate|].
  destruct (filter_if "level" _ items) as [e|by_level] eqn:Hlevel; [discriminate|].
  destruct (filter_if "object_type" _ by_level) as [e|by_type] eqn:Htype; [discriminate|].
  destruct (JsArray.map_exn log_summary (JsArray.slice_to limit by_type))
    as [e|summaries] eqn:Hmap; [discriminate|].
  intros H. inversion H; subst result w'. clear H.
  split; [|split].
  - intros Hl.
    destruct (map_exn_each log_summary (fun _ => True) (fun _ => True)
                (fun _ _ _ _ => I) _ _ Hmap) as [_ Hlen].
    { apply Forall_forall. auto. }
    rewrite Hlen. apply slice_to_length. exact Hl.
  - intros lv Elv Hlv. rewrite Elv in Hlevel. cbn [opt_str] in Hlevel.
    pose proof (filter_if_matches _ _ _ _ Hlv Hlevel) as F1.
    pose proof (filter_if_keeps _ _ _ _ _ Htype F1) as F2.
    apply (map_exn_each log_summary (fun x => Js.get x "level" = inr (JStr lv))
             (fun r => Js.field r "level" = JStr lv)) in Hmap.
    + apply Hmap.
    + intros x y Hx Hy. apply log_summary_fields in Hy. destruct Hy as [Hy _].
      rewrite Hx in Hy. now inversion Hy.
    + unfold JsArray.slice_to. apply Forall_firstn_keeps. exact F2.
  - intros ot Eot Hot. rewrite Eot in Htype. cbn [opt_str] in Htype.
    pose proof (filter_if_matches _ _ _ _ Hot Htype) as F2.
    apply (map_exn_each log_summary (fun x => Js.get x "object_type" = inr (JStr ot))
             (fun r => Js.field r "object_type" = JStr ot)) in Hmap.
    + apply Hmap.
    + intros x y Hx Hy. apply log_summary_fields in Hy. destruct Hy as [_ Hy].
      rewrite Hx in Hy. now inversion Hy.
    + unfold JsArray.slice_to. apply Forall_firstn_keeps. exact F2.
Qed.

Lemma getLogs_result_is_filtered_witness :
  let entry (k : Z) (level : string) : JsVal :=
    JObj [("$key", JNum k); ("dbtime", JNum (1000 + k)); ("level", JStr level);
          ("text", JStr "event"); ("user", JStr "admin");
          ("object_type", JStr "vm"); ("object_name", JStr "web")] in
  let backend : Backend :=
    fun _ _ _ => Fake.ok_json (JArr [entry 4 "error"; entry 3 "message";
                                     entry 2 "error"; entry 1 "error"]) in
  let options := mkLogOptions (Some 2) (Some "error") None in
  match fst (getLogs Fake.env backend options (Fake.holding "tok")) with
  | inr result =>
      map (fun r => Js.field r "id") result = [JNum 4; JNum 2]
      /\ Forall (fun r => Js.field r "level" = JStr "error") result
  | inl _ => False
  end.
Proof.
  intros entry backend options.
  assert (Hx : exists result w',
             getLogs Fake.env backend options (Fake.holding "tok") = (inr result, w')
             /\ map (fun r => Js.field r "id") result = [JNum 4; JNum 2]).
  { pose (run := getLogs Fake.env backend options (Fake.holding "tok")).
    exists (match fst run with inr r => r | inl _ => [] end), (snd run).
    split; vm_compute; reflexivity. }
  destruct Hx as [result [w' [E Hids]]].
  destruct (getLogs_result_is_filtered Fake.env backend options (Fake.holding "tok")
              result w' E) as [_ [Hlevel _]].
  rewrite E. cbn [fst]. split; [exact Hids|].
  apply (Hlevel "error"); [reflexivity | discriminate].
Defined.
